(** * Purchase-with-inventory-lock transaction of the artisan marketplace

    A shallow embedding of [main.py] (the [purchase_with_lock] endpoint, the
    pydantic request models, [create_new_product], [require_role]) and of
    [database.py]
    ([DatabaseManager.get_connection], [get_cursor], [execute_*] and the
    helpers built on them), together with the store they talk to.

    Conventions of the embedding.
    - Python exceptions are the type [exn]; a computation is a function from a
      state to a [result] and a new state (type [M]).
    - The store (PostgreSQL behind psycopg2) is the record [World]: committed
      tables, the row locks taken by [SELECT ... FOR UPDATE NOWAIT], the
      sessions of the pooled connections with their uncommitted writes, the
      id sequences and the pool of idle connections.
    - Every store call of a [try] body can fail: the list [faults] of the
      world names the calls that raise.  The calls of the handlers and of the
      [finally] blocks ([rollback], [close], [putconn], the [autocommit]
      setter) do not fail.
    - Money is a Python [float], as the annotations [price: float] of
      [ProductCreate] and [amount: float] of [create_transaction] declare;
      floats are IEEE-754 binary64 values with round-to-nearest-even
      operations. *)

From Stdlib Require Import ZArith Floats.SpecFloat.
From stdpp Require Import base option list gmap strings pretty.

Local Open Scope Z_scope.

(** ** Python floats *)

Module PyFloat.

Definition float : Type := spec_float.

Definition prec : Z := 53.
Definition emax : Z := 1024.

Definition mul : float → float → float := SFmul prec emax.
Definition sub : float → float → float := SFsub prec emax.

  (** The binary64 value nearest to the rational [n / d] (ties to even),
      with sign [s]: what [strtod] returns for a decimal string. *)
Definition of_ratio (s : bool) (n d : positive) : float :=
    let '(mz, ez, lz) := SFdiv_core_binary prec emax (Zpos n) 0 (Zpos d) 0 in
    binary_round_aux prec emax s mz ez lz.

  (** A decimal literal [m * 10^-digits], such as [0.05 = literal 5 2]. *)
Definition literal (m : Z) (digits : nat) : float :=
    let d := Z.to_pos (Z.pow 10 (Z.of_nat digits)) in
    match m with
    | Z0 => S754_zero false
    | Zpos p => of_ratio false p d
    | Zneg p => of_ratio true p d
    end.

  (** Conversion of a Python [int] operand, as in [price * quantity]:
      correctly rounded; an [int] too large for a float raises
      [OverflowError], here [None]. *)
Definition of_int (n : Z) : option float :=
    match binary_normalize prec emax n 0 false with
    | S754_infinity _ | S754_nan => None
    | x => Some x
    end.

  (** The integer nearest to [n / d], ties to even. *)
Definition div_half_even (n d : Z) : Z :=
    let '(q, r) := Z.div_eucl n d in
    match Z.compare (2 * r) d with
    | Lt => q
    | Gt => q + 1
    | Eq => if Z.even q then q else q + 1
    end.

  (** [round(x, ndigits)] for [ndigits >= 0]: the exact binary value of [x]
      is rounded half-to-even to [ndigits] decimals and the decimal result is
      converted back to the nearest float; infinities and NaN round to
      themselves. *)
Definition round (x : float) (ndigits : nat) : float :=
    match x with
    | S754_finite s m e =>
        let p := Z.pow 10 (Z.of_nat ndigits) in
        let k := match e with
                 | Zneg d => div_half_even (Zpos m * p) (Z.pow 2 (Zpos d))
                 | _ => Zpos m * Z.pow 2 e * p
                 end in
        match k, p with
        | Zpos k', Zpos p' => of_ratio s k' p'
        | _, _ => S754_zero s
        end
    | _ => x
    end.

End PyFloat.

Abbreviation float := PyFloat.float.

(** ** Strings *)

(** [needle in haystack] *)
Fixpoint contains (needle haystack : string) : bool :=
  String.prefix needle haystack
  || match haystack with
     | EmptyString => false
     | String _ rest => contains needle rest
     end.

(** Left padding with zeros, the [%0nd] of a format. *)
Definition zero_pad (width : nat) (s : string) : string :=
  String.concat "" (replicate (width - String.length s)%nat "0"%string) +:+ s.

(** ** Timestamps *)

Record datetime : Type := {
  year : nat; month : nat; day : nat;
  hour : nat; minute : nat; second : nat;
  microsecond : nat;
  utcoffset : option Z   (* minutes east of UTC; [None] for a naive value *)
}.

(** [datetime.isoformat()] *)
Definition isoformat (d : datetime) : string :=
  zero_pad 4 (pretty (year d)) +:+ "-" +:+ zero_pad 2 (pretty (month d)) +:+ "-"
  +:+ zero_pad 2 (pretty (day d)) +:+ "T" +:+ zero_pad 2 (pretty (hour d)) +:+ ":"
  +:+ zero_pad 2 (pretty (minute d)) +:+ ":" +:+ zero_pad 2 (pretty (second d))
  +:+ (if decide (microsecond d = 0%nat) then ""
       else "." +:+ zero_pad 6 (pretty (microsecond d)))
  +:+ match utcoffset d with
      | None => ""
      | Some off =>
          (if decide (off < 0) then "-" else "+")
          +:+ zero_pad 2 (pretty (Z.abs off / 60)) +:+ ":"
          +:+ zero_pad 2 (pretty (Z.abs off mod 60))
      end.

(** ** Exceptions and the computation monad *)

(** The store calls of the two modules, used to name the call that fails. *)
Inductive Call : Type :=
  | CGetconn | CCursor | CCommit
  | CSelectForUpdate | CUpdateStock
  | CInsertOrder | CInsertTransaction | CInsertAuditLog
  | CInsertProduct.

Global Instance Call_eq_dec : EqDecision Call.
Proof. solve_decision. Defined.

Inductive exn : Type :=
  | HTTPException (status_code : Z) (detail : string)
  | ValueError (msg : string)
  | OverflowError
  | PoolError                      (* connection pool exhausted *)
  | LockNotAvailable               (* the NOWAIT lock could not be taken *)
  | DatabaseError (at_call : Call) (* any other error raised by the store *).

Inductive result (A : Type) : Type :=
  | Return (a : A)
  | Raise (e : exn).
Arguments Return {A} a.
Arguments Raise {A} e.

Definition M (S A : Type) : Type := S → result A * S.

Global Instance M_ret {S} : MRet (M S) := λ A a s, (Return a, s).

Global Instance M_bind {S} : MBind (M S) := λ A B f m s,
  match m s with
  | (Return a, s') => f a s'
  | (Raise e, s') => (Raise e, s')
  end.

Definition raise {S A} (e : exn) : M S A := λ s, (Raise e, s).

Definition get {S} : M S S := λ s, (Return s, s).

Definition modify {S} (f : S → S) : M S unit := λ s, (Return tt, f s).

(** [try: m  except Exception as e: handler e] *)
Definition try_except {S A} (m : M S A) (handler : exn → M S A) : M S A := λ s,
  match m s with
  | (Return a, s') => (Return a, s')
  | (Raise e, s') => handler e s'
  end.

(** [try: m  finally: cleanup]; an exception of the cleanup replaces the
    outcome of [m]. *)
Definition try_finally {S A} (m : M S A) (cleanup : M S unit) : M S A := λ s,
  let '(r, s') := m s in
  match cleanup s' with
  | (Return _, s'') => (r, s'')
  | (Raise e, s'') => (Raise e, s'')
  end.

Definition when {S} (b : bool) (m : M S unit) : M S unit :=
  if b then m else mret tt.

(** ** The persistent store *)

(** One module per table; a row keeps the columns the two modules name. *)

Module Products.
Record row : Type := {
    artisan_id : Z;
    product_name : string;
    description : string;
    price : float;
    stock_quantity : Z;
    category : string;
    image_url : option string
  }.

Definition with_stock (new_stock : Z) (r : row) : row :=
    {| artisan_id := artisan_id r; product_name := product_name r;
       description := description r; price := price r;
       stock_quantity := new_stock; category := category r;
       image_url := image_url r |}.
End Products.

Module Orders.
Record row : Type := {
    order_id : Z;
    buyer_id : Z;
    product_id : Z;
    quantity : Z;
    total_price : float;
    shipping_address : string;
    created_at : datetime
  }.
End Orders.

Module Transactions.
Record row : Type := {
    transaction_id : Z;
    order_id : Z;
    artisan_id : Z;
    buyer_id : Z;
    product_id : Z;
    amount : float;
    commission_fee : float;
    artisan_payout : float
  }.
End Transactions.

(** The values the code puts in a [details] dictionary; [json.dumps] and the
    [jsonb] cast keep this structure. *)
Inductive json : Type :=
  | JStr (s : string)
  | JInt (n : Z)
  | JFloat (x : float).

Module AuditLogs.
Record row : Type := {
    user_id : Z;
    action_type : string;
    entity_type : option string;
    entity_id : option Z;
    details : option (list (string * json));
    ip_address : option string
  }.
End AuditLogs.

Record Tables : Type := {
  products : gmap Z Products.row;            (* keyed by product_id *)
  orders : list Orders.row;
  transactions : list Transactions.row;
  audit_logs : list AuditLogs.row
}.

(** The writes a transaction holds until it commits. *)
Inductive Write : Type :=
  | WSetStock (product_id new_stock : Z)
  | WInsertProduct (product_id : Z) (r : Products.row)
  | WInsertOrder (r : Orders.row)
  | WInsertTransaction (r : Transactions.row)
  | WInsertAuditLog (r : AuditLogs.row).

Definition apply_write (t : Tables) (w : Write) : Tables :=
  match w with
  | WSetStock product_id new_stock =>
      {| products := alter (Products.with_stock new_stock) product_id (products t);
         orders := orders t; transactions := transactions t;
         audit_logs := audit_logs t |}
  | WInsertProduct product_id r =>
      {| products := <[product_id := r]> (products t);
         orders := orders t; transactions := transactions t;
         audit_logs := audit_logs t |}
  | WInsertOrder r =>
      {| products := products t; orders := orders t ++ [r];
         transactions := transactions t; audit_logs := audit_logs t |}
  | WInsertTransaction r =>
      {| products := products t; orders := orders t;
         transactions := transactions t ++ [r]; audit_logs := audit_logs t |}
  | WInsertAuditLog r =>
      {| products := products t; orders := orders t;
         transactions := transactions t; audit_logs := audit_logs t ++ [r] |}
  end.

Definition apply_writes (t : Tables) (ws : list Write) : Tables :=
  foldl apply_write t ws.

(** A pooled connection: its [autocommit] attribute and the writes of its
    open transaction. *)
Record Session : Type := {
  autocommit : bool;
  pending : list Write
}.

Definition fresh_session : Session := {| autocommit := false; pending := [] |}.

(** What the driver was asked to do, in order. *)
Inductive Event : Type :=
  | EGetconn (c : nat)
  | EPutconn (c : nat)
  | ECursor (c : nat)
  | EClose (c : nat)
  | EAutocommit (c : nat) (b : bool)
  | EExecute (c : nat) (call : Call)
  | ECommit (c : nat)
  | ERollback (c : nat).

Record World : Type := {
  db : Tables;                    (* the committed rows *)
  row_locks : gmap Z nat;         (* product_id ↦ connection holding its row lock *)
  sessions : gmap nat Session;
  pool : list nat;                (* idle connections of the pool *)
  next_product_id : Z;
  next_order_id : Z;
  next_transaction_id : Z;
  now : datetime;                 (* CURRENT_TIMESTAMP *)
  faults : list Call;             (* the store calls that raise *)
  log : list Event
}.

Definition set_db (f : Tables → Tables) (w : World) : World :=
  {| db := f (db w); row_locks := row_locks w; sessions := sessions w;
     pool := pool w; next_product_id := next_product_id w;
     next_order_id := next_order_id w;
     next_transaction_id := next_transaction_id w; now := now w;
     faults := faults w; log := log w |}.

Definition set_row_locks (f : gmap Z nat → gmap Z nat) (w : World) : World :=
  {| db := db w; row_locks := f (row_locks w); sessions := sessions w;
     pool := pool w; next_product_id := next_product_id w;
     next_order_id := next_order_id w;
     next_transaction_id := next_transaction_id w; now := now w;
     faults := faults w; log := log w |}.

Definition set_sessions (f : gmap nat Session → gmap nat Session) (w : World) : World :=
  {| db := db w; row_locks := row_locks w; sessions := f (sessions w);
     pool := pool w; next_product_id := next_product_id w;
     next_order_id := next_order_id w;
     next_transaction_id := next_transaction_id w; now := now w;
     faults := faults w; log := log w |}.

Definition set_pool (f : list nat → list nat) (w : World) : World :=
  {| db := db w; row_locks := row_locks w; sessions := sessions w;
     pool := f (pool w); next_product_id := next_product_id w;
     next_order_id := next_order_id w;
     next_transaction_id := next_transaction_id w; now := now w;
     faults := faults w; log := log w |}.

Definition set_next_ids (p o t : Z) (w : World) : World :=
  {| db := db w; row_locks := row_locks w; sessions := sessions w;
     pool := pool w; next_product_id := p; next_order_id := o;
     next_transaction_id := t; now := now w;
     faults := faults w; log := log w |}.

Definition set_faults (fs : list Call) (w : World) : World :=
  {| db := db w; row_locks := row_locks w; sessions := sessions w;
     pool := pool w; next_product_id := next_product_id w;
     next_order_id := next_order_id w;
     next_transaction_id := next_transaction_id w; now := now w;
     faults := fs; log := log w |}.

Definition record_event (e : Event) (w : World) : World :=
  {| db := db w; row_locks := row_locks w; sessions := sessions w;
     pool := pool w; next_product_id := next_product_id w;
     next_order_id := next_order_id w;
     next_transaction_id := next_transaction_id w; now := now w;
     faults := faults w; log := log w ++ [e] |}.

Definition session (w : World) (c : nat) : Session :=
  default fresh_session (sessions w !! c).

Definition set_session (c : nat) (s : Session) : World → World :=
  set_sessions <[c := s]>.

(** The rows connection [c] sees: the committed ones and its own writes. *)
Definition view (w : World) (c : nat) : Tables :=
  apply_writes (db w) (pending (session w c)).

Definition fails (call : Call) (w : World) : bool :=
  bool_decide (call ∈ faults w).

(** End of a transaction of [c]: its row locks are released. *)
Definition unlock (c : nat) (locks : gmap Z nat) : gmap Z nat :=
  filter (λ kv : Z * nat, kv.2 ≠ c) locks.

Definition release_locks (c : nat) : World → World :=
  set_row_locks (unlock c).

Definition end_transaction (c : nat) (w : World) : World :=
  release_locks c
    (set_session c {| autocommit := autocommit (session w c); pending := [] |} w).

(** ** The driver: pool, connections and cursors *)

(** [connection_pool.getconn()] *)
Definition getconn : M World nat := λ w,
  if fails CGetconn w then (Raise (DatabaseError CGetconn), w)
  else match pool w with
       | [] => (Raise PoolError, w)
       | c :: rest => (Return c, record_event (EGetconn c) (set_pool (λ _, rest) w))
       end.

(** [connection_pool.putconn(c)]: the pool rolls back a transaction that is
    still open before it takes the connection back. *)
Definition putconn (c : nat) : M World unit :=
  modify (λ w, record_event (EPutconn c) (set_pool (cons c) (end_transaction c w))).

(** [connection.cursor()]; a cursor is named by its connection. *)
Definition connection_cursor (c : nat) : M World nat := λ w,
  if fails CCursor w then (Raise (DatabaseError CCursor), record_event (ECursor c) w)
  else (Return c, record_event (ECursor c) w).

Definition cursor_close (k : nat) : M World unit :=
  modify (record_event (EClose k)).

(** [connection.autocommit = b] *)
Definition set_autocommit (c : nat) (b : bool) : M World unit :=
  modify (λ w, record_event (EAutocommit c b)
                 (set_session c {| autocommit := b; pending := pending (session w c) |} w)).

Definition connection_commit (c : nat) : M World unit := λ w,
  if fails CCommit w then (Raise (DatabaseError CCommit), record_event (ECommit c) w)
  else (Return tt,
        record_event (ECommit c)
          (end_transaction c (set_db (λ t, apply_writes t (pending (session w c))) w))).

Definition connection_rollback (c : nat) : M World unit :=
  modify (λ w, record_event (ERollback c) (end_transaction c w)).

(** A write of connection [c]: applied at once under autocommit, kept with
    the open transaction otherwise. *)
Definition write (c : nat) (wr : Write) (w : World) : World :=
  if autocommit (session w c) then set_db (λ t, apply_write t wr) w
  else set_session c {| autocommit := false; pending := pending (session w c) ++ [wr] |} w.

(** The statements of the two modules, indexed by what [fetchone] (or
    [rowcount]) gives back. *)
Inductive Sql : Type → Type :=
  | SelectProductForUpdateNowait (product_id : Z)
      : Sql (option (Z * Z * string * float * Z))
  | UpdateProductStock (new_stock product_id : Z) : Sql nat
  | InsertOrder (buyer_id product_id quantity : Z) (total_price : float)
      (shipping_address : string) : Sql Orders.row
  | InsertTransaction (order_id artisan_id buyer_id product_id : Z)
      (amount commission_fee artisan_payout : float) : Sql Transactions.row
  | InsertAuditLog (user_id : Z) (action_type : string)
      (entity_type : option string) (entity_id : option Z)
      (details : option (list (string * json))) (ip_address : option string)
      : Sql AuditLogs.row
  | InsertProduct (artisan_id : Z) (product_name description : string)
      (price : float) (stock_quantity : Z) (category : string)
      (image_url : option string) : Sql (Z * Products.row).

Definition call_of {R} (q : Sql R) : Call :=
  match q with
  | SelectProductForUpdateNowait _ => CSelectForUpdate
  | UpdateProductStock _ _ => CUpdateStock
  | InsertOrder _ _ _ _ _ => CInsertOrder
  | InsertTransaction _ _ _ _ _ _ _ => CInsertTransaction
  | InsertAuditLog _ _ _ _ _ _ => CInsertAuditLog
  | InsertProduct _ _ _ _ _ _ _ => CInsertProduct
  end.

Definition run_sql {R} (c : nat) (q : Sql R) (w : World) : result R * World :=
  match q in Sql R return result R * World with
  | SelectProductForUpdateNowait product_id =>
      match products (view w c) !! product_id with
      | None => (Return None, w)
      | Some r =>
          let found := Some (product_id, Products.artisan_id r, Products.product_name r,
                             Products.price r, Products.stock_quantity r) in
          match row_locks w !! product_id with
          | Some holder =>
              if decide (holder = c) then (Return found, w)
              else (Raise LockNotAvailable, w)
          | None =>
              (Return found,
               if autocommit (session w c) then w
               else set_row_locks <[product_id := c]> w)
          end
      end
  | UpdateProductStock new_stock product_id =>
      (Return (match products (view w c) !! product_id with
               | Some _ => 1%nat
               | None => 0%nat
               end),
       write c (WSetStock product_id new_stock) w)
  | InsertOrder buyer_id product_id quantity total_price shipping_address =>
      let r := {| Orders.order_id := next_order_id w; Orders.buyer_id := buyer_id;
                  Orders.product_id := product_id; Orders.quantity := quantity;
                  Orders.total_price := total_price;
                  Orders.shipping_address := shipping_address;
                  Orders.created_at := now w |} in
      (Return r,
       write c (WInsertOrder r)
         (set_next_ids (next_product_id w) (next_order_id w + 1)
            (next_transaction_id w) w))
  | InsertTransaction order_id artisan_id buyer_id product_id amount
      commission_fee artisan_payout =>
      let r := {| Transactions.transaction_id := next_transaction_id w;
                  Transactions.order_id := order_id;
                  Transactions.artisan_id := artisan_id;
                  Transactions.buyer_id := buyer_id;
                  Transactions.product_id := product_id;
                  Transactions.amount := amount;
                  Transactions.commission_fee := commission_fee;
                  Transactions.artisan_payout := artisan_payout |} in
      (Return r,
       write c (WInsertTransaction r)
         (set_next_ids (next_product_id w) (next_order_id w)
            (next_transaction_id w + 1) w))
  | InsertAuditLog user_id action_type entity_type entity_id details ip_address =>
      let r := {| AuditLogs.user_id := user_id; AuditLogs.action_type := action_type;
                  AuditLogs.entity_type := entity_type;
                  AuditLogs.entity_id := entity_id; AuditLogs.details := details;
                  AuditLogs.ip_address := ip_address |} in
      (Return r, write c (WInsertAuditLog r) w)
  | InsertProduct artisan_id product_name description price stock_quantity
      category image_url =>
      let r := {| Products.artisan_id := artisan_id;
                  Products.product_name := product_name;
                  Products.description := description; Products.price := price;
                  Products.stock_quantity := stock_quantity;
                  Products.category := category;
                  Products.image_url := image_url |} in
      (Return (next_product_id w, r),
       write c (WInsertProduct (next_product_id w) r)
         (set_next_ids (next_product_id w + 1) (next_order_id w)
            (next_transaction_id w) w))
  end.

(** [cursor.execute(q)] followed by the [fetchone()] of its result. *)
Definition cursor_execute {R} (k : nat) (q : Sql R) : M World R := λ w,
  let w' := record_event (EExecute k (call_of q)) w in
  if fails (call_of q) w then (Raise (DatabaseError (call_of q)), w')
  else run_sql k q w'.

(** ** [main.py]: request models *)

Module status.
Definition HTTP_400_BAD_REQUEST : Z := 400.
Definition HTTP_404_NOT_FOUND : Z := 404.
Definition HTTP_409_CONFLICT : Z := 409.
Definition HTTP_500_INTERNAL_SERVER_ERROR : Z := 500.
End status.

Module ProductCreate.
Record t : Type := {
  product_name : string;
  description : string;
  price : float;
  stock_quantity : Z;
  category : string;
  image_url : option string
}.

Definition validate_price (v : float) : result float :=
  if SFleb v (S754_zero false) then Raise (ValueError "Price must be positive")
  else Return v.

Definition validate_stock (v : Z) : result Z :=
  if bool_decide (v < 0) then Raise (ValueError "Stock quantity cannot be negative")
  else Return v.

(** The model is built only from fields that pass their validators. *)
Definition validate (raw : t) : result t :=
  match validate_price (price raw), validate_stock (stock_quantity raw) with
  | Return _, Return _ => Return raw
  | Raise e, _ => Raise e
  | _, Raise e => Raise e
  end.
End ProductCreate.

Module PurchaseRequest.
Record t : Type := {
  product_id : Z;
  quantity : Z;
  shipping_address : string
}.

Definition validate_quantity (v : Z) : result Z :=
  if bool_decide (v ≤ 0) then Raise (ValueError "Quantity must be positive")
  else Return v.

Definition validate (raw : t) : result t :=
  match validate_quantity (quantity raw) with
  | Return _ => Return raw
  | Raise e => Raise e
  end.
End PurchaseRequest.

(** The decoded token of the caller and the part of the request the
    endpoint reads. *)
Record User : Type := { user_id : Z; username : string; role : string }.
Record Request : Type := { client_host : string }.

(** The dictionary [purchase_with_lock] returns. *)
Module PurchaseResponse.
Record t : Type := {
  message : string;
  order_id : Z;
  transaction_id : Z;
  product_name : string;
  quantity : Z;
  total_price : float;
  commission_fee : float;
  artisan_payout : float;
  remaining_stock : Z;
  created_at : string
}.
End PurchaseResponse.

(** ** [main.py]: [purchase_with_lock] *)

(** The local variables the handlers and the [finally] block read. *)
Record Frame : Type := {
  world : World;
  connection : option nat;
  cursor : option nat
}.

Definition enter (w : World) : Frame :=
  {| world := w; connection := None; cursor := None |}.

Definition lift {A} (m : M World A) : M Frame A := λ fr,
  let '(r, w') := m (world fr) in
  (r, {| world := w'; connection := connection fr; cursor := cursor fr |}).

Definition assign_connection (c : nat) : M Frame unit :=
  modify (λ fr, {| world := world fr; connection := Some c; cursor := cursor fr |}).

Definition assign_cursor (k : nat) : M Frame unit :=
  modify (λ fr, {| world := world fr; connection := connection fr; cursor := Some k |}).

(** [price * purchase_data.quantity], a float times an int *)
Definition float_times_int {S} (x : float) (n : Z) : M S float :=
  match PyFloat.of_int n with
  | Some y => mret (PyFloat.mul x y)
  | None => raise OverflowError
  end.

Definition LockedProduct : Type := nat * nat * option (Z * Z * string * float * Z).

(** From the top of the [try] block to the fetch of the locked row
    ([main.py], lines 521-554). *)
Definition lock_product (purchase_data : PurchaseRequest.t) : M Frame LockedProduct :=
  connection ← lift getconn;
  assign_connection connection;;
  cursor ← lift (connection_cursor connection);
  assign_cursor cursor;;
  lift (set_autocommit connection false);;
  product ←
    try_except
      (lift (cursor_execute cursor
               (SelectProductForUpdateNowait (PurchaseRequest.product_id purchase_data))))
      (λ lock_error,
         lift (connection_rollback connection);;
         raise (HTTPException status.HTTP_409_CONFLICT
                  "Product is currently being purchased by another customer. Please try again."));
  mret (connection, cursor, product).

(** The writes, from "Calculate total price" to the returned dictionary
    (lines 584-669). *)
Definition write_purchase (purchase_data : PurchaseRequest.t) (request : Request)
    (current_user : User) (connection cursor : nat)
    (product_id artisan_id : Z) (product_name : string) (price : float)
    (stock_quantity : Z) : M Frame PurchaseResponse.t :=
  total_price ← float_times_int price (PurchaseRequest.quantity purchase_data);
  let new_stock := stock_quantity - PurchaseRequest.quantity purchase_data in
  lift (cursor_execute cursor (UpdateProductStock new_stock product_id));;
  order_result ←
    lift (cursor_execute cursor
            (InsertOrder (user_id current_user) product_id
               (PurchaseRequest.quantity purchase_data) total_price
               (PurchaseRequest.shipping_address purchase_data)));
  let order_id := Orders.order_id order_result in
  let created_at := Orders.created_at order_result in
  let commission_rate := PyFloat.literal 5 2 in
  let commission_fee := PyFloat.round (PyFloat.mul total_price commission_rate) 2 in
  let artisan_payout := PyFloat.round (PyFloat.sub total_price commission_fee) 2 in
  transaction_result ←
    lift (cursor_execute cursor
            (InsertTransaction order_id artisan_id (user_id current_user) product_id
               total_price commission_fee artisan_payout));
  let transaction_id := Transactions.transaction_id transaction_result in
  let audit_details :=
    [("product_name", JStr product_name);
     ("quantity", JInt (PurchaseRequest.quantity purchase_data));
     ("total_price", JFloat total_price);
     ("old_stock", JInt stock_quantity);
     ("new_stock", JInt new_stock)] in
  lift (cursor_execute cursor
          (InsertAuditLog (user_id current_user) "purchase" (Some "order")
             (Some order_id) (Some audit_details) (Some (client_host request))));;
  lift (connection_commit connection);;
  mret {| PurchaseResponse.message := "Purchase successful";
          PurchaseResponse.order_id := order_id;
          PurchaseResponse.transaction_id := transaction_id;
          PurchaseResponse.product_name := product_name;
          PurchaseResponse.quantity := PurchaseRequest.quantity purchase_data;
          PurchaseResponse.total_price := total_price;
          PurchaseResponse.commission_fee := commission_fee;
          PurchaseResponse.artisan_payout := artisan_payout;
          PurchaseResponse.remaining_stock := new_stock;
          PurchaseResponse.created_at := isoformat created_at |}.

(** From [if not product] on: the existence and stock checks (lines
    556-582), then the writes. *)
Definition check_and_write (purchase_data : PurchaseRequest.t) (request : Request)
    (current_user : User) (locked : LockedProduct) : M Frame PurchaseResponse.t :=
  let '(connection, cursor, product) := locked in
  match product with
  | None =>
      lift (connection_rollback connection);;
      raise (HTTPException status.HTTP_404_NOT_FOUND "Product not found")
  | Some (product_id, artisan_id, product_name, price, stock_quantity) =>
      if bool_decide (stock_quantity < PurchaseRequest.quantity purchase_data) then
        lift (connection_rollback connection);;
        if bool_decide (stock_quantity = 0) then
          raise (HTTPException status.HTTP_400_BAD_REQUEST
                   "SOLD OUT: This item is no longer available")
        else
          raise (HTTPException status.HTTP_400_BAD_REQUEST
                   ("Insufficient stock. Only " +:+ pretty stock_quantity
                    +:+ " items available"))
      else
        write_purchase purchase_data request current_user connection cursor
          product_id artisan_id product_name price stock_quantity
  end.

(** The [except] clauses of the endpoint (lines 671-683). *)
Definition purchase_handlers {A} (e : exn) : M Frame A :=
  match e with
  | HTTPException _ _ => raise e
  | _ =>
      fr ← get;
      match connection fr with
      | Some c => lift (connection_rollback c)
      | None => mret tt
      end;;
      raise (HTTPException status.HTTP_500_INTERNAL_SERVER_ERROR
               "Purchase failed. Please try again.")
  end.

(** The [finally] block of the endpoint (lines 685-691). *)
Definition purchase_cleanup : M Frame unit :=
  fr ← get;
  match cursor fr with
  | Some k => lift (cursor_close k)
  | None => mret tt
  end;;
  match connection fr with
  | Some c => lift (set_autocommit c true);; lift (putconn c)
  | None => mret tt
  end.

(** [try: body  except HTTPException: ...  except Exception: ...  finally: ...] *)
Definition guarded {A} (body : M Frame A) : M Frame A :=
  try_finally (try_except body purchase_handlers) purchase_cleanup.

Definition purchase_with_lock (purchase_data : PurchaseRequest.t) (request : Request)
    (current_user : User) : M Frame PurchaseResponse.t :=
  guarded (locked ← lock_product purchase_data;
           check_and_write purchase_data request current_user locked).

(** A call of the endpoint on the store [w]. *)
Definition call_purchase (purchase_data : PurchaseRequest.t) (request : Request)
    (current_user : User) (w : World) : result PurchaseResponse.t * World :=
  let '(r, fr) := purchase_with_lock purchase_data request current_user (enter w) in
  (r, world fr).

(** ** [database.py]: [DatabaseManager] *)

(** [with self.get_connection() as connection: body].  When [getconn]
    raises, [connection] is still [None] and the [finally] block has nothing
    to put back; otherwise [putconn] runs however the body ends. *)
Definition get_connection {A} (body : nat → M World A) : M World A :=
  connection ← getconn;
  try_finally (body connection) (putconn connection).

(** [with self.get_cursor(commit) as cursor: body] *)
Definition get_cursor {A} (commit : bool) (body : nat → M World A) : M World A :=
  get_connection (λ connection,
    cursor ← connection_cursor connection;
    try_finally
      (try_except
         (r ← body cursor;
          when commit (connection_commit connection);;
          mret r)
         (λ e, connection_rollback connection;; raise e))
      (cursor_close cursor)).

Definition execute_update (query : Sql nat) : M World nat :=
  get_cursor true (λ cursor, cursor_execute cursor query).

Definition execute_insert_returning {R} (query : Sql R) : M World (option R) :=
  get_cursor true (λ cursor,
    result ← cursor_execute cursor query;
    mret (Some result)).

(** ** [database.py]: the helpers *)

Definition create_product (artisan_id : Z) (product_name description : string)
    (price : float) (stock_quantity : Z) (category : string)
    (image_url : option string) : M World (option (Z * Products.row)) :=
  execute_insert_returning
    (InsertProduct artisan_id product_name description price stock_quantity
       category image_url).

Definition update_product_stock (product_id new_quantity : Z) : M World nat :=
  execute_update (UpdateProductStock new_quantity product_id).

Definition create_order (buyer_id product_id quantity : Z) (total_price : float)
    (shipping_address : string) : M World (option Orders.row) :=
  execute_insert_returning
    (InsertOrder buyer_id product_id quantity total_price shipping_address).

Definition create_transaction (order_id artisan_id buyer_id product_id : Z)
    (amount : float) : M World (option Transactions.row) :=
  let commission_rate := PyFloat.literal 5 2 in
  let commission_fee := PyFloat.round (PyFloat.mul amount commission_rate) 2 in
  let artisan_payout := PyFloat.round (PyFloat.sub amount commission_fee) 2 in
  execute_insert_returning
    (InsertTransaction order_id artisan_id buyer_id product_id amount
       commission_fee artisan_payout).

Definition create_audit_log (user_id : Z) (action_type : string)
    (entity_type : option string) (entity_id : option Z)
    (details : option (list (string * json))) (ip_address : option string)
    : M World (option AuditLogs.row) :=
  let details_json := match details with
                      | Some (_ :: _) => details
                      | _ => None
                      end in
  execute_insert_returning
    (InsertAuditLog user_id action_type entity_type entity_id details_json ip_address).

(** ** [main.py]: [create_new_product] *)

Definition create_new_product (product_data : ProductCreate.t) (current_user : User)
    : M World (string * (Z * Products.row)) :=
  try_except
    (product ←
       create_product (user_id current_user)
         (ProductCreate.product_name product_data)
         (ProductCreate.description product_data)
         (ProductCreate.price product_data)
         (ProductCreate.stock_quantity product_data)
         (ProductCreate.category product_data)
         (ProductCreate.image_url product_data);
     match product with
     | None =>
         raise (HTTPException status.HTTP_500_INTERNAL_SERVER_ERROR
                  "Failed to create product")
     | Some product =>
         create_audit_log (user_id current_user) "product_created" (Some "product")
           (Some product.1)
           (Some [("product_name", JStr (Products.product_name product.2))]) None;;
         mret ("Product created successfully", product)
     end)
    (λ e, match e with
          | HTTPException _ _ => raise e
          | _ => raise (HTTPException status.HTTP_500_INTERNAL_SERVER_ERROR
                          "Failed to create product")
          end).

(** ** The operations the API exposes on stock *)

(** A request as it arrives: the body is validated by its pydantic model
    before the endpoint runs; [op_faults] and [op_now] are the store failures
    and the clock the request meets. *)
Inductive Op : Type :=
  | PostProducts (product_data : ProductCreate.t) (current_user : User)
  | PostPurchaseLock (purchase_data : PurchaseRequest.t) (request : Request)
      (current_user : User).

Record Arrival : Type := {
  op : Op;
  op_faults : list Call;
  op_now : datetime
}.

Definition set_now (d : datetime) (w : World) : World :=
  {| db := db w; row_locks := row_locks w; sessions := sessions w;
     pool := pool w; next_product_id := next_product_id w;
     next_order_id := next_order_id w;
     next_transaction_id := next_transaction_id w; now := d;
     faults := faults w; log := log w |}.

Definition serve (a : Arrival) (w : World) : World :=
  let w := set_now (op_now a) (set_faults (op_faults a) w) in
  match op a with
  | PostProducts raw current_user =>
      match ProductCreate.validate raw with
      | Return product_data => (create_new_product product_data current_user w).2
      | Raise _ => w
      end
  | PostPurchaseLock raw request current_user =>
      match PurchaseRequest.validate raw with
      | Return purchase_data => (call_purchase purchase_data request current_user w).2
      | Raise _ => w
      end
  end.

Definition serve_all (arrivals : list Arrival) (w : World) : World :=
  foldl (λ w a, serve a w) w arrivals.

(** ** Concurrent purchases *)

(** A request thread runs [purchase_with_lock] in two atomic steps: up to
    the fetch of the locked row, then the rest.  Between the two the thread
    holds the row lock, so that no other transaction reads or writes the row;
    the statements of the second step touch only the transaction of the
    thread until its commit. *)
Inductive Thread : Type :=
  | Waiting (purchase_data : PurchaseRequest.t) (request : Request) (current_user : User)
  | Holding (purchase_data : PurchaseRequest.t) (request : Request) (current_user : User)
      (connection cursor : option nat) (locked : LockedProduct)
  | Finished (r : result PurchaseResponse.t).

Definition thread_step (t : Thread) (w : World) : Thread * World :=
  match t with
  | Waiting purchase_data request current_user =>
      match lock_product purchase_data (enter w) with
      | (Return locked, fr) =>
          (Holding purchase_data request current_user (connection fr) (cursor fr) locked,
           world fr)
      | (Raise e, fr) =>
          let '(r, fr') := guarded (raise e) fr in (Finished r, world fr')
      end
  | Holding purchase_data request current_user connection cursor locked =>
      let '(r, fr') :=
        guarded (check_and_write purchase_data request current_user locked)
          {| world := w; connection := connection; cursor := cursor |} in
      (Finished r, world fr')
  | Finished _ => (t, w)
  end.

(** The threads and the store they share; [schedule_step i] lets thread [i]
    take its next step. *)
Definition schedule_step (cfg : World * list Thread) (i : nat) : World * list Thread :=
  match cfg.2 !! i with
  | Some t => let '(t', w') := thread_step t cfg.1 in (w', <[i := t']> cfg.2)
  | None => cfg
  end.

Definition run_schedule (schedule : list nat) (cfg : World * list Thread)
    : World * list Thread :=
  foldl schedule_step cfg schedule.

Definition is_finished (t : Thread) : bool :=
  match t with Finished _ => true | _ => false end.

Definition is_success (t : Thread) : bool :=
  match t with Finished (Return _) => true | _ => false end.

(** The number of threads that satisfy [p]. *)
Fixpoint count (p : Thread → bool) (ts : list Thread) : nat :=
  match ts with
  | [] => 0
  | t :: ts => (if p t then 1 else 0) + count p ts
  end%nat.

Definition successes (ts : list Thread) : nat := count is_success ts.

(** ** Outcomes *)

(** The outcome names of the protocol, read off the response. *)
Inductive Outcome : Type :=
  | Success | NotFound | LockContention | SoldOut | InsufficientStock
  | InternalFailure | Other.

Definition outcome (r : result PurchaseResponse.t) : Outcome :=
  match r with
  | Return _ => Success
  | Raise (HTTPException code detail) =>
      if bool_decide (code = 404) then NotFound
      else if bool_decide (code = 409) then LockContention
      else if bool_decide (code = 400) then
        (if String.prefix "SOLD OUT" detail then SoldOut else InsufficientStock)
      else if bool_decide (code = 500) then InternalFailure
      else Other
  | Raise _ => Other
  end.

Definition is_waiting (t : Thread) : bool :=
  match t with Waiting _ _ _ => true | _ => false end.

Definition is_holding (t : Thread) : bool :=
  match t with Holding _ _ _ _ _ _ => true | _ => false end.

(** ** Well-formed stores *)

(** No product has a negative stock. *)
Definition stock_nonneg (t : Tables) : Prop :=
  ∀ product_id r, products t !! product_id = Some r → 0 ≤ Products.stock_quantity r.

(** No connection carries writes of an earlier transaction: the pool rolls
    back what it takes back. *)
Definition idle (w : World) : Prop :=
  ∀ c s, sessions w !! c = Some s → pending s = [].

(** What a thread of a race for [q] items of product [pid] satisfies while
    the committed stock is [stock]: a thread between its two steps holds the
    row lock with a connection taken from the pool and has read [stock]; a
    finished one reports one of the outcomes of the protocol. *)
Definition thread_ok (pid q stock : Z) (w : World) (t : Thread) : Prop :=
  match t with
  | Waiting purchase_data _ _ =>
      PurchaseRequest.product_id purchase_data = pid ∧
      PurchaseRequest.quantity purchase_data = q
  | Holding purchase_data _ _ connection cursor locked =>
      PurchaseRequest.product_id purchase_data = pid ∧
      PurchaseRequest.quantity purchase_data = q ∧
      ∃ c artisan_id product_name price,
        connection = Some c ∧ cursor = Some c ∧
        locked = (c, c, Some (pid, artisan_id, product_name, price, stock)) ∧
        (c ∉ pool w) ∧
        sessions w !! c = Some {| autocommit := false; pending := [] |} ∧
        row_locks w !! pid = Some c
  | Finished r =>
      outcome r = Success ∨ outcome r = LockContention ∨ outcome r = SoldOut ∨
      (outcome r = InsufficientStock ∧ 1 < q)
  end.

(** The invariant of a race that started with [S] items on a store without
    failures. *)
Record consistent (pid q S : Z) (cfg : World * list Thread) : Prop := {
  c_faults : faults cfg.1 = [];
  c_stock :
    ∃ row, products (db cfg.1) !! pid = Some row ∧
           Products.stock_quantity row = S - q * Z.of_nat (successes cfg.2) ∧
           0 ≤ Products.stock_quantity row;
  c_idle : ∀ c, c ∈ pool cfg.1 → pending (session cfg.1 c) = [];
  c_nodup : NoDup (pool cfg.1);
  c_threads :
    ∀ i t, cfg.2 !! i = Some t →
           thread_ok pid q (S - q * Z.of_nat (successes cfg.2)) cfg.1 t;
  c_lock :
    ∀ c, row_locks cfg.1 !! pid = Some c →
         ∃ i t, cfg.2 !! i = Some t ∧ is_holding t = true;
  c_unique :
    ∀ i j ti tj, cfg.2 !! i = Some ti → cfg.2 !! j = Some tj →
                 is_holding ti = true → is_holding tj = true → i = j;
  c_pool :
    (count is_waiting cfg.2 ≤ length (pool cfg.1))%nat;
  c_progress :
    q ≤ S →
    (∀ i t, cfg.2 !! i = Some t → is_waiting t = true) ∨
    (∃ i t, cfg.2 !! i = Some t ∧ is_holding t = true) ∨
    (1 ≤ successes cfg.2)%nat
}.

(** ** A small store to run the model on *)

Module Example.

Definition noon : datetime :=
  {| year := 2024; month := 3; day := 7; hour := 12; minute := 0; second := 0;
     microsecond := 0; utcoffset := Some 360 |}.

(** The product of the concurrency test: price [price], [stock] items. *)
Definition item (price : float) (stock : Z) : Products.row :=
  {| Products.artisan_id := 1; Products.product_name := "Race Condition Test Item";
     Products.description := ""; Products.price := price;
     Products.stock_quantity := stock; Products.category := "Test";
     Products.image_url := None |}.

(** A store with the product [1] and two idle connections. *)
Definition store (price : float) (stock : Z) : World :=
  {| db := {| products := {[ 1 := item price stock ]}; orders := [];
              transactions := []; audit_logs := [] |};
     row_locks := ∅; sessions := ∅; pool := [0%nat; 1%nat];
     next_product_id := 2; next_order_id := 1; next_transaction_id := 1;
     now := noon; faults := []; log := [] |}.

Definition buy (quantity : Z) : PurchaseRequest.t :=
  {| PurchaseRequest.product_id := 1; PurchaseRequest.quantity := quantity;
     PurchaseRequest.shipping_address := "Buyer 1's address" |}.

Definition request : Request := {| client_host := "127.0.0.1" |}.

Definition buyer : User := {| user_id := 2; username := "buyer1"; role := "buyer" |}.

Definition artisan : User := {| user_id := 1; username := "artisan1"; role := "artisan" |}.

(** The two buyers of the concurrency test, each after one item. *)
Definition two_buyers : list Thread :=
  [Waiting (buy 1) request buyer; Waiting (buy 1) request buyer].

End Example.

(** ** What the endpoints leave behind *)

(** What the row locks are after the transaction of [c] has ended. *)
Definition locks_released (c : nat) (before after : gmap Z nat) : Prop :=
  ∀ p h, after !! p = Some h ↔ before !! p = Some h ∧ h ≠ c.

(** The rows a purchase of [q] items of [pid] by [u] commits. *)
Definition purchase_rows (pd : PurchaseRequest.t) (req : Request) (u : User)
    (w : World) (row : Products.row) (fq : float) : Tables :=
  let pid := PurchaseRequest.product_id pd in
  let q := PurchaseRequest.quantity pd in
  let total := PyFloat.mul (Products.price row) fq in
  let fee := PyFloat.round (PyFloat.mul total (PyFloat.literal 5 2)) 2 in
  let payout := PyFloat.round (PyFloat.sub total fee) 2 in
  {| products := alter (Products.with_stock (Products.stock_quantity row - q)) pid
                   (products (db w));
     orders := orders (db w) ++
       [{| Orders.order_id := next_order_id w; Orders.buyer_id := user_id u;
           Orders.product_id := pid; Orders.quantity := q;
           Orders.total_price := total;
           Orders.shipping_address := PurchaseRequest.shipping_address pd;
           Orders.created_at := now w |}];
     transactions := transactions (db w) ++
       [{| Transactions.transaction_id := next_transaction_id w;
           Transactions.order_id := next_order_id w;
           Transactions.artisan_id := Products.artisan_id row;
           Transactions.buyer_id := user_id u;
           Transactions.product_id := pid;
           Transactions.amount := total;
           Transactions.commission_fee := fee;
           Transactions.artisan_payout := payout |}];
     audit_logs := audit_logs (db w) ++
       [{| AuditLogs.user_id := user_id u; AuditLogs.action_type := "purchase";
           AuditLogs.entity_type := Some "order";
           AuditLogs.entity_id := Some (next_order_id w);
           AuditLogs.details :=
             Some [("product_name", JStr (Products.product_name row));
                   ("quantity", JInt q); ("total_price", JFloat total);
                   ("old_stock", JInt (Products.stock_quantity row));
                   ("new_stock", JInt (Products.stock_quantity row - q))];
           AuditLogs.ip_address := Some (client_host req) |}] |}.

(** The body a purchase of [q] items returns. *)
Definition purchase_response (pd : PurchaseRequest.t) (w : World) (row : Products.row)
    (fq : float) : PurchaseResponse.t :=
  let q := PurchaseRequest.quantity pd in
  let total := PyFloat.mul (Products.price row) fq in
  let fee := PyFloat.round (PyFloat.mul total (PyFloat.literal 5 2)) 2 in
  {| PurchaseResponse.message := "Purchase successful";
     PurchaseResponse.order_id := next_order_id w;
     PurchaseResponse.transaction_id := next_transaction_id w;
     PurchaseResponse.product_name := Products.product_name row;
     PurchaseResponse.quantity := q;
     PurchaseResponse.total_price := total;
     PurchaseResponse.commission_fee := fee;
     PurchaseResponse.artisan_payout := PyFloat.round (PyFloat.sub total fee) 2;
     PurchaseResponse.remaining_stock := Products.stock_quantity row - q;
     PurchaseResponse.created_at := isoformat (now w) |}.

(** The row [create_new_product] inserts for [product_data] on behalf of
    [current_user], and the audit entry that follows it. *)
Definition new_product_row (product_data : ProductCreate.t) (current_user : User)
    : Products.row :=
  {| Products.artisan_id := user_id current_user;
     Products.product_name := ProductCreate.product_name product_data;
     Products.description := ProductCreate.description product_data;
     Products.price := ProductCreate.price product_data;
     Products.stock_quantity := ProductCreate.stock_quantity product_data;
     Products.category := ProductCreate.category product_data;
     Products.image_url := ProductCreate.image_url product_data |}.

Definition product_created_entry (product_data : ProductCreate.t) (current_user : User)
    (product_id : Z) : AuditLogs.row :=
  {| AuditLogs.user_id := user_id current_user;
     AuditLogs.action_type := "product_created";
     AuditLogs.entity_type := Some "product";
     AuditLogs.entity_id := Some product_id;
     AuditLogs.details :=
       Some [("product_name", JStr (ProductCreate.product_name product_data))];
     AuditLogs.ip_address := None |}.

(** What one step of the schedule does to the pool, to the committed rows and
    to the number of successes. *)
Definition balanced (cfg cfg' : World * list Thread) : Prop :=
  (length (pool cfg'.1) + count is_holding cfg'.2
   = length (pool cfg.1) + count is_holding cfg.2)%nat ∧
  (length (orders (db cfg'.1)) + successes cfg.2
   = length (orders (db cfg.1)) + successes cfg'.2)%nat ∧
  (length (transactions (db cfg'.1)) + successes cfg.2
   = length (transactions (db cfg.1)) + successes cfg'.2)%nat ∧
  (length (audit_logs (db cfg'.1)) + successes cfg.2
   = length (audit_logs (db cfg.1)) + successes cfg'.2)%nat.

(** ** [main.py]: [require_role] *)

Definition HTTP_403_FORBIDDEN : Z := 403.

(** [require_role(required_roles)] returns the dependency [role_checker];
    [current_user] is the payload of the token, a dictionary.
    [current_user.get("role")] is [None] for a payload without that key, and
    neither [None] nor a number is [in] a list of strings. *)
Definition role_checker (required_roles : list string) (current_user : gmap string json)
    : result (gmap string json) :=
  if match current_user !! "role" with
     | Some (JStr role) => bool_decide (role ∈ required_roles)
     | _ => false
     end
  then Return current_user
  else Raise (HTTPException HTTP_403_FORBIDDEN
                ("Access denied. Required role: " +:+ String.concat ", " required_roles)).

Definition require_role (required_roles : list string)
    : gmap string json → result (gmap string json) :=
  role_checker required_roles.

(** ** The commission in whole cents *)

(** The whole number of cents [round(x, 2)] rounds a float to. *)
Definition rounded_cents (x : float) : Z :=
  match x with
  | S754_finite s m e =>
      let k := match e with
               | Zneg d => PyFloat.div_half_even (Zpos m * 100) (Z.pow 2 (Zpos d))
               | _ => Zpos m * Z.pow 2 e * 100
               end in
      if s then - k else k
  | _ => 0
  end.

Definition nonnegative (x : float) : bool :=
  match x with
  | S754_finite false _ _ | S754_zero false => true
  | _ => false
  end.

(** Whether the commission on [amount], taken at [rate], and the payout are
    [f] and [p] cents with [f + p = n] and [f] within half a cent of 5% of
    [n] cents. *)
Definition split_in_cents (rate amount : float) (n : Z) : bool :=
  let product := PyFloat.mul amount rate in
  let f := rounded_cents product in
  let difference := PyFloat.sub amount (PyFloat.literal f 2) in
  let p := rounded_cents difference in
  nonnegative product && nonnegative difference
  && Z.eqb (f + p) n && Z.leb (Z.abs (100 * f - 5 * n)) 50.

(** The same for an amount of [k] whole units: the commission is exactly
    [5 k] cents. *)
Definition split_of_units (rate : float) (k : Z) : bool :=
  match PyFloat.of_int k with
  | Some amount =>
      let product := PyFloat.mul amount rate in
      let f := rounded_cents product in
      let difference := PyFloat.sub amount (PyFloat.literal f 2) in
      let p := rounded_cents difference in
      nonnegative product && nonnegative difference
      && Z.eqb f (5 * k) && Z.eqb p (95 * k)
  | None => false
  end.

(** [check i], [check (i + 1)], ... hold, [fuel] of them. *)
Fixpoint holds_from (check : Z → bool) (fuel : nat) (i : Z) : bool :=
  match fuel with
  | O => true
  | S fuel => if check i then holds_from check fuel (i + 1) else false
  end.

(** ** Concurrent purchases of different products *)

(** What the thread that serves the request [pd] satisfies in a race where
    every thread asks for a product of its own; [S] is the stock the product
    started with.  A thread that has not finished has left the row as it
    was; a finished one has ended as it would have alone. *)
Definition apart_ok (w : World) (pd : PurchaseRequest.t) (S : Z) (t : Thread) : Prop :=
  let pid := PurchaseRequest.product_id pd in
  let q := PurchaseRequest.quantity pd in
  match t with
  | Waiting pd' _ _ =>
      pd' = pd ∧ row_locks w !! pid = None ∧
      ∃ row, products (db w) !! pid = Some row ∧ Products.stock_quantity row = S
  | Holding pd' _ _ connection cursor locked =>
      pd' = pd ∧
      ∃ c artisan_id product_name price,
        connection = Some c ∧ cursor = Some c ∧
        locked = (c, c, Some (pid, artisan_id, product_name, price, S)) ∧
        (c ∉ pool w) ∧
        sessions w !! c = Some {| autocommit := false; pending := [] |} ∧
        row_locks w !! pid = Some c ∧
        ∃ row, products (db w) !! pid = Some row ∧ Products.stock_quantity row = S
  | Finished r =>
      row_locks w !! pid = None ∧
      ∃ row, products (db w) !! pid = Some row ∧
        if bool_decide (q ≤ S)
        then (∃ body, r = Return body) ∧ Products.stock_quantity row = S - q
        else (∃ detail, r = Raise (HTTPException 400 detail)) ∧
             Products.stock_quantity row = S
  end.

(** The connection a thread works with between its two steps. *)
Definition held_connection (t : Thread) : option nat :=
  match t with
  | Holding _ _ _ connection _ _ => connection
  | _ => None
  end.

(** The invariant of a race for the products of [reqs], one request and one
    initial stock per thread, on a store without failures. *)
Record apart (reqs : list (PurchaseRequest.t * Z)) (cfg : World * list Thread) : Prop := {
  a_faults : faults cfg.1 = [];
  a_length : length cfg.2 = length reqs;
  a_threads :
    ∀ i pd S t, reqs !! i = Some (pd, S) → cfg.2 !! i = Some t →
                apart_ok cfg.1 pd S t;
  a_idle : ∀ c, c ∈ pool cfg.1 → pending (session cfg.1 c) = [];
  a_nodup : NoDup (pool cfg.1);
  a_pool : (count is_waiting cfg.2 ≤ length (pool cfg.1))%nat;
  a_conns :
    ∀ i j ti tj c, cfg.2 !! i = Some ti → cfg.2 !! j = Some tj →
                   held_connection ti = Some c → held_connection tj = Some c → i = j
}.

(** Two products and a buyer for each. *)
Definition two_products : World :=
  set_db (λ t, apply_write t (WInsertProduct 2 (Example.item (PyFloat.literal 2500 2) 3)))
    (Example.store (PyFloat.literal 10000 2) 1).

Definition buy_other (quantity : Z) : PurchaseRequest.t :=
  {| PurchaseRequest.product_id := 2; PurchaseRequest.quantity := quantity;
     PurchaseRequest.shipping_address := "Buyer 2's address" |}.

Definition rivals : list Thread :=
  [Waiting (Example.buy 1) Example.request Example.buyer;
   Waiting (buy_other 2) Example.request Example.buyer].


(** * Proofs *)

(** ** Running the model symbolically *)

(** [exec] unfolds the code and the driver down to explicit worlds; [branch]
    splits on the innermost test the run is stuck on; [paths] follows every
    path of a call. *)
Ltac exec :=
  cbv beta iota zeta delta
    [call_purchase purchase_with_lock guarded try_finally try_except lock_product
     check_and_write write_purchase purchase_handlers purchase_cleanup
     mbind M_bind mret M_ret raise get modify lift when
     assign_connection assign_cursor enter float_times_int
     getconn putconn connection_cursor cursor_close set_autocommit
     connection_commit connection_rollback cursor_execute run_sql call_of write
     get_connection get_cursor execute_update execute_insert_returning
     create_product create_audit_log create_transaction create_order
     update_product_stock create_new_product thread_step
     world connection cursor fst snd
     set_db set_row_locks set_sessions set_pool set_next_ids set_faults set_now
     record_event set_session end_transaction release_locks session view fails
     products orders transactions audit_logs
     db row_locks sessions pool next_product_id next_order_id next_transaction_id
     now faults log autocommit pending fresh_session default from_option id].

Ltac branch :=
  match goal with
  | |- context [match ?x with _ => _ end] =>
      lazymatch x with
      | context [match _ with _ => _ end] => fail
      | _ => destruct x eqn:?
      end
  end.

Ltac use_lookups :=
  repeat match goal with
    | H : ?m !! ?k = _ |- context [?m !! ?k] => rewrite H
    end.

Ltac settle :=
  exec;
  rewrite ?lookup_insert_eq,
    ?(bool_decide_eq_false_2 _ (not_elem_of_nil (A:=Call) _));
  use_lookups;
  cbn [apply_writes foldl apply_write app]; exec.

Ltac paths := repeat (settle; try branch).

(** Uses the idleness of the store on the session lookups of the context. *)
Ltac use_idle Hidle :=
  repeat match goal with
    | H : ?m !! ?c = Some {| autocommit := _; pending := ?p |} |- _ =>
        lazymatch p with
        | [] => fail
        | _ => let E := fresh in
               pose proof (Hidle c _ H) as E; cbn in E; subst p
        end
    end.

Ltac paths_idle Hidle := repeat (settle; use_idle Hidle; try branch).

(** ** Strings *)

Lemma prefix_app (s t : string) : String.prefix s (s +:+ t) = true.
Proof.
  induction s as [|a s IH]; cbn.
  - by destruct t.
  - change (String a s +:+ t) with (String a (s +:+ t)). cbn [String.prefix].
    destruct (Ascii.ascii_dec a a); [exact IH | done].
Qed.

Lemma contains_prefix (needle haystack : string) :
  String.prefix needle haystack = true → contains needle haystack = true.
Proof. destruct haystack; cbn [contains]; intros ->; done. Qed.

Lemma contains_app (a s t : string) : contains s (a +:+ (s +:+ t)) = true.
Proof.
  induction a as [|x a IH].
  - change ("" +:+ (s +:+ t)) with (s +:+ t). apply contains_prefix, prefix_app.
  - change (String x a +:+ (s +:+ t)) with (String x (a +:+ (s +:+ t))).
    cbn [contains]. rewrite IH. apply orb_true_r.
Qed.

(** ** The endpoint, path by path *)

(** A call is its lock step followed by the rest under the same handlers. *)
Lemma call_purchase_steps pd req u w :
  call_purchase pd req u w =
    match lock_product pd (enter w) with
    | (Return locked, fr) =>
        let '(r, fr') := guarded (check_and_write pd req u locked) fr in (r, world fr')
    | (Raise e, fr) =>
        let '(r, fr') := guarded (raise e) fr in (r, world fr')
    end.
Proof.
  unfold call_purchase, purchase_with_lock, guarded, try_finally, try_except,
    mbind, M_bind, raise.
  destruct (lock_product pd (enter w)) as [[locked|e] fr]; reflexivity.
Qed.

(** Whatever a call raises, the committed rows are those it started from. *)
Lemma purchase_failure_keeps_db pd req u w e w' :
  call_purchase pd req u w = (Raise e, w') → db w' = db w.
Proof.
  destruct w as [t locks sess pl npid noid ntid nw fs lg]. paths.
  all: intros H; inversion H; subst; reflexivity.
Qed.

(** A row lock held by another connection is reported as 409, with a detail
    that invites to try again. *)
Lemma lock_contention_reported pd req u w c rest holder row :
  fails CGetconn w = false → fails CCursor w = false →
  fails CSelectForUpdate w = false →
  pool w = c :: rest →
  pending (session w c) = [] →
  products (db w) !! PurchaseRequest.product_id pd = Some row →
  row_locks w !! PurchaseRequest.product_id pd = Some holder → holder ≠ c →
  ∃ detail,
    (call_purchase pd req u w).1 = Raise (HTTPException 409 detail) ∧
    contains "currently being purchased" detail = true ∧
    contains "try again" detail = true.
Proof.
  destruct w as [[prods ords txs auds] locks sess pl npid noid ntid nw fs lg].
  unfold fails, session. cbn.
  intros Hg Hc Hs -> Hpend Hrow Hlock Hne.
  eexists. split.
  - exec. rewrite Hg. exec. rewrite Hc. exec. rewrite Hs. settle.
    destruct (sess !! c) as [[ac pnd]|]; cbn in Hpend; subst; settle.
    all: destruct (decide (holder = c)); [done|]; paths; reflexivity.
  - split; vm_compute; reflexivity.
Qed.

(** So is any other error of the lock query: the handler around it catches
    every exception. *)
Lemma lock_query_error_reported_as_contention pd req u w c rest :
  fails CGetconn w = false → fails CCursor w = false →
  pool w = c :: rest →
  fails CSelectForUpdate w = true →
  (call_purchase pd req u w).1 =
    Raise (HTTPException 409
             "Product is currently being purchased by another customer. Please try again.").
Proof.
  destruct w as [t locks sess pl npid noid ntid nw fs lg].
  unfold fails. cbn. intros Hg Hc -> Hs.
  exec. rewrite Hg. exec. rewrite Hc. exec. rewrite Hs. paths; reflexivity.
Qed.

(** Every exception that leaves the endpoint is an [HTTPException]; with
    status 500 its detail is the fixed text of the handler. *)
Lemma other_errors_reported_as_internal_failure pd req u w e w' :
  call_purchase pd req u w = (Raise e, w') →
  (∃ code detail, e = HTTPException code detail ∧
     (code = 500 → detail = "Purchase failed. Please try again.")).
Proof.
  destruct w as [t locks sess pl npid noid ntid nw fs lg]. paths.
  all: intros H; inversion H; subst; eexists _, _; (split; [reflexivity|]).
  all: try done.
Qed.

(** What a successful call returns as commission and payout. *)
Lemma purchase_success_split pd req u w body w' :
  call_purchase pd req u w = (Return body, w') →
  let total := PurchaseResponse.total_price body in
  PurchaseResponse.commission_fee body
    = PyFloat.round (PyFloat.mul total (PyFloat.literal 5 2)) 2 ∧
  PurchaseResponse.artisan_payout body
    = PyFloat.round (PyFloat.sub total (PurchaseResponse.commission_fee body)) 2.
Proof.
  destruct w as [t locks sess pl npid noid ntid nw fs lg]. paths.
  all: intros H; inversion H; subst; clear H; split; reflexivity.
Qed.

(** What [create_transaction] records as commission and payout. *)
Lemma create_transaction_split order_id artisan_id buyer_id product_id amount w row w' :
  create_transaction order_id artisan_id buyer_id product_id amount w
    = (Return (Some row), w') →
  Transactions.amount row = amount ∧
  Transactions.commission_fee row
    = PyFloat.round (PyFloat.mul amount (PyFloat.literal 5 2)) 2 ∧
  Transactions.artisan_payout row
    = PyFloat.round (PyFloat.sub amount (Transactions.commission_fee row)) 2.
Proof.
  destruct w as [t locks sess pl npid noid ntid nw fs lg]. paths.
  all: intros H; inversion H; subst; clear H; repeat split; reflexivity.
Qed.

(** ** The commission on sample totals *)

(** The scenario of the concurrency test: 100.00 splits into 5.00 and 95.00. *)
Example split_of_100 :
  let total := PyFloat.literal 10000 2 in
  let fee := PyFloat.round (PyFloat.mul total (PyFloat.literal 5 2)) 2 in
  fee = PyFloat.literal 500 2 ∧
  PyFloat.round (PyFloat.sub total fee) 2 = PyFloat.literal 9500 2.
Proof. vm_compute. split; reflexivity. Qed.

(** A total that is not a whole number of cents: 0.125 splits into 0.01 and
    0.12, while [round(0.125, 2)] is 0.12. *)
Example split_of_an_eighth :
  let total := PyFloat.literal 125 3 in
  let fee := PyFloat.round (PyFloat.mul total (PyFloat.literal 5 2)) 2 in
  fee = PyFloat.literal 1 2 ∧
  PyFloat.round (PyFloat.sub total fee) 2 = PyFloat.literal 12 2 ∧
  PyFloat.round total 2 = PyFloat.literal 12 2.
Proof. vm_compute. repeat split; reflexivity. Qed.

(** ** Invariants of the store *)

Lemma idle_insert (m : gmap nat Session) c s :
  (∀ c' s', m !! c' = Some s' → pending s' = []) → pending s = [] →
  ∀ c' s', <[c := s]> m !! c' = Some s' → pending s' = [].
Proof.
  intros Hm Hs c' s'. destruct (decide (c = c')) as [<-|Hne].
  - rewrite lookup_insert_eq. by intros [= <-].
  - rewrite lookup_insert_ne by done. apply Hm.
Qed.

Lemma stock_nonneg_alter (m : gmap Z Products.row) pid n :
  (∀ p r, m !! p = Some r → 0 ≤ Products.stock_quantity r) → 0 ≤ n →
  ∀ p r, alter (Products.with_stock n) pid m !! p = Some r →
         0 ≤ Products.stock_quantity r.
Proof.
  intros Hm Hn p r. destruct (decide (pid = p)) as [<-|Hne].
  - rewrite lookup_alter_eq. destruct (m !! pid); [|done]. by intros [= <-].
  - rewrite lookup_alter_ne by done. apply Hm.
Qed.

Lemma stock_nonneg_insert (m : gmap Z Products.row) pid r0 :
  (∀ p r, m !! p = Some r → 0 ≤ Products.stock_quantity r) →
  0 ≤ Products.stock_quantity r0 →
  ∀ p r, <[pid := r0]> m !! p = Some r → 0 ≤ Products.stock_quantity r.
Proof.
  intros Hm Hn p r. destruct (decide (pid = p)) as [<-|Hne].
  - rewrite lookup_insert_eq. by intros [= <-].
  - rewrite lookup_insert_ne by done. apply Hm.
Qed.

Lemma purchase_preserves pd req u w :
  stock_nonneg (db w) → idle w →
  stock_nonneg (db (call_purchase pd req u w).2) ∧ idle (call_purchase pd req u w).2.
Proof.
  destruct (call_purchase pd req u w) as [r w'] eqn:H. revert H.
  destruct w as [[prods ords txs auds] locks sess pl npid noid ntid nw fs lg].
  unfold stock_nonneg, idle. cbn. intros H Hs Hi. revert H.
  paths_idle Hi.
  all: intros H; inversion H; subst; clear H; cbn.
  all: rewrite ?insert_insert_eq.
  all: split; [| try done; apply idle_insert; done].
  all: try done.
  all: apply stock_nonneg_alter; [done|].
  all: repeat case_bool_decide; try done; lia.
Qed.

(** A purchase never leaves a negative stock in a row it changes, whatever
    the stock was. *)
Lemma purchase_writes_nonneg_stock pd req u w p r' :
  idle w →
  products (db (call_purchase pd req u w).2) !! p = Some r' →
  products (db w) !! p = Some r' ∨ 0 ≤ Products.stock_quantity r'.
Proof.
  destruct (call_purchase pd req u w) as [r w'] eqn:H. revert H.
  destruct w as [[prods ords txs auds] locks sess pl npid noid ntid nw fs lg].
  unfold idle. cbn. intros H Hi. revert H.
  paths_idle Hi.
  all: intros H; inversion H; subst; clear H; cbn; auto.
  all: match goal with
       | |- alter _ ?k _ !! _ = _ → _ =>
           destruct (decide (k = p)) as [<-|Hne];
           [rewrite lookup_alter_eq | rewrite lookup_alter_ne by done; auto]
       end.
  all: match goal with
       | |- _ <$> ?x = _ → _ => destruct x; [|done]
       end.
  all: intros [= <-]; right; cbn; repeat case_bool_decide; try done; lia.
Qed.

Lemma create_preserves product_data current_user w :
  0 ≤ ProductCreate.stock_quantity product_data →
  stock_nonneg (db w) → idle w →
  stock_nonneg (db (create_new_product product_data current_user w).2) ∧
  idle (create_new_product product_data current_user w).2.
Proof.
  intros Hv.
  destruct (create_new_product product_data current_user w) as [r w'] eqn:H. revert H.
  destruct w as [[prods ords txs auds] locks sess pl npid noid ntid nw fs lg].
  unfold stock_nonneg, idle. cbn. intros H Hs Hi. revert H.
  paths_idle Hi.
  all: intros H; inversion H; subst; clear H; cbn.
  all: rewrite ?insert_insert_eq.
  all: split; [| try done; apply idle_insert; done].
  all: try done.
  all: try (apply stock_nonneg_insert; done).
Qed.

Lemma validate_stock_nonneg raw product_data :
  ProductCreate.validate raw = Return product_data →
  0 ≤ ProductCreate.stock_quantity product_data.
Proof.
  unfold ProductCreate.validate, ProductCreate.validate_stock.
  destruct (ProductCreate.validate_price _); [|discriminate].
  case_bool_decide; [discriminate|]. intros [= <-]. lia.
Qed.

Lemma serve_preserves a w :
  stock_nonneg (db w) → idle w →
  stock_nonneg (db (serve a w)) ∧ idle (serve a w).
Proof.
  intros Hs Hi. unfold serve.
  assert (Hs' : stock_nonneg (db (set_now (op_now a) (set_faults (op_faults a) w)))) by done.
  assert (Hi' : idle (set_now (op_now a) (set_faults (op_faults a) w))) by done.
  destruct (op a) as [raw cu|raw rq cu].
  - destruct (ProductCreate.validate raw) as [pd|] eqn:Hv; [|done].
    apply create_preserves; [by eapply validate_stock_nonneg|done..].
  - destruct (PurchaseRequest.validate raw) as [pd|] eqn:Hv; [|done].
    by apply purchase_preserves.
Qed.

(** ** Concurrent purchases: the steps of a thread *)

Lemma lookup_unlock c (locks : gmap Z nat) p h :
  unlock c locks !! p = Some h ↔ locks !! p = Some h ∧ h ≠ c.
Proof. unfold unlock. by rewrite map_lookup_filter_Some. Qed.

(** The first step of a thread when the row is free. *)
Lemma waiting_step_free pd req u w c rest row :
  faults w = [] → pool w = c :: rest → pending (session w c) = [] →
  products (db w) !! PurchaseRequest.product_id pd = Some row →
  row_locks w !! PurchaseRequest.product_id pd = None →
  ∃ w',
    thread_step (Waiting pd req u) w =
      (Holding pd req u (Some c) (Some c)
         (c, c, Some (PurchaseRequest.product_id pd, Products.artisan_id row,
                      Products.product_name row, Products.price row,
                      Products.stock_quantity row)), w') ∧
    db w' = db w ∧ pool w' = rest ∧ faults w' = [] ∧
    row_locks w' = <[PurchaseRequest.product_id pd := c]> (row_locks w) ∧
    sessions w' = <[c := {| autocommit := false; pending := [] |}]> (sessions w).
Proof.
  destruct w as [[prods ords txs auds] locks sess pl npid noid ntid nw fs lg].
  unfold session. cbn. intros -> -> Hpend Hrow Hlock.
  destruct (sess !! c) as [[ac pnd]|] eqn:Hs; cbn in Hpend; subst.
  all: repeat settle; eexists; repeat split; try reflexivity.
  all: cbn; by rewrite insert_insert_eq.
Qed.

(** The first step of a thread when another connection holds the row. *)
Lemma waiting_step_busy pd req u w c rest row holder :
  faults w = [] → pool w = c :: rest → pending (session w c) = [] →
  products (db w) !! PurchaseRequest.product_id pd = Some row →
  row_locks w !! PurchaseRequest.product_id pd = Some holder → holder ≠ c →
  ∃ w',
    thread_step (Waiting pd req u) w =
      (Finished (Raise (HTTPException 409
         "Product is currently being purchased by another customer. Please try again.")),
       w') ∧
    db w' = db w ∧ pool w' = pool w ∧ faults w' = [] ∧
    row_locks w' = unlock c (unlock c (row_locks w)) ∧
    sessions w' = <[c := {| autocommit := true; pending := [] |}]> (sessions w).
Proof.
  destruct w as [[prods ords txs auds] locks sess pl npid noid ntid nw fs lg].
  unfold session. cbn. intros -> -> Hpend Hrow Hlock Hne.
  destruct (sess !! c) as [[ac pnd]|] eqn:Hs; cbn in Hpend; subst.
  all: repeat settle; destruct (decide (holder = c)); [done|].
  all: repeat settle; eexists; repeat split; try reflexivity.
  all: cbn; by rewrite !insert_insert_eq.
Qed.

(** The second step of a thread that read a stock below its quantity. *)
Lemma holding_step_short pd req u w c aid name price stock :
  stock < PurchaseRequest.quantity pd →
  ∃ r w',
    thread_step (Holding pd req u (Some c) (Some c)
                   (c, c, Some (PurchaseRequest.product_id pd, aid, name, price, stock))) w
      = (Finished r, w') ∧
    r = Raise (HTTPException 400
                 (if bool_decide (stock = 0)
                  then "SOLD OUT: This item is no longer available"
                  else "Insufficient stock. Only " +:+ pretty stock +:+ " items available")) ∧
    db w' = db w ∧ pool w' = c :: pool w ∧ faults w' = faults w ∧
    row_locks w' = unlock c (unlock c (row_locks w)) ∧
    sessions w' = <[c := {| autocommit := true; pending := [] |}]> (sessions w).
Proof.
  destruct w as [[prods ords txs auds] locks sess pl npid noid ntid nw fs lg].
  intros Hlt. settle. rewrite bool_decide_eq_true_2 by lia. settle.
  destruct (bool_decide (stock = 0)); repeat settle.
  all: eexists _, _; repeat split; try reflexivity.
  all: cbn; by rewrite !insert_insert_eq.
Qed.

(** The second step of a thread that read a sufficient stock. *)
Lemma holding_step_ok pd req u w c aid name price stock fq :
  faults w = [] →
  sessions w !! c = Some {| autocommit := false; pending := [] |} →
  PyFloat.of_int (PurchaseRequest.quantity pd) = Some fq →
  PurchaseRequest.quantity pd ≤ stock →
  ∃ body w',
    thread_step (Holding pd req u (Some c) (Some c)
                   (c, c, Some (PurchaseRequest.product_id pd, aid, name, price, stock))) w
      = (Finished (Return body), w') ∧
    products (db w') =
      alter (Products.with_stock (stock - PurchaseRequest.quantity pd))
        (PurchaseRequest.product_id pd) (products (db w)) ∧
    pool w' = c :: pool w ∧ faults w' = [] ∧
    row_locks w' = unlock c (unlock c (row_locks w)) ∧
    sessions w' = <[c := {| autocommit := true; pending := [] |}]> (sessions w).
Proof.
  destruct w as [[prods ords txs auds] locks sess pl npid noid ntid nw fs lg].
  cbn. intros -> Hs Hfq Hge. settle. rewrite bool_decide_eq_false_2 by lia.
  settle. rewrite Hfq. repeat settle.
  eexists _, _; repeat split; try reflexivity.
  cbn; by rewrite !insert_insert_eq.
Qed.

(** ** Concurrent purchases: the invariant *)

Lemma count_insert (p : Thread → bool) ts i x y :
  ts !! i = Some x →
  (count p (<[i := y]> ts) + (if p x then 1 else 0)
   = count p ts + (if p y then 1 else 0))%nat.
Proof.
  revert i. induction ts as [|a ts IH]; intros [|i] Hi; try done.
  - injection Hi as ->. change (<[0%nat := y]> (x :: ts)) with (y :: ts).
    cbn [count]. destruct (p x), (p y); lia.
  - change (<[S i := y]> (a :: ts)) with (a :: <[i := y]> ts).
    cbn [count]. specialize (IH i Hi). revert IH.
    destruct (p a), (p x), (p y); lia.
Qed.

Lemma count_pos (p : Thread → bool) ts i x :
  ts !! i = Some x → p x = true → (1 ≤ count p ts)%nat.
Proof.
  revert i. induction ts as [|a ts IH]; intros [|i] Hi Hx; try done.
  - cbn in Hi. injection Hi as ->. cbn. rewrite Hx. lia.
  - cbn in Hi. cbn. specialize (IH i Hi Hx). destruct (p a); lia.
Qed.

Lemma count_le_length (p : Thread → bool) ts : (count p ts ≤ length ts)%nat.
Proof. induction ts as [|a ts IH]; cbn; [lia|]. destruct (p a); lia. Qed.

Lemma thread_ok_frame pid q s s' w w' t :
  is_holding t = false → thread_ok pid q s w t → thread_ok pid q s' w' t.
Proof. by destruct t. Qed.

Lemma pending_after_insert w w' c s c' :
  sessions w' = <[c := s]> (sessions w) → pending s = [] →
  pending (session w c') = [] → pending (session w' c') = [].
Proof.
  unfold session. intros -> Hs Hc. destruct (decide (c = c')) as [<-|Hne].
  - by rewrite lookup_insert_eq.
  - by rewrite lookup_insert_ne.
Qed.

Lemma holding_lock pid q s w t :
  is_holding t = true → thread_ok pid q s w t →
  ∃ c, row_locks w !! pid = Some c ∧ (c ∉ pool w) ∧
       sessions w !! c = Some {| autocommit := false; pending := [] |}.
Proof.
  destruct t as [| pd req u conn cur locked |]; try done.
  intros _ (_ & _ & c & aid & name & price & _ & _ & _ & Hp & Hs & Hl). eauto.
Qed.

Lemma step_consistent pid q S fq cfg i :
  0 < q → PyFloat.of_int q = Some fq →
  consistent pid q S cfg → consistent pid q S (schedule_step cfg i).
Proof.
  intros Hq Hfq Hc. destruct cfg as [w ts].
  destruct Hc as [Hf (row & Hrow & Hst & Hnn) Hidle Hnd Hth Hlk Hun Hpl Hpr].
  cbn [fst snd] in *. unfold schedule_step. cbn [fst snd].
  destruct (ts !! i) as [t|] eqn:Hi; [|by constructor; eauto].
  pose proof (Hth i t Hi) as Hok.
  pose proof (lookup_lt_Some _ _ _ Hi) as Hlen.
  destruct t as [pd req u | pd req u conn cur locked | r].
  - (* a thread takes its first step *)
    destruct Hok as [Hpid Hquant].
    destruct (pool w) as [|c rest] eqn:Hpool.
    { exfalso. pose proof (count_pos is_waiting ts i _ Hi eq_refl). cbn in Hpl. lia. }
    assert (Hpend : pending (session w c) = []) by (apply Hidle; left).
    apply NoDup_cons in Hnd as [Hc_rest Hnd].
    pose proof (count_insert is_waiting ts i _ (Finished (Raise PoolError)) Hi) as Hw1.
    destruct (row_locks w !! pid) as [holder|] eqn:Hlock.
    + (* the row is locked by another thread *)
      destruct (Hlk holder eq_refl) as (j & tj & Hj & Hhj).
      destruct (holding_lock _ _ _ _ _ Hhj (Hth j tj Hj)) as (h & Hh & Hhp & Hhs).
      assert (h = holder) as -> by congruence.
      assert (Hne : holder ≠ c) by (intros ->; apply Hhp; rewrite Hpool; left).
      assert (Hij : i ≠ j) by (intros ->; rewrite Hi in Hj; injection Hj as <-; done).
      destruct (waiting_step_busy pd req u w c rest row holder)
        as (w' & Hstep & Hdb & Hp & Hf' & Hl & Hs); try done; try congruence.
      rewrite Hstep.
      set (t' := Finished (Raise (HTTPException 409 _))).
      pose proof (count_insert is_success ts i _ t' Hi) as Hsucc.
      pose proof (count_insert is_waiting ts i _ t' Hi) as Hwait.
      cbn in Hsucc, Hwait.
      assert (Hsucc' : successes (<[i:=t']> ts) = successes ts) by (unfold successes; lia).
      constructor; cbn [fst snd]; rewrite ?Hsucc'.
      * done.
      * exists row. by rewrite Hdb.
      * intros c' Hc'. rewrite Hp, Hpool in Hc'.
        eapply pending_after_insert; [done..|]. apply Hidle. by rewrite Hpool in *.
      * rewrite Hp, Hpool. by apply NoDup_cons.
      * intros k tk Hk. destruct (decide (i = k)) as [<-|Hik].
        { rewrite list_lookup_insert_eq in Hk by done. injection Hk as <-.
          right; left. reflexivity. }
        rewrite list_lookup_insert_ne in Hk by done.
        pose proof (Hth k tk Hk) as Hokk.
        destruct (is_holding tk) eqn:Hhk; [|by eapply thread_ok_frame].
        destruct tk as [| pd' req' u' conn' cur' locked' |]; try done.
        destruct Hokk as (? & ? & c' & aid & name & price & ? & ? & ? & Hcp & Hcs & Hcl).
        split; [done|]. split; [done|]. exists c', aid, name, price.
        assert (c' = holder) as -> by congruence.
        repeat split; try done.
        -- by rewrite Hp.
        -- by rewrite Hs, lookup_insert_ne.
        -- rewrite Hl. apply lookup_unlock. split; [|done].
           apply lookup_unlock. done.
      * intros c' Hc'. rewrite Hl in Hc'.
        apply lookup_unlock in Hc' as [Hc' _]. apply lookup_unlock in Hc' as [Hc' _].
        exists j, tj. by rewrite list_lookup_insert_ne.
      * intros k l tk tl Hk Hl' Hhk Hhl.
        destruct (decide (i = k)) as [<-|Hik];
          [rewrite list_lookup_insert_eq in Hk by done; by injection Hk as <-|].
        destruct (decide (i = l)) as [<-|Hil];
          [rewrite list_lookup_insert_eq in Hl' by done; by injection Hl' as <-|].
        rewrite list_lookup_insert_ne in Hk, Hl' by done. eauto.
      * rewrite Hp, Hpool. cbn in *. lia.
      * intros _. right; left. exists j, tj. by rewrite list_lookup_insert_ne.
    + (* the row is free: the thread takes the lock *)
      destruct (waiting_step_free pd req u w c rest row)
        as (w' & Hstep & Hdb & Hp & Hf' & Hl & Hs); try done; try congruence.
      rewrite Hstep. rewrite Hpid in *.
      set (t' := Holding _ _ _ _ _ _).
      pose proof (count_insert is_success ts i _ t' Hi) as Hsucc.
      pose proof (count_insert is_waiting ts i _ t' Hi) as Hwait.
      cbn in Hsucc, Hwait.
      assert (Hsucc' : successes (<[i:=t']> ts) = successes ts) by (unfold successes; lia).
      assert (Hnone : ∀ k tk, ts !! k = Some tk → is_holding tk = false).
      { intros k tk Hk. destruct (is_holding tk) eqn:Hhk; [|done].
        destruct (holding_lock _ _ _ _ _ Hhk (Hth k tk Hk)) as (h & Hh & _). congruence. }
      constructor; cbn [fst snd]; rewrite ?Hsucc'.
      * done.
      * exists row. by rewrite Hdb.
      * intros c' Hc'. rewrite Hp in Hc'.
        eapply pending_after_insert; [done..|]. apply Hidle. by right.
      * by rewrite Hp.
      * intros k tk Hk. destruct (decide (i = k)) as [<-|Hik].
        { rewrite list_lookup_insert_eq in Hk by done. injection Hk as <-.
          split; [done|]. split; [done|].
          exists c, (Products.artisan_id row), (Products.product_name row),
            (Products.price row).
          repeat split; try done.
          - by rewrite <- Hst.
          - by rewrite Hp.
          - by rewrite Hs, lookup_insert_eq.
          - by rewrite Hl, lookup_insert_eq. }
        rewrite list_lookup_insert_ne in Hk by done.
        eapply thread_ok_frame; eauto.
      * intros _ _. exists i, t'. by rewrite list_lookup_insert_eq.
      * intros k l tk tl Hk Hl' Hhk Hhl.
        destruct (decide (i = k)) as [<-|Hik]; destruct (decide (i = l)) as [<-|Hil];
          try done.
        -- rewrite list_lookup_insert_ne in Hl' by done.
           rewrite (Hnone _ _ Hl') in Hhl. done.
        -- rewrite list_lookup_insert_ne in Hk by done.
           rewrite (Hnone _ _ Hk) in Hhk. done.
        -- rewrite list_lookup_insert_ne in Hk by done.
           rewrite (Hnone _ _ Hk) in Hhk. done.
      * rewrite Hp. cbn in *. lia.
      * intros _. right; left. exists i, t'. by rewrite list_lookup_insert_eq.
  - (* the thread that holds the lock takes its second step *)
    destruct Hok as (Hpid & Hquant & c & aid & name & price & -> & -> & -> & Hcp & Hcs & Hcl).
    assert (Hothers : ∀ k tk, i ≠ k → ts !! k = Some tk → is_holding tk = false).
    { intros k tk Hik Hk. destruct (is_holding tk) eqn:Hhk; [|done].
      destruct Hik. by eapply Hun. }
    assert (Hcpend : pending (session w c) = []) by (unfold session; by rewrite Hcs).
    set (stock := S - q * Z.of_nat (successes ts)) in *.
    destruct (decide (stock < q)) as [Hlt|Hge].
    + (* not enough stock *)
      destruct (holding_step_short pd req u w c aid name price stock)
        as (r & w' & Hstep & Hr & Hdb & Hp & Hf' & Hl & Hs); [lia|].
      rewrite <- Hpid. rewrite Hstep. rewrite Hpid.
      set (t' := Finished r).
      pose proof (count_insert is_success ts i _ t' Hi) as Hsucc.
      pose proof (count_insert is_waiting ts i _ t' Hi) as Hwait.
      assert (Hrs : is_success t' = false) by (unfold t'; by rewrite Hr).
      cbn [is_waiting t'] in Hwait. rewrite Hrs in Hsucc. cbn in Hsucc, Hwait.
      assert (Hsucc' : successes (<[i:=t']> ts) = successes ts) by (unfold successes; lia).
      constructor; cbn [fst snd]; rewrite ?Hsucc'; fold stock.
      * congruence.
      * exists row. by rewrite Hdb.
      * intros c' Hc'. eapply pending_after_insert; [done..|].
        rewrite Hp in Hc'. apply elem_of_cons in Hc' as [->|Hc']; [done|by apply Hidle].
      * rewrite Hp. by apply NoDup_cons.
      * intros k tk Hk. destruct (decide (i = k)) as [<-|Hik].
        { rewrite list_lookup_insert_eq in Hk by done. injection Hk as <-.
          cbn. rewrite Hr. case_bool_decide as H0.
          - right; right; left. reflexivity.
          - right; right; right. split; [reflexivity|]. unfold stock in *. lia. }
        rewrite list_lookup_insert_ne in Hk by done.
        eapply thread_ok_frame; eauto.
      * intros c' Hc'. rewrite Hl in Hc'.
        apply lookup_unlock in Hc' as [Hc' Hne]. apply lookup_unlock in Hc' as [Hc' _].
        congruence.
      * intros k l tk tl Hk Hl' Hhk Hhl.
        destruct (decide (i = k)) as [<-|Hik];
          [rewrite list_lookup_insert_eq in Hk by done; by injection Hk as <-|].
        destruct (decide (i = l)) as [<-|Hil];
          [rewrite list_lookup_insert_eq in Hl' by done; by injection Hl' as <-|].
        rewrite list_lookup_insert_ne in Hk, Hl' by done. eauto.
      * rewrite Hp. cbn in *. lia.
      * intros HS. right; right. unfold stock in *.
        destruct (successes ts); [lia|lia].
    + (* the purchase goes through *)
      destruct (holding_step_ok pd req u w c aid name price stock fq)
        as (body & w' & Hstep & Hdb & Hp & Hf' & Hl & Hs); try done; try congruence; try lia.
      rewrite <- Hpid. rewrite Hstep. rewrite Hpid in *. rewrite Hquant in *.
      set (t' := Finished (Return body)).
      pose proof (count_insert is_success ts i _ t' Hi) as Hsucc.
      pose proof (count_insert is_waiting ts i _ t' Hi) as Hwait.
      cbn in Hsucc, Hwait.
      assert (Hsucc' : successes (<[i:=t']> ts) = Datatypes.S (successes ts))
        by (unfold successes; lia).
      constructor; cbn [fst snd]; rewrite ?Hsucc'.
      * done.
      * exists (Products.with_stock (stock - q) row).
        rewrite Hdb, lookup_alter_eq, Hrow. cbn. unfold stock in *.
        split; [done|]. split; lia.
      * intros c' Hc'. eapply pending_after_insert; [done..|].
        rewrite Hp in Hc'. apply elem_of_cons in Hc' as [->|Hc']; [done|by apply Hidle].
      * rewrite Hp. by apply NoDup_cons.
      * intros k tk Hk. destruct (decide (i = k)) as [<-|Hik].
        { rewrite list_lookup_insert_eq in Hk by done. injection Hk as <-.
          left. reflexivity. }
        rewrite list_lookup_insert_ne in Hk by done.
        eapply thread_ok_frame; eauto.
      * intros c' Hc'. rewrite Hl in Hc'.
        apply lookup_unlock in Hc' as [Hc' Hne]. apply lookup_unlock in Hc' as [Hc' _].
        congruence.
      * intros k l tk tl Hk Hl' Hhk Hhl.
        destruct (decide (i = k)) as [<-|Hik];
          [rewrite list_lookup_insert_eq in Hk by done; by injection Hk as <-|].
        destruct (decide (i = l)) as [<-|Hil];
          [rewrite list_lookup_insert_eq in Hl' by done; by injection Hl' as <-|].
        rewrite list_lookup_insert_ne in Hk, Hl' by done. eauto.
      * rewrite Hp. cbn in *. lia.
      * intros _. right; right. lia.
  - (* a finished thread does nothing *)
    cbn. rewrite list_insert_id by done. by constructor; eauto.
Qed.

Lemma run_consistent pid q S fq schedule cfg :
  0 < q → PyFloat.of_int q = Some fq →
  consistent pid q S cfg → consistent pid q S (run_schedule schedule cfg).
Proof.
  intros Hq Hfq. revert cfg.
  induction schedule as [|i schedule IH]; intros cfg Hc; [done|].
  cbn. apply IH. by eapply step_consistent.
Qed.

Lemma count_all_waiting pid q ts :
  Forall (λ t, ∃ pd req u, t = Waiting pd req u ∧
                 PurchaseRequest.product_id pd = pid ∧
                 PurchaseRequest.quantity pd = q) ts →
  count is_waiting ts = length ts ∧ count is_success ts = 0%nat.
Proof.
  induction 1 as [|t ts (pd & req & u & -> & _) _ [IH1 IH2]]; [done|].
  cbn. by rewrite IH1, IH2.
Qed.

Lemma initially_consistent pid q S w ts :
  0 ≤ S →
  faults w = [] →
  (∃ row, products (db w) !! pid = Some row ∧ Products.stock_quantity row = S) →
  row_locks w !! pid = None →
  idle w → NoDup (pool w) → (length ts ≤ length (pool w))%nat →
  Forall (λ t, ∃ pd req u, t = Waiting pd req u ∧
                 PurchaseRequest.product_id pd = pid ∧
                 PurchaseRequest.quantity pd = q) ts →
  consistent pid q S (w, ts).
Proof.
  intros HS Hf (row & Hrow & Hst) Hlock Hidle Hnd Hlen Hts.
  destruct (count_all_waiting _ _ _ Hts) as [Hw Hs].
  assert (Hall : ∀ i t, ts !! i = Some t →
            ∃ pd req u, t = Waiting pd req u ∧
              PurchaseRequest.product_id pd = pid ∧ PurchaseRequest.quantity pd = q).
  { intros i t Hi. eapply Forall_lookup_1 in Hts; eauto. }
  constructor; cbn [fst snd]; unfold successes; rewrite ?Hs, ?Hw.
  - done.
  - exists row. split; [done|]. lia.
  - intros c _. unfold session. destruct (sessions w !! c) as [s|] eqn:Hc; [|done].
    cbn. by eapply Hidle.
  - done.
  - intros i t Hi. destruct (Hall i t Hi) as (pd & req & u & -> & ? & ?). by split.
  - intros c Hc. congruence.
  - intros i j ti tj Hi _ Hh. destruct (Hall i ti Hi) as (pd & req & u & -> & _). done.
  - done.
  - intros _. left. intros i t Hi. destruct (Hall i t Hi) as (pd & req & u & -> & _). done.
Qed.

Lemma run_schedule_length schedule cfg :
  length (run_schedule schedule cfg).2 = length cfg.2.
Proof.
  revert cfg. induction schedule as [|i schedule IH]; intros [w ts]; [done|].
  change (run_schedule (i :: schedule) (w, ts))
    with (run_schedule schedule (schedule_step (w, ts) i)).
  rewrite IH. unfold schedule_step. cbn [fst snd].
  destruct (ts !! i) as [t|]; [|done].
  destruct (thread_step t w). cbn [snd]. apply length_insert.
Qed.

(** ** The claims *)

(** C1. A purchase of [q] items, [1 <= q <= S], of an existing product with
    stock [S] and price [P] returns Success: the body holds the new order id,
    the id of the payment split, the product name, [q], [total_price = P * q]
    (the float product), the commission and the payout, [remaining_stock =
    S - q] and the creation time of the order in ISO-8601 form.  The commit
    changes the stock of that product to [S - q] and appends one order, one
    payment split and one audit entry; the statements issued are one of each
    kind.  The call meets a store without failures, an idle connection in the
    pool and a row no other transaction has locked. *)
Theorem successful_purchase pd req u w c rest row fq :
  faults w = [] →
  pool w = c :: rest →
  pending (session w c) = [] →
  products (db w) !! PurchaseRequest.product_id pd = Some row →
  row_locks w !! PurchaseRequest.product_id pd = None →
  1 ≤ PurchaseRequest.quantity pd ≤ Products.stock_quantity row →
  PyFloat.of_int (PurchaseRequest.quantity pd) = Some fq →
  let pid := PurchaseRequest.product_id pd in
  let q := PurchaseRequest.quantity pd in
  let total := PyFloat.mul (Products.price row) fq in
  let fee := PyFloat.round (PyFloat.mul total (PyFloat.literal 5 2)) 2 in
  let payout := PyFloat.round (PyFloat.sub total fee) 2 in
  let order :=
    {| Orders.order_id := next_order_id w; Orders.buyer_id := user_id u;
       Orders.product_id := pid; Orders.quantity := q;
       Orders.total_price := total;
       Orders.shipping_address := PurchaseRequest.shipping_address pd;
       Orders.created_at := now w |} in
  let split :=
    {| Transactions.transaction_id := next_transaction_id w;
       Transactions.order_id := next_order_id w;
       Transactions.artisan_id := Products.artisan_id row;
       Transactions.buyer_id := user_id u;
       Transactions.product_id := pid;
       Transactions.amount := total;
       Transactions.commission_fee := fee;
       Transactions.artisan_payout := payout |} in
  let entry :=
    {| AuditLogs.user_id := user_id u; AuditLogs.action_type := "purchase";
       AuditLogs.entity_type := Some "order";
       AuditLogs.entity_id := Some (next_order_id w);
       AuditLogs.details :=
         Some [("product_name", JStr (Products.product_name row));
               ("quantity", JInt q); ("total_price", JFloat total);
               ("old_stock", JInt (Products.stock_quantity row));
               ("new_stock", JInt (Products.stock_quantity row - q))];
       AuditLogs.ip_address := Some (client_host req) |} in
  ∃ w',
    call_purchase pd req u w =
      (Return {| PurchaseResponse.message := "Purchase successful";
                 PurchaseResponse.order_id := next_order_id w;
                 PurchaseResponse.transaction_id := next_transaction_id w;
                 PurchaseResponse.product_name := Products.product_name row;
                 PurchaseResponse.quantity := q;
                 PurchaseResponse.total_price := total;
                 PurchaseResponse.commission_fee := fee;
                 PurchaseResponse.artisan_payout := payout;
                 PurchaseResponse.remaining_stock := Products.stock_quantity row - q;
                 PurchaseResponse.created_at := isoformat (now w) |}, w') ∧
    db w' =
      {| products := <[pid := Products.with_stock (Products.stock_quantity row - q) row]>
                       (products (db w));
         orders := orders (db w) ++ [order];
         transactions := transactions (db w) ++ [split];
         audit_logs := audit_logs (db w) ++ [entry] |} ∧
    log w' = log w ++
      [EGetconn c; ECursor c; EAutocommit c false;
       EExecute c CSelectForUpdate; EExecute c CUpdateStock;
       EExecute c CInsertOrder; EExecute c CInsertTransaction;
       EExecute c CInsertAuditLog; ECommit c;
       EClose c; EAutocommit c true; EPutconn c].
Proof.
  destruct w as [[prods ords txs auds] locks sess pl npid noid ntid nw fs lg].
  unfold session. cbn. intros -> -> Hpend Hrow Hlock [Hq1 Hq2] Hfq.
  eexists.
  settle.
  destruct (sess !! c) as [[ac pnd]|] eqn:Hs; cbn in Hpend; subst.
  all: repeat settle.
  all: rewrite bool_decide_eq_false_2 by lia; settle.
  all: rewrite Hfq; repeat settle.
  all: (split; [reflexivity|]); split.
  all: try (rewrite <- !app_assoc; reflexivity).
  all: f_equal; apply map_eq; intros i.
  all: destruct (decide (PurchaseRequest.product_id pd = i)) as [<-|Hne];
    [rewrite lookup_alter_eq, Hrow, lookup_insert_eq
    | rewrite lookup_alter_ne, lookup_insert_ne by done]; done.
Qed.

Lemma successful_purchase_witness :
  (call_purchase (Example.buy 1) Example.request Example.buyer
     (Example.store (PyFloat.literal 10000 2) 1)).1
  = Return {| PurchaseResponse.message := "Purchase successful";
              PurchaseResponse.order_id := 1;
              PurchaseResponse.transaction_id := 1;
              PurchaseResponse.product_name := "Race Condition Test Item";
              PurchaseResponse.quantity := 1;
              PurchaseResponse.total_price := PyFloat.literal 10000 2;
              PurchaseResponse.commission_fee := PyFloat.literal 500 2;
              PurchaseResponse.artisan_payout := PyFloat.literal 9500 2;
              PurchaseResponse.remaining_stock := 0;
              PurchaseResponse.created_at := "2024-03-07T12:00:00+06:00" |}.
Proof.
  destruct (successful_purchase (Example.buy 1) Example.request Example.buyer
              (Example.store (PyFloat.literal 10000 2) 1) 0%nat [1%nat]
              (Example.item (PyFloat.literal 10000 2) 1)
              (PyFloat.literal 1 0))
    as (w' & H & _).
  - reflexivity.
  - reflexivity.
  - reflexivity.
  - reflexivity.
  - reflexivity.
  - cbn. lia.
  - vm_compute. reflexivity.
  - rewrite H. vm_compute. reflexivity.
Defined.

(** C2. Once the product row is found and locked, a validated purchase is
    classified by the stock read: stock 0 aborts with 400 and a detail that
    contains "SOLD OUT"; a stock strictly between 0 and the quantity aborts
    with 400 and a detail that contains the stock; otherwise the call goes on
    with the writes.  An aborted call leaves the committed rows as they
    were. *)
Theorem stock_check_classification pd req u w c k pid aid name price stock fr :
  PurchaseRequest.validate pd = Return pd →
  lock_product pd (enter w) = (Return (c, k, Some (pid, aid, name, price, stock)), fr) →
  (stock = 0 →
     ∃ detail w',
       call_purchase pd req u w = (Raise (HTTPException 400 detail), w') ∧
       contains "SOLD OUT" detail = true ∧ db w' = db w) ∧
  (0 < stock < PurchaseRequest.quantity pd →
     ∃ detail w',
       call_purchase pd req u w = (Raise (HTTPException 400 detail), w') ∧
       contains (pretty stock) detail = true ∧ db w' = db w) ∧
  (PurchaseRequest.quantity pd ≤ stock →
     call_purchase pd req u w =
       let '(r, fr') :=
         guarded (write_purchase pd req u c k pid aid name price stock) fr in
       (r, world fr')).
Proof.
  intros Hv Hlock.
  assert (Hq : 0 < PurchaseRequest.quantity pd).
  { unfold PurchaseRequest.validate, PurchaseRequest.validate_quantity in Hv.
    case_bool_decide; [discriminate | lia]. }
  pose proof (call_purchase_steps pd req u w) as Hsteps.
  rewrite Hlock in Hsteps.
  split; [|split].
  - intros H0.
    destruct (call_purchase pd req u w) as [r w'] eqn:Hcall.
    assert (r = Raise (HTTPException 400 "SOLD OUT: This item is no longer available")) as ->.
    { revert Hsteps. unfold check_and_write.
      rewrite bool_decide_eq_true_2 by lia. destruct fr as [wf cf kf].
      settle. rewrite (bool_decide_eq_true_2 (stock = 0)) by done.
      paths; intros [= -> _]; reflexivity. }
    eexists _, w'. split; [reflexivity|]. split; [reflexivity|].
    by eapply purchase_failure_keeps_db.
  - intros [H0 Hlt].
    destruct (call_purchase pd req u w) as [r w'] eqn:Hcall.
    assert (r = Raise (HTTPException 400
                         ("Insufficient stock. Only " +:+ pretty stock
                          +:+ " items available"))) as ->.
    { revert Hsteps. unfold check_and_write.
      rewrite bool_decide_eq_true_2 by lia. destruct fr as [wf cf kf].
      settle. rewrite bool_decide_eq_false_2 by lia.
      paths; intros [= -> _]; reflexivity. }
    eexists _, w'. split; [reflexivity|]. split; [apply contains_app|].
    by eapply purchase_failure_keeps_db.
  - intros Hge. rewrite Hsteps. unfold check_and_write.
    rewrite bool_decide_eq_false_2 by lia. reflexivity.
Qed.

Lemma stock_check_classification_witness :
  ∃ detail w',
    call_purchase (Example.buy 1) Example.request Example.buyer
      (Example.store (PyFloat.literal 10000 2) 0)
    = (Raise (HTTPException 400 detail), w') ∧
    contains "SOLD OUT" detail = true ∧
    db w' = db (Example.store (PyFloat.literal 10000 2) 0).
Proof.
  eapply (stock_check_classification (Example.buy 1) Example.request Example.buyer
            (Example.store (PyFloat.literal 10000 2) 0)).
  - reflexivity.
  - vm_compute. reflexivity.
  - reflexivity.
Defined.

(** C3. A call that does not return Success leaves the persistent state as
    it was: same products (hence the same stock), orders, payment splits and
    audit entries.  The store may fail at any call, the writes between the
    stock update and the commit included. *)
Theorem failed_purchase_leaves_store_unchanged pd req u w r w' :
  call_purchase pd req u w = (r, w') → outcome r ≠ Success → db w' = db w.
Proof.
  intros H Hr. destruct r as [body|e]; [by destruct Hr|].
  by eapply purchase_failure_keeps_db.
Qed.

Lemma failed_purchase_leaves_store_unchanged_witness :
  outcome (call_purchase (Example.buy 1) Example.request Example.buyer
             (Example.store (PyFloat.literal 10000 2) 0)).1 = SoldOut ∧
  db (call_purchase (Example.buy 1) Example.request Example.buyer
        (Example.store (PyFloat.literal 10000 2) 0)).2
  = db (Example.store (PyFloat.literal 10000 2) 0).
Proof.
  split; [vm_compute; reflexivity|].
  eapply (failed_purchase_leaves_store_unchanged (Example.buy 1) Example.request
            Example.buyer (Example.store (PyFloat.literal 10000 2) 0)).
  - apply surjective_pairing.
  - vm_compute. discriminate.
Defined.

(** C5. The code at the failing input: no transaction holds the row of the
    product, the lock query fails with another store error, and the caller
    is told 409, "currently being purchased by another customer". *)
Theorem store_error_at_lock_query_reported_as_contention :
  let w := set_faults [CSelectForUpdate] (Example.store (PyFloat.literal 10000 2) 1) in
  row_locks w = ∅ ∧
  (call_purchase (Example.buy 1) Example.request Example.buyer w).1 =
    Raise (HTTPException 409
             "Product is currently being purchased by another customer. Please try again.").
Proof.
  split; [reflexivity|].
  apply (lock_query_error_reported_as_contention _ _ _ _ 0%nat [1%nat]); reflexivity.
Qed.

(** C6. From a store where no stock is negative, no sequence of the
    operations of the API (product creation, purchase), whatever failures
    they meet, leads to a negative stock. *)
Theorem stock_never_negative arrivals w :
  stock_nonneg (db w) → idle w →
  stock_nonneg (db (serve_all arrivals w)).
Proof.
  revert w. induction arrivals as [|a arrivals IH]; intros w Hs Hi; [done|].
  cbn. destruct (serve_preserves a w Hs Hi) as [Hs' Hi']. by apply IH.
Qed.

Lemma stock_never_negative_witness :
  stock_nonneg
    (db (serve_all
           [{| op := PostProducts
                       {| ProductCreate.product_name := "Vase";
                          ProductCreate.description := "";
                          ProductCreate.price := PyFloat.literal 2500 2;
                          ProductCreate.stock_quantity := 3;
                          ProductCreate.category := "Test";
                          ProductCreate.image_url := None |} Example.artisan;
               op_faults := []; op_now := Example.noon |};
            {| op := PostPurchaseLock (Example.buy 1) Example.request Example.buyer;
               op_faults := []; op_now := Example.noon |};
            {| op := PostPurchaseLock (Example.buy 1) Example.request Example.buyer;
               op_faults := [CInsertOrder]; op_now := Example.noon |}]
           (Example.store (PyFloat.literal 10000 2) 1))).
Proof.
  apply stock_never_negative.
  - intros p r. unfold Example.store. cbn.
    intros [<- <-]%lookup_singleton_Some. done.
  - intros c s. unfold Example.store. cbn. by rewrite lookup_empty.
Defined.

(** C7, as stated, fails: two buyers race for one item each of a stock of
    two; the second meets the lock of the first and is turned away, so that
    one purchase succeeds where [floor(S / q)] capped at [N] is two. *)
Lemma exactly_floor_fails :
  let cfg := run_schedule [0; 1; 0]%nat
               (Example.store (PyFloat.literal 10000 2) 2, Example.two_buyers) in
  Forall (λ t, is_finished t = true) cfg.2 ∧
  Z.of_nat (successes cfg.2) ≠ Z.min (2 / 1) (Z.of_nat (length Example.two_buyers)).
Proof.
  vm_compute. split; [repeat constructor|discriminate].
Qed.

(** C7, amended. [N] threads each ask for [q] items of a product with
    stock [S], on a store without failures that has a connection for each.
    Under every schedule the stock is [S - successes * q] and not negative,
    so that at most [floor(S / q)], and at most [N], purchases succeed.  Once
    all threads have finished, at least one has succeeded if [q <= S] and
    [N >= 1], and every other reports LockContention, SoldOut or
    InsufficientStock.  With [S = 1], [q = 1] and two threads exactly one
    succeeds, the other reports LockContention or SoldOut, and the stock
    ends at 0. *)
Theorem no_oversell pid q S fq w ts schedule :
  1 ≤ q → 0 ≤ S →
  PyFloat.of_int q = Some fq →
  faults w = [] →
  (∃ row, products (db w) !! pid = Some row ∧ Products.stock_quantity row = S) →
  row_locks w !! pid = None →
  idle w → NoDup (pool w) → (length ts ≤ length (pool w))%nat →
  Forall (λ t, ∃ pd req u, t = Waiting pd req u ∧
                 PurchaseRequest.product_id pd = pid ∧
                 PurchaseRequest.quantity pd = q) ts →
  let w' := (run_schedule schedule (w, ts)).1 in
  let ts' := (run_schedule schedule (w, ts)).2 in
  let n := Z.of_nat (successes ts') in
  (∃ row', products (db w') !! pid = Some row' ∧
           Products.stock_quantity row' = S - n * q ∧
           0 ≤ Products.stock_quantity row') ∧
  n ≤ Z.of_nat (length ts) ∧ n ≤ S / q ∧
  (Forall (λ t, is_finished t = true) ts' →
     (q ≤ S → ts ≠ [] → 1 ≤ n) ∧
     Forall (λ t, ∃ r, t = Finished r ∧
                   (outcome r = Success ∨ outcome r = LockContention ∨
                    outcome r = SoldOut ∨
                    (outcome r = InsufficientStock ∧ 1 < q))) ts' ∧
     (S = 1 → q = 1 → length ts = 2%nat →
        n = 1 ∧
        (∃ row', products (db w') !! pid = Some row' ∧
                 Products.stock_quantity row' = 0) ∧
        Forall (λ t, ∃ r, t = Finished r ∧
                      (outcome r = Success ∨ outcome r = LockContention ∨
                       outcome r = SoldOut)) ts')).
Proof.
  intros Hq HS Hfq Hf Hrow Hlock Hidle Hnd Hlen Hts w' ts' n.
  assert (Hc : consistent pid q S (w', ts')).
  { unfold w', ts'. rewrite <- surjective_pairing.
    eapply run_consistent; [lia|done|]. by apply initially_consistent. }
  destruct Hc as [_ (row' & Hrow' & Hst' & Hnn') _ _ Hth _ _ _ Hpr].
  cbn [fst snd] in *. fold n in Hst', Hth.
  assert (Hn_len : n ≤ Z.of_nat (length ts)).
  { pose proof (run_schedule_length schedule (w, ts)) as Hl. cbn [snd] in Hl.
    fold ts' in Hl. unfold n, successes.
    pose proof (count_le_length is_success ts'). lia. }
  assert (Hn_div : n ≤ S / q).
  { apply Z.div_le_lower_bound; lia. }
  assert (Hout : Forall (λ t, is_finished t = true) ts' →
            Forall (λ t, ∃ r, t = Finished r ∧
                   (outcome r = Success ∨ outcome r = LockContention ∨
                    outcome r = SoldOut ∨
                    (outcome r = InsufficientStock ∧ 1 < q))) ts').
  { intros Hfin. apply Forall_lookup_2. intros i t Hi.
    pose proof (Forall_lookup_1 _ _ _ _ Hfin Hi) as Ht.
    destruct t as [| |r]; try done. exists r. split; [done|].
    exact (Hth i _ Hi). }
  assert (Hone : Forall (λ t, is_finished t = true) ts' → q ≤ S → ts ≠ [] → 1 ≤ n).
  { intros Hfin HqS Hne. destruct (Hpr HqS) as [Hw|[(i & t & Hi & Hh)|H1]].
    - assert (Hlen' : length ts' = length ts)
        by apply (run_schedule_length schedule (w, ts)).
      destruct ts' as [|t0 ts0]; [by destruct ts|].
      pose proof (Hw 0%nat t0 eq_refl) as H0.
      apply Forall_cons in Hfin as [Hfin _]. by destruct t0.
    - pose proof (Forall_lookup_1 _ _ _ _ Hfin Hi) as Ht. by destruct t.
    - unfold n. lia. }
  split; [exists row'; repeat split; [done|lia|done]|].
  split; [done|]. split; [done|].
  intros Hfin. split; [by apply Hone|]. split; [by apply Hout|].
  intros -> -> Hlen2.
  assert (Hn1 : n = 1).
  { assert (1 ≤ n) by (apply Hone; [done|lia|by destruct ts]).
    rewrite Z.div_same in Hn_div by lia. lia. }
  split; [done|]. split; [exists row'; split; [done|lia]|].
  eapply Forall_impl; [by apply Hout|].
  intros t (r & -> & Hr). exists r. split; [done|].
  destruct Hr as [?|[?|[?|[_ ?]]]]; auto. lia.
Qed.

Lemma no_oversell_witness :
  let cfg := run_schedule [0; 1; 0; 1]%nat
               (Example.store (PyFloat.literal 10000 2) 1, Example.two_buyers) in
  Forall (λ t, is_finished t = true) cfg.2 ∧
  Z.of_nat (successes cfg.2) = 1 ∧
  ∃ row', products (db cfg.1) !! 1 = Some row' ∧ Products.stock_quantity row' = 0.
Proof.
  intros cfg.
  assert (Hfin : Forall (λ t, is_finished t = true) cfg.2)
    by (vm_compute; repeat constructor).
  destruct (no_oversell 1 1 1 (PyFloat.literal 1 0)
              (Example.store (PyFloat.literal 10000 2) 1) Example.two_buyers
              [0; 1; 0; 1]%nat) as (_ & _ & _ & H).
  - lia.
  - lia.
  - vm_compute. reflexivity.
  - reflexivity.
  - eexists. split; [reflexivity|reflexivity].
  - reflexivity.
  - intros c s. unfold Example.store. cbn. by rewrite lookup_empty.
  - change (NoDup [0%nat; 1%nat]). apply NoDup_cons. split.
    + by intros ?%list_elem_of_singleton.
    + apply NoDup_singleton.
  - cbn. lia.
  - repeat constructor; eexists _, _, _; done.
  - destruct (H Hfin) as (_ & _ & H3).
    destruct H3 as (Hn & Hrow & _); [done..|].
    split; [exact Hfin|]. split; [exact Hn|exact Hrow].
Defined.

(** C8. For the total of any successful purchase, the commission and the
    payout the endpoint computes are those [create_transaction] records for
    the same amount. *)
Theorem commission_paths_agree pd req u w body w'
    order_id artisan_id buyer_id product_id w2 row w2' :
  call_purchase pd req u w = (Return body, w') →
  create_transaction order_id artisan_id buyer_id product_id
    (PurchaseResponse.total_price body) w2 = (Return (Some row), w2') →
  Transactions.commission_fee row = PurchaseResponse.commission_fee body ∧
  Transactions.artisan_payout row = PurchaseResponse.artisan_payout body.
Proof.
  intros H1 H2.
  apply purchase_success_split in H1 as [Hf Hp].
  apply create_transaction_split in H2 as (_ & Hf' & Hp').
  rewrite Hp', Hp, Hf', Hf. done.
Qed.

Lemma commission_paths_agree_witness :
  ∃ row,
    (create_transaction 1 1 2 1 (PyFloat.literal 10000 2)
       (Example.store (PyFloat.literal 10000 2) 1)).1 = Return (Some row) ∧
    Transactions.commission_fee row = PyFloat.literal 500 2 ∧
    Transactions.artisan_payout row = PyFloat.literal 9500 2.
Proof.
  set (w := Example.store (PyFloat.literal 10000 2) 1).
  destruct (call_purchase (Example.buy 1) Example.request Example.buyer w)
    as [r w'] eqn:H1.
  destruct (create_transaction 1 1 2 1 (PyFloat.literal 10000 2) w)
    as [r2 w2'] eqn:H2.
  assert (Hr : ∃ body, r = Return body ∧
            PurchaseResponse.total_price body = PyFloat.literal 10000 2 ∧
            PurchaseResponse.commission_fee body = PyFloat.literal 500 2 ∧
            PurchaseResponse.artisan_payout body = PyFloat.literal 9500 2).
  { apply (f_equal fst) in H1. cbn [fst] in H1. rewrite <- H1.
    eexists. split; [vm_compute; reflexivity|]. vm_compute.
    split; [reflexivity|]. split; reflexivity. }
  assert (Hr2 : ∃ row, r2 = Return (Some row)).
  { apply (f_equal fst) in H2. cbn [fst] in H2. rewrite <- H2.
    eexists. vm_compute. reflexivity. }
  destruct Hr as (body & -> & Ht & Hf & Hp), Hr2 as (row & ->).
  rewrite <- Ht in H2.
  destruct (commission_paths_agree _ _ _ _ _ _ _ _ _ _ _ _ _ H1 H2) as [Hf' Hp'].
  exists row. cbn [fst]. rewrite Hf', Hp'.
  split; [reflexivity|]. split; assumption.
Defined.


(** C10. A body run under [get_cursor] on a connection of the pool: if it
    returns, [commit] is called exactly when it was requested (a failed
    commit is rolled back and its error raised); if it raises, the
    transaction is rolled back and the exception raised again; in each case
    the cursor is closed and the connection put back.  After the body the
    committed rows change only by a commit that succeeds. *)
Theorem get_cursor_atomic {A} (commit : bool) (body : nat → M World A)
    w c rest rb wb :
  fails CGetconn w = false → pool w = c :: rest → fails CCursor w = false →
  body c (record_event (ECursor c)
            (record_event (EGetconn c) (set_pool (λ _, rest) w))) = (rb, wb) →
  ∃ w',
    get_cursor commit body w =
      (match rb with
       | Return a => if commit && fails CCommit wb
                     then Raise (DatabaseError CCommit) else Return a
       | Raise e => Raise e
       end, w') ∧
    log w' = log wb ++
      match rb with
      | Return _ => if commit
                    then (if fails CCommit wb then [ECommit c; ERollback c]
                          else [ECommit c])
                    else []
      | Raise _ => [ERollback c]
      end ++ [EClose c; EPutconn c] ∧
    db w' =
      match rb with
      | Return _ => if commit && negb (fails CCommit wb)
                    then apply_writes (db wb) (pending (session wb c))
                    else db wb
      | Raise _ => db wb
      end.
Proof.
  destruct w as [t locks sess pl npid noid ntid nw fs lg].
  unfold fails. cbn. intros Hg -> Hc Hb.
  revert Hb. exec. rewrite Hg. exec. rewrite Hc. exec. intros ->.
  destruct wb as [tb locksb sessb plb npidb noidb ntidb nwb fsb lgb].
  destruct rb as [a|e], commit; exec.
  1: destruct (bool_decide (CCommit ∈ fsb)); exec.
  all: eexists; cbn [andb negb]; rewrite <- ?app_assoc; repeat split; reflexivity.
Qed.

Lemma get_cursor_atomic_witness :
  ∃ w',
    execute_update (UpdateProductStock 5 1) (Example.store (PyFloat.literal 10000 2) 1)
      = (Return 1%nat, w') ∧
    log w' = [EGetconn 0; ECursor 0; EExecute 0 CUpdateStock; ECommit 0;
              EClose 0; EPutconn 0] ∧
    products (db w') !! 1 = Some (Example.item (PyFloat.literal 10000 2) 5).
Proof.
  destruct (get_cursor_atomic true
              (λ cursor, cursor_execute cursor (UpdateProductStock 5 1))
              (Example.store (PyFloat.literal 10000 2) 1) 0%nat [1%nat]
              (Return 1%nat)
              (cursor_execute 0%nat (UpdateProductStock 5 1)
                 (record_event (ECursor 0)
                    (record_event (EGetconn 0)
                       (set_pool (λ _, [1%nat])
                          (Example.store (PyFloat.literal 10000 2) 1))))).2)
    as (w' & H & Hlog & Hdb).
  - reflexivity.
  - reflexivity.
  - reflexivity.
  - vm_compute. reflexivity.
  - exists w'. split; [exact H|]. split.
    + rewrite Hlog. vm_compute. reflexivity.
    + rewrite Hdb. vm_compute. reflexivity.
Defined.

(** * Further properties *)

(** ** The endpoint, case by case *)

Lemma released_unlock c locks : locks_released c locks (unlock c locks).
Proof. intros p h. apply lookup_unlock. Qed.

Lemma released_unlock2 c locks : locks_released c locks (unlock c (unlock c locks)).
Proof. intros p h. rewrite !lookup_unlock. tauto. Qed.

Lemma released_taken c pid locks :
  locks !! pid = None →
  locks_released c locks (unlock c (unlock c (<[pid := c]> locks))).
Proof.
  intros Hn p h. rewrite !lookup_unlock.
  destruct (decide (pid = p)) as [<-|Hne].
  - rewrite lookup_insert_eq, Hn. split; [intros [[[= ->] ?] ?]; done|intros [[=] _]].
  - rewrite lookup_insert_ne by done. tauto.
Qed.

Lemma purchase_exit pd req u w c rest r w' :
  pool w = c :: rest → fails CGetconn w = false →
  call_purchase pd req u w = (r, w') →
  pool w' = pool w ∧ faults w' = faults w ∧
  sessions w' = <[c := {| autocommit := true; pending := [] |}]> (sessions w) ∧
  locks_released c (row_locks w) (row_locks w').
Proof.
  destruct w as [[prods ords txs auds] locks sess pl npid noid ntid nw fs lg].
  unfold fails. cbn. intros -> Hg. exec. rewrite Hg. paths.
  all: intros H; inversion H; subst; clear H; cbn.
  all: rewrite ?insert_insert_eq.
  all: refine (conj _ (conj _ (conj _ _))); try reflexivity.
  all: try apply released_unlock2.
  all: try (apply released_taken; done).
Qed.

Lemma purchase_cases pd req u w c rest r w' :
  pool w = c :: rest → fails CGetconn w = false → pending (session w c) = [] →
  call_purchase pd req u w = (r, w') →
  let pid := PurchaseRequest.product_id pd in
  let q := PurchaseRequest.quantity pd in
  (r = Raise (HTTPException 500 "Purchase failed. Please try again.") ∧ db w' = db w ∧
     ((∃ call, call ∈ [CCursor; CUpdateStock; CInsertOrder; CInsertTransaction;
                       CInsertAuditLog; CCommit] ∧ fails call w = true) ∨
      PyFloat.of_int q = None))
  ∨ (r = Raise (HTTPException 409
          "Product is currently being purchased by another customer. Please try again.") ∧
     db w' = db w ∧
     (fails CSelectForUpdate w = true ∨
      ∃ holder, row_locks w !! pid = Some holder ∧ holder ≠ c))
  ∨ (r = Raise (HTTPException 404 "Product not found") ∧ db w' = db w ∧
     products (db w) !! pid = None)
  ∨ (∃ row, products (db w) !! pid = Some row ∧ Products.stock_quantity row < q ∧
       r = Raise (HTTPException 400
             (if bool_decide (Products.stock_quantity row = 0)
              then "SOLD OUT: This item is no longer available"
              else "Insufficient stock. Only " +:+ pretty (Products.stock_quantity row)
                   +:+ " items available")) ∧
       db w' = db w)
  ∨ (∃ row fq, products (db w) !! pid = Some row ∧ q ≤ Products.stock_quantity row ∧
       PyFloat.of_int q = Some fq ∧ r = Return (purchase_response pd w row fq) ∧
       db w' = purchase_rows pd req u w row fq ∧
       next_order_id w' = next_order_id w + 1 ∧
       next_transaction_id w' = next_transaction_id w + 1).
Proof.
  destruct w as [[prods ords txs auds] locks sess pl npid noid ntid nw fs lg].
  unfold fails, purchase_rows, purchase_response. cbn. intros -> Hg Hpend.
  revert Hpend; exec; intros Hpend.
  rewrite Hg. repeat (settle; rewrite ?Hpend; try branch).
  all: intros H; inversion H; subst; clear H; cbn.
  all: try (left; split; [reflexivity|]; split; [reflexivity|];
            first [ by right
                  | left;
                    match goal with
                    | H : bool_decide (?call ∈ _) = true |- _ =>
                        exists call; split; [repeat constructor|exact H]
                    end ]).
  all: right.
  all: try (left; split; [reflexivity|]; split; [reflexivity|]; eauto; fail).
  all: right.
  all: try (left; split; [reflexivity|]; split; [reflexivity|]; done).
  all: right.
  all: try (left; eexists; split; [reflexivity|];
            split; [match goal with H : bool_decide (_ < _) = true |- _ =>
                      apply bool_decide_eq_true_1 in H; exact H end|];
            split; [|reflexivity];
            match goal with H : bool_decide (_ = 0) = _ |- _ => rewrite H end;
            reflexivity).
  all: right.
  all: eexists _, _; split; [reflexivity|].
  all: split; [match goal with H : bool_decide (_ < _) = false |- _ =>
                 apply bool_decide_eq_false_1 in H; lia end|].
  all: split; [first [eassumption|reflexivity]|].
  all: repeat split; reflexivity.
Qed.

Lemma idle_session w c : idle w → pending (session w c) = [].
Proof.
  intros Hi. unfold session. destruct (sessions w !! c) as [s|] eqn:Hc; [|done].
  cbn. by eapply Hi.
Qed.

(** A call that gets no connection raises the generic failure and leaves the
    world as it is. *)
Lemma purchase_without_connection pd req u w :
  pool w = [] ∨ fails CGetconn w = true →
  call_purchase pd req u w =
    (Raise (HTTPException 500 "Purchase failed. Please try again."), w).
Proof.
  destruct w as [t locks sess pl npid noid ntid nw fs lg].
  unfold fails. cbn. intros [->|Hg].
  - exec. destruct (bool_decide (CGetconn ∈ fs)); reflexivity.
  - exec. rewrite Hg. reflexivity.
Qed.

(** The cases of a call on a store whose connections are idle. *)
Lemma purchase_cases_idle pd req u w r w' :
  idle w → call_purchase pd req u w = (r, w') →
  (r = Raise (HTTPException 500 "Purchase failed. Please try again.") ∧ w' = w ∧
   (pool w = [] ∨ fails CGetconn w = true))
  ∨ ∃ c rest, pool w = c :: rest ∧ fails CGetconn w = false ∧
              pending (session w c) = [].
Proof.
  intros Hi Hcall.
  destruct (pool w) as [|c rest] eqn:Hpool.
  - left. rewrite purchase_without_connection in Hcall by auto.
    injection Hcall as <- <-. auto.
  - destruct (fails CGetconn w) eqn:Hg.
    + left. rewrite purchase_without_connection in Hcall by auto.
      injection Hcall as <- <-. auto.
    + right. exists c, rest. auto using idle_session.
Qed.

Lemma with_stock_same row : Products.with_stock (Products.stock_quantity row) row = row.
Proof. by destruct row. Qed.

(** One purchase on a store without failures, free row, idle connection. *)
Lemma purchase_in_turn pd req u w c rest row fq :
  faults w = [] → pool w = c :: rest → pending (session w c) = [] →
  products (db w) !! PurchaseRequest.product_id pd = Some row →
  row_locks w !! PurchaseRequest.product_id pd = None →
  PyFloat.of_int (PurchaseRequest.quantity pd) = Some fq →
  let w' := (call_purchase pd req u w).2 in
  pool w' = c :: rest ∧ pending (session w' c) = [] ∧
  row_locks w' !! PurchaseRequest.product_id pd = None ∧
  db w' = (if bool_decide (PurchaseRequest.quantity pd ≤ Products.stock_quantity row)
           then purchase_rows pd req u w row fq else db w).
Proof.
  intros Hf Hp Hpend Hrow Hlock Hfq w'.
  assert (Hg : fails CGetconn w = false) by (unfold fails; by rewrite Hf).
  destruct (call_purchase pd req u w) as [r w0] eqn:Hcall. cbn in w'. subst w'.
  destruct (purchase_exit pd req u w c rest _ _ Hp Hg Hcall) as (Hpool & _ & Hs & Hl).
  split; [congruence|]. split; [unfold session; by rewrite Hs, lookup_insert_eq|].
  split.
  { destruct (row_locks w0 !! _) as [h|] eqn:Hh; [|done].
    apply Hl in Hh as [Hh _]. congruence. }
  destruct (purchase_cases pd req u w c rest _ _ Hp Hg Hpend Hcall)
    as [(_ & _ & [(call & _ & Hc)|H])|[(_ & _ & [H|(h & H & _)])|[(_ & _ & H)|
        [(row' & Hrow' & Hlt & _ & Hdb)|(row' & fq' & Hrow' & Hge & Hfq' & _ & Hdb & _)]]]];
    try congruence.
  - unfold fails in Hc. rewrite Hf in Hc. done.
  - unfold fails in H. rewrite Hf in H. done.
  - assert (row' = row) as -> by congruence. by rewrite bool_decide_eq_false_2 by lia.
  - assert (row' = row) as -> by congruence. assert (fq' = fq) as -> by congruence.
    by rewrite bool_decide_eq_true_2.
Qed.

(** The rows the second step of a thread commits when the stock suffices. *)
Lemma holding_step_rows pd req u w c aid name price stock fq :
  faults w = [] →
  sessions w !! c = Some {| autocommit := false; pending := [] |} →
  PyFloat.of_int (PurchaseRequest.quantity pd) = Some fq →
  PurchaseRequest.quantity pd ≤ stock →
  ∃ body w' o t a,
    thread_step (Holding pd req u (Some c) (Some c)
                   (c, c, Some (PurchaseRequest.product_id pd, aid, name, price, stock))) w
      = (Finished (Return body), w') ∧
    orders (db w') = orders (db w) ++ [o] ∧
    transactions (db w') = transactions (db w) ++ [t] ∧
    audit_logs (db w') = audit_logs (db w) ++ [a] ∧
    Orders.order_id o = PurchaseResponse.order_id body ∧
    Transactions.order_id t = PurchaseResponse.order_id body ∧
    AuditLogs.entity_id a = Some (PurchaseResponse.order_id body).
Proof.
  destruct w as [[prods ords txs auds] locks sess pl npid noid ntid nw fs lg].
  cbn. intros -> Hs Hfq Hge. settle. rewrite bool_decide_eq_false_2 by lia.
  settle. rewrite Hfq. repeat settle.
  eexists _, _, _, _, _; repeat split; reflexivity.
Qed.

Lemma balanced_refl cfg : balanced cfg cfg.
Proof. by repeat split. Qed.

Lemma balanced_trans a b c : balanced a b → balanced b c → balanced a c.
Proof. unfold balanced. intros (?&?&?&?) (?&?&?&?). refine (conj _ (conj _ (conj _ _))); lia. Qed.

Lemma step_balanced pid q S fq cfg i :
  0 < q → PyFloat.of_int q = Some fq →
  consistent pid q S cfg → balanced cfg (schedule_step cfg i).
Proof.
  intros Hq Hfq Hc. destruct cfg as [w ts].
  destruct Hc as [Hf (row & Hrow & Hst & Hnn) Hidle Hnd Hth Hlk Hun Hpl Hpr].
  cbn [fst snd] in *. unfold schedule_step. cbn [fst snd].
  destruct (ts !! i) as [t|] eqn:Hi; [|apply balanced_refl].
  pose proof (Hth i t Hi) as Hok.
  destruct t as [pd req u | pd req u conn cur locked | r].
  - destruct Hok as [Hpid Hquant].
    destruct (pool w) as [|c rest] eqn:Hpool.
    { exfalso. pose proof (count_pos is_waiting ts i _ Hi eq_refl). cbn in Hpl. lia. }
    assert (Hpend : pending (session w c) = []) by (apply Hidle; left).
    destruct (row_locks w !! pid) as [holder|] eqn:Hlock.
    + destruct (Hlk holder eq_refl) as (j & tj & Hj & Hhj).
      destruct (holding_lock _ _ _ _ _ Hhj (Hth j tj Hj)) as (h & Hh & Hhp & Hhs).
      assert (h = holder) as -> by congruence.
      assert (Hne : holder ≠ c) by (intros ->; apply Hhp; rewrite Hpool; left).
      destruct (waiting_step_busy pd req u w c rest row holder)
        as (w' & Hstep & Hdb & Hp & _); try done; try congruence.
      rewrite Hstep. set (t' := Finished _).
      pose proof (count_insert is_success ts i _ t' Hi) as Hsucc.
      pose proof (count_insert is_holding ts i _ t' Hi) as Hhold.
      cbn in Hsucc, Hhold. unfold balanced, successes. cbn [fst snd].
      rewrite Hdb, Hp, Hpool. refine (conj _ (conj _ (conj _ _))); lia.
    + destruct (waiting_step_free pd req u w c rest row)
        as (w' & Hstep & Hdb & Hp & _); try done; try congruence.
      rewrite Hstep. set (t' := Holding _ _ _ _ _ _).
      pose proof (count_insert is_success ts i _ t' Hi) as Hsucc.
      pose proof (count_insert is_holding ts i _ t' Hi) as Hhold.
      cbn in Hsucc, Hhold. unfold balanced, successes. cbn [fst snd].
      rewrite Hdb, Hp, Hpool. cbn [length]. refine (conj _ (conj _ (conj _ _))); lia.
  - destruct Hok as (Hpid & Hquant & c & aid & name & price & -> & -> & -> & Hcp & Hcs & Hcl).
    set (stock := S - q * Z.of_nat (successes ts)) in *.
    destruct (decide (stock < q)) as [Hlt|Hge].
    + destruct (holding_step_short pd req u w c aid name price stock)
        as (r & w' & Hstep & Hr & Hdb & Hp & _); [lia|].
      rewrite <- Hpid. rewrite Hstep.
      set (t' := Finished r).
      pose proof (count_insert is_success ts i _ t' Hi) as Hsucc.
      pose proof (count_insert is_holding ts i _ t' Hi) as Hhold.
      assert (Hrs : is_success t' = false) by (unfold t'; by rewrite Hr).
      rewrite Hrs in Hsucc. cbn in Hsucc, Hhold.
      unfold balanced, successes. cbn [fst snd].
      rewrite Hdb, Hp. cbn [length]. refine (conj _ (conj _ (conj _ _))); lia.
    + destruct (holding_step_rows pd req u w c aid name price stock fq)
        as (body & w' & o & t & a & Hstep & Ho & Ht & Ha & _); try done; try congruence; try lia.
      destruct (holding_step_ok pd req u w c aid name price stock fq)
        as (body2 & w2 & Hstep2 & _ & Hp & _); try done; try congruence; try lia.
      rewrite Hstep in Hstep2. injection Hstep2 as <- <-.
      rewrite <- Hpid. rewrite Hstep.
      set (t' := Finished (Return body)).
      pose proof (count_insert is_success ts i _ t' Hi) as Hsucc.
      pose proof (count_insert is_holding ts i _ t' Hi) as Hhold.
      cbn in Hsucc, Hhold.
      unfold balanced, successes. cbn [fst snd].
      rewrite Ho, Ht, Ha, Hp, !length_app. cbn [length]. refine (conj _ (conj _ (conj _ _))); lia.
  - cbn. rewrite list_insert_id by done. apply balanced_refl.
Qed.

Lemma run_balanced pid q S fq schedule cfg :
  0 < q → PyFloat.of_int q = Some fq →
  consistent pid q S cfg → balanced cfg (run_schedule schedule cfg).
Proof.
  intros Hq Hfq. revert cfg.
  induction schedule as [|i schedule IH]; intros cfg Hc; [apply balanced_refl|].
  cbn. eapply balanced_trans; [by eapply step_balanced|].
  apply IH. by eapply step_consistent.
Qed.

Lemma count_none (p : Thread → bool) ts :
  (∀ i t, ts !! i = Some t → p t = false) → count p ts = 0%nat.
Proof.
  induction ts as [|a ts IH]; intros H; [done|]. cbn.
  rewrite (H 0%nat a eq_refl). rewrite IH; [done|].
  intros i t Hi. exact (H (Datatypes.S i) t Hi).
Qed.

Lemma count_finished_not_holding ts :
  Forall (λ t, is_finished t = true) ts → count is_holding ts = 0%nat.
Proof.
  intros H. apply count_none. intros i t Hi.
  pose proof (Forall_lookup_1 _ _ _ _ H Hi). by destruct t.
Qed.

(** Uses the outcome of a test the run has met before. *)
Ltac use_tests :=
  repeat match goal with
    | H : bool_decide ?P = _ |- context [bool_decide ?P] => rewrite H
    end.

(** Case analysis on the membership of a call in a list of calls, and the
    facts a [Forall] over such a list holds. *)
Ltac split_calls H :=
  repeat (apply elem_of_cons in H as [->|H]); [..|by apply elem_of_nil in H].

Ltac each_call H :=
  repeat match type of H with
    | Forall _ (_ :: _) => let H1 := fresh in apply Forall_cons in H as [H1 H]; cbn beta in H1
    end.

Ltac paths_once := repeat (settle; use_tests; settle; try branch).

Lemma create_cases product_data current_user w c rest r w' :
  pool w = c :: rest → pending (session w c) = [] → fails CGetconn w = false →
  create_new_product product_data current_user w = (r, w') →
  let row := new_product_row product_data current_user in
  pool w' = pool w ∧ faults w' = faults w ∧ locks_released c (row_locks w) (row_locks w') ∧
  orders (db w') = orders (db w) ∧ transactions (db w') = transactions (db w) ∧
  sessions w' = <[c := {| autocommit := autocommit (session w c); pending := [] |}]>
                  (sessions w) ∧
  ((r = Return ("Product created successfully", (next_product_id w, row)) ∧
    products (db w') = <[next_product_id w := row]> (products (db w)) ∧
    audit_logs (db w') = audit_logs (db w) ++
      [product_created_entry product_data current_user (next_product_id w)] ∧
    next_product_id w' = next_product_id w + 1 ∧
    Forall (λ call, fails call w = false)
      [CGetconn; CCursor; CInsertProduct; CCommit; CInsertAuditLog])
   ∨ (r = Raise (HTTPException 500 "Failed to create product") ∧
      audit_logs (db w') = audit_logs (db w) ∧
      ((products (db w') = products (db w) ∧
        ∃ call, call ∈ [CCursor; CInsertProduct; CCommit] ∧ fails call w = true)
       ∨ (products (db w') = <[next_product_id w := row]> (products (db w)) ∧
          next_product_id w' = next_product_id w + 1 ∧
          fails CInsertProduct w = false ∧
          ∃ call, call ∈ [CCommit; CInsertAuditLog] ∧ fails call w = true)))).
Proof.
  destruct w as [[prods ords txs auds] locks sess pl npid noid ntid nw fs lg].
  unfold fails, session, new_product_row, product_created_entry. cbn. intros -> Hpend Hg.
  destruct (sess !! c) as [[ac pnd]|] eqn:Hs; cbn in Hpend; subst.
  all: paths_once.
  all: intros H; inversion H; subst; clear H; cbn.
  all: rewrite ?insert_insert_eq; cbn.
  all: refine (conj eq_refl (conj eq_refl (conj _ (conj eq_refl (conj eq_refl (conj eq_refl _)))))).
  all: try (intros p h; rewrite !lookup_unlock; tauto).
  all: first
    [ left; refine (conj eq_refl (conj eq_refl (conj eq_refl (conj eq_refl _))));
      repeat constructor; first [assumption|reflexivity]
    | right; split; [reflexivity|]; split; [reflexivity|]; left; split; [reflexivity|];
      match goal with
      | H : bool_decide (?call ∈ _) = true |- _ =>
          exists call; split; [solve [repeat constructor]|exact H]
      end
    | right; split; [reflexivity|]; split; [reflexivity|]; right;
      split; [reflexivity|]; split; [reflexivity|]; split; [first [assumption|reflexivity]|];
      match goal with
      | H : bool_decide (?call ∈ _) = true |- _ =>
          exists call; split; [solve [repeat constructor]|exact H]
      end ].
Qed.

(** Without a connection the helper raises and the endpoint reports its
    failure; the world is untouched. *)
Lemma create_without_connection product_data current_user w :
  pool w = [] ∨ fails CGetconn w = true →
  create_new_product product_data current_user w =
    (Raise (HTTPException 500 "Failed to create product"), w).
Proof.
  destruct w as [t locks sess pl npid noid ntid nw fs lg].
  unfold fails. cbn. intros [->|Hg].
  - exec. destruct (bool_decide (CGetconn ∈ fs)); reflexivity.
  - exec. rewrite Hg. reflexivity.
Qed.

(** A purchase that finds the stock it asks for, on a store without
    failures. *)
Lemma purchase_succeeds pd req u w c rest row fq :
  faults w = [] → pool w = c :: rest → pending (session w c) = [] →
  products (db w) !! PurchaseRequest.product_id pd = Some row →
  row_locks w !! PurchaseRequest.product_id pd = None →
  PurchaseRequest.quantity pd ≤ Products.stock_quantity row →
  PyFloat.of_int (PurchaseRequest.quantity pd) = Some fq →
  ∃ w', call_purchase pd req u w = (Return (purchase_response pd w row fq), w') ∧
        db w' = purchase_rows pd req u w row fq.
Proof.
  intros Hf Hp Hpend Hrow Hlock Hge Hfq.
  assert (Hg : fails CGetconn w = false) by (unfold fails; by rewrite Hf).
  destruct (call_purchase pd req u w) as [r w0] eqn:Hcall.
  destruct (purchase_cases pd req u w c rest _ _ Hp Hg Hpend Hcall)
    as [(_ & _ & [(call & _ & Hc)|H])|[(_ & _ & [H|(h & H & _)])|[(_ & _ & H)|
        [(row' & Hrow' & Hlt & _ & Hdb)|(row' & fq' & Hrow' & _ & Hfq' & -> & Hdb & _)]]]];
    try congruence.
  - unfold fails in Hc. rewrite Hf in Hc. done.
  - unfold fails in H. rewrite Hf in H. done.
  - assert (row' = row) as -> by congruence. lia.
  - assert (row' = row) as -> by congruence. assert (fq' = fq) as -> by congruence.
    by exists w0.
Qed.

(** ** Further properties of [purchase_with_lock] *)

(** X1. When the pool has no idle connection, or [getconn] raises, the
    endpoint answers 500 with its fixed detail and the world is exactly what
    it was: [connection] and [cursor] are still [None], so nothing is rolled
    back, closed or put back. *)
Theorem no_connection_no_effect pd req u w :
  pool w = [] ∨ fails CGetconn w = true →
  call_purchase pd req u w =
    (Raise (HTTPException 500 "Purchase failed. Please try again."), w).
Proof. apply purchase_without_connection. Qed.

Lemma no_connection_no_effect_witness :
  call_purchase (Example.buy 1) Example.request Example.buyer
    (set_pool (λ _, []) (Example.store (PyFloat.literal 10000 2) 1))
  = (Raise (HTTPException 500 "Purchase failed. Please try again."),
     set_pool (λ _, []) (Example.store (PyFloat.literal 10000 2) 1)).
Proof.
  apply (no_connection_no_effect (Example.buy 1) Example.request Example.buyer
           (set_pool (λ _, []) (Example.store (PyFloat.literal 10000 2) 1))).
  left. reflexivity.
Defined.

(** X2. When the connection, the cursor and the lock query work, the
    endpoint answers 404 "Product not found" exactly when no product has the
    requested id.  In that case the committed rows are unchanged and the
    driver sees the lock query followed by a rollback, the close of the
    cursor and the return of the connection. *)
Theorem missing_product_not_found pd req u w c rest :
  pool w = c :: rest → pending (session w c) = [] →
  fails CGetconn w = false → fails CCursor w = false →
  fails CSelectForUpdate w = false →
  let r := (call_purchase pd req u w).1 in
  let w' := (call_purchase pd req u w).2 in
  (r = Raise (HTTPException 404 "Product not found")
     ↔ products (db w) !! PurchaseRequest.product_id pd = None) ∧
  (products (db w) !! PurchaseRequest.product_id pd = None →
     db w' = db w ∧
     log w' = log w ++ [EGetconn c; ECursor c; EAutocommit c false;
                        EExecute c CSelectForUpdate; ERollback c;
                        EClose c; EAutocommit c true; EPutconn c]).
Proof.
  intros Hpool Hpend Hg Hc Hs r w'.
  assert (Hfwd : products (db w) !! PurchaseRequest.product_id pd = None →
            r = Raise (HTTPException 404 "Product not found") ∧ db w' = db w ∧
            log w' = log w ++ [EGetconn c; ECursor c; EAutocommit c false;
                        EExecute c CSelectForUpdate; ERollback c;
                        EClose c; EAutocommit c true; EPutconn c]).
  { subst r w'. revert Hpool Hpend Hg Hc Hs.
    destruct w as [[prods ords txs auds] locks sess pl npid noid ntid nw fs lg].
    unfold fails. cbn. intros -> Hpend Hg Hc Hs Hrow.
    revert Hpend; exec; intros Hpend.
    rewrite Hg. exec. rewrite Hc. exec. rewrite Hs.
    repeat (settle; rewrite ?Hpend). rewrite <- !app_assoc. done. }
  split; [split|].
  - intros Hr.
    destruct (call_purchase pd req u w) as [r0 w0] eqn:Hcall.
    destruct (purchase_cases pd req u w c rest r0 w0 Hpool Hg Hpend Hcall)
      as [(E & _)|[(E & _)|[(_ & _ & Hn)|[(row & _ & _ & E & _)|(row & fq & _ & _ & _ & E & _)]]]];
      cbn in r; subst r; congruence.
  - intros Hn. by apply Hfwd.
  - intros Hn. destruct (Hfwd Hn) as (_ & ? & ?). done.
Qed.

Lemma missing_product_not_found_witness :
  (call_purchase
     {| PurchaseRequest.product_id := 5; PurchaseRequest.quantity := 1;
        PurchaseRequest.shipping_address := "" |}
     Example.request Example.buyer (Example.store (PyFloat.literal 10000 2) 1)).1
  = Raise (HTTPException 404 "Product not found").
Proof.
  apply (missing_product_not_found
           {| PurchaseRequest.product_id := 5; PurchaseRequest.quantity := 1;
              PurchaseRequest.shipping_address := "" |}
           Example.request Example.buyer (Example.store (PyFloat.literal 10000 2) 1)
           0%nat [1%nat]); reflexivity.
Defined.

(** X3. A 409 has one of two causes: the lock query itself raised, or
    another connection holds the lock on the row of the product. *)
Theorem contention_has_cause pd req u w detail w' :
  idle w →
  call_purchase pd req u w = (Raise (HTTPException 409 detail), w') →
  ∃ c rest, pool w = c :: rest ∧
    (fails CSelectForUpdate w = true ∨
     ∃ holder, row_locks w !! PurchaseRequest.product_id pd = Some holder ∧ holder ≠ c).
Proof.
  intros Hi Hcall.
  destruct (purchase_cases_idle _ _ _ _ _ _ Hi Hcall) as [(E & _)|(c & rest & Hp & Hg & Hpend)];
    [discriminate|].
  exists c, rest. split; [done|].
  destruct (purchase_cases pd req u w c rest _ w' Hp Hg Hpend Hcall)
    as [(E & _)|[(_ & _ & H)|[(E & _)|[(row & _ & _ & E & _)|(row & fq & _ & _ & _ & E & _)]]]];
    try discriminate; done.
Qed.

Lemma contention_has_cause_witness :
  ∃ c rest,
    pool (set_row_locks (λ _, {[1 := 7%nat]}) (Example.store (PyFloat.literal 10000 2) 1))
      = c :: rest ∧
    (fails CSelectForUpdate
       (set_row_locks (λ _, {[1 := 7%nat]}) (Example.store (PyFloat.literal 10000 2) 1)) = true ∨
     ∃ holder,
       row_locks (set_row_locks (λ _, {[1 := 7%nat]})
                    (Example.store (PyFloat.literal 10000 2) 1))
         !! PurchaseRequest.product_id (Example.buy 1) = Some holder ∧ holder ≠ c).
Proof.
  eapply (contention_has_cause (Example.buy 1) Example.request Example.buyer
            (set_row_locks (λ _, {[1 := 7%nat]}) (Example.store (PyFloat.literal 10000 2) 1))
            "Product is currently being purchased by another customer. Please try again."
            (call_purchase (Example.buy 1) Example.request Example.buyer
               (set_row_locks (λ _, {[1 := 7%nat]})
                  (Example.store (PyFloat.literal 10000 2) 1))).2).
  - intros c s. unfold Example.store. cbn. by rewrite lookup_empty.
  - vm_compute. reflexivity.
Defined.

(** X4. A call that returns Success found the product with at least the
    requested quantity in stock; the body it returns and the rows it commits
    are those of [purchase_response] and [purchase_rows]: the stock of that
    product lowered by the quantity, one order, one payment split and one
    audit entry appended, and nothing else. *)
Theorem success_means_stock_was_there pd req u w body w' :
  idle w →
  call_purchase pd req u w = (Return body, w') →
  ∃ row fq,
    products (db w) !! PurchaseRequest.product_id pd = Some row ∧
    PurchaseRequest.quantity pd ≤ Products.stock_quantity row ∧
    PyFloat.of_int (PurchaseRequest.quantity pd) = Some fq ∧
    body = purchase_response pd w row fq ∧
    db w' = purchase_rows pd req u w row fq ∧
    (∀ p, p ≠ PurchaseRequest.product_id pd →
          products (db w') !! p = products (db w) !! p).
Proof.
  intros Hi Hcall.
  destruct (purchase_cases_idle _ _ _ _ _ _ Hi Hcall) as [(E & _)|(c & rest & Hp & Hg & Hpend)];
    [discriminate|].
  destruct (purchase_cases pd req u w c rest _ w' Hp Hg Hpend Hcall)
    as [(E & _)|[(E & _)|[(E & _)|[(row & _ & _ & E & _)|
         (row & fq & Hrow & Hq & Hfq & E & Hdb & _)]]]];
    try discriminate.
  injection E as ->. exists row, fq. repeat split; try done.
  intros p Hne. rewrite Hdb. unfold purchase_rows. cbn. by rewrite lookup_alter_ne.
Qed.

Lemma success_means_stock_was_there_witness :
  ∃ row fq,
    products (db (Example.store (PyFloat.literal 10000 2) 3)) !! 1 = Some row ∧
    2 ≤ Products.stock_quantity row ∧
    PyFloat.of_int 2 = Some fq.
Proof.
  destruct (success_means_stock_was_there (Example.buy 2) Example.request Example.buyer
              (Example.store (PyFloat.literal 10000 2) 3)
              (purchase_response (Example.buy 2) (Example.store (PyFloat.literal 10000 2) 3)
                 (Example.item (PyFloat.literal 10000 2) 3) (PyFloat.literal 2 0))
              (call_purchase (Example.buy 2) Example.request Example.buyer
                 (Example.store (PyFloat.literal 10000 2) 3)).2)
    as (row & fq & H1 & H2 & H3 & _).
  - intros c s. unfold Example.store. cbn. by rewrite lookup_empty.
  - vm_compute. reflexivity.
  - exists row, fq. split; [exact H1|]. split; [exact H2|exact H3].
Defined.

(** X5. A 500 has a cause outside the request: the pool is exhausted, a
    store call of the endpoint other than the lock query raised, or the
    quantity is too large to be multiplied with the price.  The committed
    rows are unchanged. *)
Theorem internal_failure_has_cause pd req u w detail w' :
  idle w →
  call_purchase pd req u w = (Raise (HTTPException 500 detail), w') →
  db w' = db w ∧
  (pool w = [] ∨
   (∃ call, call ∈ [CGetconn; CCursor; CUpdateStock; CInsertOrder; CInsertTransaction;
                     CInsertAuditLog; CCommit] ∧ fails call w = true) ∨
   PyFloat.of_int (PurchaseRequest.quantity pd) = None).
Proof.
  intros Hi Hcall.
  destruct (purchase_cases_idle _ _ _ _ _ _ Hi Hcall)
    as [(_ & -> & [H|H])|(c & rest & Hp & Hg & Hpend)].
  - auto.
  - split; [done|]. right; left. exists CGetconn. split; [repeat constructor|done].
  - destruct (purchase_cases pd req u w c rest _ w' Hp Hg Hpend Hcall)
      as [(_ & Hdb & [(call & Hin & Hf)|H])|[(E & _)|[(E & _)|[(row & _ & _ & E & _)|
           (row & fq & _ & _ & _ & E & _)]]]];
      try discriminate.
    + split; [done|]. right; left. exists call. split; [by right|done].
    + auto.
Qed.

Lemma internal_failure_has_cause_witness :
  ∃ call,
    call ∈ [CGetconn; CCursor; CUpdateStock; CInsertOrder; CInsertTransaction;
            CInsertAuditLog; CCommit] ∧
    fails call (set_faults [CInsertOrder] (Example.store (PyFloat.literal 10000 2) 1)) = true.
Proof.
  destruct (internal_failure_has_cause (Example.buy 1) Example.request Example.buyer
              (set_faults [CInsertOrder] (Example.store (PyFloat.literal 10000 2) 1))
              "Purchase failed. Please try again."
              (call_purchase (Example.buy 1) Example.request Example.buyer
                 (set_faults [CInsertOrder]
                    (Example.store (PyFloat.literal 10000 2) 1))).2)
    as (_ & [H|[H|H]]).
  - intros c s. unfold Example.store. cbn. by rewrite lookup_empty.
  - vm_compute. reflexivity.
  - discriminate H.
  - exact H.
  - discriminate H.
Defined.

(** X6. A 400 means that the product exists and that its stock, read under
    the lock, is below the requested quantity; the detail is the sold-out
    text when that stock is 0 and names the stock otherwise. *)
Theorem stock_refusal_has_cause pd req u w detail w' :
  idle w →
  call_purchase pd req u w = (Raise (HTTPException 400 detail), w') →
  ∃ row,
    products (db w) !! PurchaseRequest.product_id pd = Some row ∧
    Products.stock_quantity row < PurchaseRequest.quantity pd ∧
    detail = (if bool_decide (Products.stock_quantity row = 0)
              then "SOLD OUT: This item is no longer available"
              else "Insufficient stock. Only " +:+ pretty (Products.stock_quantity row)
                   +:+ " items available").
Proof.
  intros Hi Hcall.
  destruct (purchase_cases_idle _ _ _ _ _ _ Hi Hcall) as [(E & _)|(c & rest & Hp & Hg & Hpend)];
    [discriminate|].
  destruct (purchase_cases pd req u w c rest _ w' Hp Hg Hpend Hcall)
    as [(E & _)|[(E & _)|[(E & _)|[(row & Hrow & Hlt & E & _)|
         (row & fq & _ & _ & _ & E & _)]]]];
    try discriminate.
  exists row. split; [done|]. split; [done|]. by injection E.
Qed.

Lemma stock_refusal_has_cause_witness :
  ∃ row,
    products (db (Example.store (PyFloat.literal 10000 2) 2)) !! 1 = Some row ∧
    Products.stock_quantity row < 3.
Proof.
  destruct (stock_refusal_has_cause (Example.buy 3) Example.request Example.buyer
              (Example.store (PyFloat.literal 10000 2) 2)
              "Insufficient stock. Only 2 items available"
              (call_purchase (Example.buy 3) Example.request Example.buyer
                 (Example.store (PyFloat.literal 10000 2) 2)).2)
    as (row & H1 & H2 & _).
  - intros c s. unfold Example.store. cbn. by rewrite lookup_empty.
  - vm_compute. reflexivity.
  - exists row. split; [exact H1|exact H2].
Defined.



(** ** Purchases in sequence and in parallel *)

(** X8. Purchases served one after the other on a store without failures:
    of [k] requests for [q] items of a product with stock [S], the first
    [min(k, floor(S / q))] go through and the others are refused; the stock
    ends at [S] minus [q] for each purchase that went through, and one order,
    one payment split and one audit entry exist for each of them. *)
Theorem sequential_purchases k pd req u t w c rest row fq :
  0 < PurchaseRequest.quantity pd →
  PyFloat.of_int (PurchaseRequest.quantity pd) = Some fq →
  pool w = c :: rest → pending (session w c) = [] →
  products (db w) !! PurchaseRequest.product_id pd = Some row →
  0 ≤ Products.stock_quantity row →
  row_locks w !! PurchaseRequest.product_id pd = None →
  let a := {| op := PostPurchaseLock pd req u; op_faults := []; op_now := t |} in
  let w' := serve_all (replicate k a) w in
  let n := Z.min (Z.of_nat k)
             (Products.stock_quantity row / PurchaseRequest.quantity pd) in
  products (db w') !! PurchaseRequest.product_id pd
    = Some (Products.with_stock
              (Products.stock_quantity row - n * PurchaseRequest.quantity pd) row) ∧
  length (orders (db w')) = (length (orders (db w)) + Z.to_nat n)%nat ∧
  length (transactions (db w')) = (length (transactions (db w)) + Z.to_nat n)%nat ∧
  length (audit_logs (db w')) = (length (audit_logs (db w)) + Z.to_nat n)%nat.
Proof.
  intros Hq Hfq. cbn zeta. revert w row.
  induction k as [|k IH]; intros w row Hp Hpend Hrow Hs Hlock.
  - cbn [replicate serve_all foldl]. rewrite Z.min_l by (apply Z.div_pos; lia).
    rewrite Z.mul_0_l, Z.sub_0_r, with_stock_same. cbn. rewrite !Nat.add_0_r. done.
  - cbn [replicate serve_all foldl].
    set (a := {| op := _; op_faults := _; op_now := _ |}).
    set (w0 := set_now t (set_faults [] w)).
    assert (Hserve : serve a w = (call_purchase pd req u w0).2).
    { unfold serve, a. cbn [op op_now op_faults].
      unfold PurchaseRequest.validate, PurchaseRequest.validate_quantity.
      by rewrite bool_decide_eq_false_2 by lia. }
    rewrite Hserve.
    destruct (purchase_in_turn pd req u w0 c rest row fq) as (Hp1 & Hpend1 & Hlock1 & Hdb1);
      try done.
    set (w1 := (call_purchase pd req u w0).2) in *.
    change (foldl (λ w a, serve a w) w1 (replicate k a)) with (serve_all (replicate k a) w1).
    set (S := Products.stock_quantity row) in *.
    set (q := PurchaseRequest.quantity pd) in *.
    case_bool_decide as Hge.
    + (* the purchase goes through *)
      assert (Hrow1 : products (db w1) !! PurchaseRequest.product_id pd
                      = Some (Products.with_stock (S - q) row)).
      { rewrite Hdb1. unfold purchase_rows. cbn. rewrite lookup_alter_eq.
        change (products (db w0)) with (products (db w)). by rewrite Hrow. }
      destruct (IH w1 _ Hp1 Hpend1 Hrow1) as (IH1 & IH2 & IH3 & IH4);
        [cbn; lia|done|].
      fold a in IH1, IH2, IH3, IH4.
      cbn [Products.stock_quantity Products.with_stock] in IH1, IH2, IH3, IH4.
      assert (Hdiv : (S - q) / q = S / q - 1).
      { replace (S - q) with (S + (-1) * q) by lia. rewrite Z.div_add by lia. lia. }
      assert (Hpos : 1 ≤ S / q) by (apply Z.div_le_lower_bound; lia).
      rewrite Hdiv in IH1, IH2, IH3, IH4.
      replace (Z.min (Z.of_nat (Datatypes.S k)) (S / q))
        with (1 + Z.min (Z.of_nat k) (S / q - 1)) by lia.
      set (n := Z.min (Z.of_nat k) (S / q - 1)) in *.
      assert (0 ≤ n) by lia.
      rewrite IH1, IH2, IH3, IH4, Hdb1. unfold purchase_rows. cbn.
      rewrite !length_app. cbn.
      change (db w0) with (db w).
      replace (Z.to_nat (1 + n)) with (Datatypes.S (Z.to_nat n)) by lia.
      replace (S - q - n * q) with (S - (1 + n) * q) by lia.
      repeat split; lia.
    + (* the stock is exhausted *)
      assert (Hrow1 : products (db w1) !! PurchaseRequest.product_id pd = Some row)
        by (by rewrite Hdb1).
      destruct (IH w1 _ Hp1 Hpend1 Hrow1) as (IH1 & IH2 & IH3 & IH4); [done..|].
      fold a S q in IH1, IH2, IH3, IH4.
      assert (Hdiv : S / q = 0) by (apply Z.div_small; lia).
      rewrite Hdiv in *. rewrite !Z.min_r in * by lia.
      rewrite IH1, IH2, IH3, IH4, Hdb1. done.
Qed.

Lemma sequential_purchases_witness :
  let a := {| op := PostPurchaseLock (Example.buy 1) Example.request Example.buyer;
              op_faults := []; op_now := Example.noon |} in
  let w' := serve_all (replicate 3 a) (Example.store (PyFloat.literal 10000 2) 2) in
  products (db w') !! 1
    = Some (Example.item (PyFloat.literal 10000 2) 0) ∧
  length (orders (db w')) = 2%nat.
Proof.
  destruct (sequential_purchases 3 (Example.buy 1) Example.request Example.buyer
              Example.noon (Example.store (PyFloat.literal 10000 2) 2) 0%nat [1%nat]
              (Example.item (PyFloat.literal 10000 2) 2) (PyFloat.literal 1 0))
    as (H1 & H2 & _).
  - cbn. lia.
  - vm_compute. reflexivity.
  - reflexivity.
  - reflexivity.
  - reflexivity.
  - cbn. lia.
  - reflexivity.
  - split; [exact H1|exact H2].
Defined.

(** X9. Under every schedule of concurrent purchases of one product, at
    most one thread is between its lock query and the end of its
    transaction; the row is locked exactly while there is such a thread, by
    the connection of that thread, which is out of the pool. *)
Theorem one_lock_holder pid q S fq w ts schedule :
  1 ≤ q → 0 ≤ S →
  PyFloat.of_int q = Some fq →
  faults w = [] →
  (∃ row, products (db w) !! pid = Some row ∧ Products.stock_quantity row = S) →
  row_locks w !! pid = None →
  idle w → NoDup (pool w) → (length ts ≤ length (pool w))%nat →
  Forall (λ t, ∃ pd req u, t = Waiting pd req u ∧
                 PurchaseRequest.product_id pd = pid ∧
                 PurchaseRequest.quantity pd = q) ts →
  let w' := (run_schedule schedule (w, ts)).1 in
  let ts' := (run_schedule schedule (w, ts)).2 in
  (∀ i j ti tj, ts' !! i = Some ti → ts' !! j = Some tj →
                is_holding ti = true → is_holding tj = true → i = j) ∧
  (is_Some (row_locks w' !! pid) ↔ ∃ i t, ts' !! i = Some t ∧ is_holding t = true) ∧
  (∀ i pd req u conn cur locked,
     ts' !! i = Some (Holding pd req u conn cur locked) →
     ∃ c, conn = Some c ∧ row_locks w' !! pid = Some c ∧ (c ∉ pool w')).
Proof.
  intros Hq HS Hfq Hf Hrow Hlock Hidle Hnd Hlen Hts w' ts'.
  assert (Hc : consistent pid q S (w', ts')).
  { unfold w', ts'. rewrite <- surjective_pairing.
    eapply run_consistent; [lia|done|]. by apply initially_consistent. }
  destruct Hc as [_ _ _ _ Hth Hlk Hun _ _]. cbn [fst snd] in *.
  split; [exact Hun|]. split; [split|].
  - intros [c Hc]. by eapply Hlk.
  - intros (i & t & Hi & Hh).
    destruct (holding_lock _ _ _ _ _ Hh (Hth i t Hi)) as (c & Hc & _). by exists c.
  - intros i pd req u conn cur locked Hi.
    destruct (Hth i _ Hi) as (_ & _ & c & aid & name & price & -> & _ & _ & Hp & _ & Hl).
    by exists c.
Qed.

Lemma one_lock_holder_witness :
  let cfg := run_schedule [0; 1]%nat
               (Example.store (PyFloat.literal 10000 2) 1, Example.two_buyers) in
  is_Some (row_locks cfg.1 !! 1) ↔ ∃ i t, cfg.2 !! i = Some t ∧ is_holding t = true.
Proof.
  apply (one_lock_holder 1 1 1 (PyFloat.literal 1 0)
           (Example.store (PyFloat.literal 10000 2) 1) Example.two_buyers [0; 1]%nat).
  - lia.
  - lia.
  - vm_compute. reflexivity.
  - reflexivity.
  - eexists. split; [reflexivity|reflexivity].
  - reflexivity.
  - intros c s. unfold Example.store. cbn. by rewrite lookup_empty.
  - change (NoDup [0%nat; 1%nat]). apply NoDup_cons. split.
    + by intros ?%list_elem_of_singleton.
    + apply NoDup_singleton.
  - cbn. lia.
  - repeat constructor; eexists _, _, _; done.
Defined.

(** X10. Under every schedule of concurrent purchases of one product, the
    orders, payment splits and audit entries committed are one each per
    attempt that has reported Success: an attempt that was refused, or that
    is still running, has left no row. *)
Theorem concurrent_rows_match_successes pid q S fq w ts schedule :
  1 ≤ q → 0 ≤ S →
  PyFloat.of_int q = Some fq →
  faults w = [] →
  (∃ row, products (db w) !! pid = Some row ∧ Products.stock_quantity row = S) →
  row_locks w !! pid = None →
  idle w → NoDup (pool w) → (length ts ≤ length (pool w))%nat →
  Forall (λ t, ∃ pd req u, t = Waiting pd req u ∧
                 PurchaseRequest.product_id pd = pid ∧
                 PurchaseRequest.quantity pd = q) ts →
  let w' := (run_schedule schedule (w, ts)).1 in
  let ts' := (run_schedule schedule (w, ts)).2 in
  length (orders (db w')) = (length (orders (db w)) + successes ts')%nat ∧
  length (transactions (db w')) = (length (transactions (db w)) + successes ts')%nat ∧
  length (audit_logs (db w')) = (length (audit_logs (db w)) + successes ts')%nat.
Proof.
  intros Hq HS Hfq Hf Hrow Hlock Hidle Hnd Hlen Hts w' ts'.
  destruct (count_all_waiting _ _ _ Hts) as [_ Hs0].
  destruct (run_balanced pid q S fq schedule (w, ts)) as (_ & Ho & Ht & Ha);
    [lia|done|by apply initially_consistent|].
  cbn [fst snd] in *. fold w' ts' in Ho, Ht, Ha. unfold successes in *.
  rewrite Hs0 in *. refine (conj _ (conj _ _)); lia.
Qed.

Lemma concurrent_rows_match_successes_witness :
  let cfg := run_schedule [0; 1; 0; 1]%nat
               (Example.store (PyFloat.literal 10000 2) 1, Example.two_buyers) in
  length (orders (db cfg.1)) = (0 + successes cfg.2)%nat.
Proof.
  apply (concurrent_rows_match_successes 1 1 1 (PyFloat.literal 1 0)
           (Example.store (PyFloat.literal 10000 2) 1) Example.two_buyers
           [0; 1; 0; 1]%nat).
  - lia.
  - lia.
  - vm_compute. reflexivity.
  - reflexivity.
  - eexists. split; [reflexivity|reflexivity].
  - reflexivity.
  - intros c s. unfold Example.store. cbn. by rewrite lookup_empty.
  - change (NoDup [0%nat; 1%nat]). apply NoDup_cons. split.
    + by intros ?%list_elem_of_singleton.
    + apply NoDup_singleton.
  - cbn. lia.
  - repeat constructor; eexists _, _, _; done.
Defined.

(** X11. Under every schedule of concurrent purchases of one product no
    connection is lost or duplicated: the connections in the pool and those
    of the threads that hold the lock add up to the connections the pool
    started with; once every attempt has finished the pool has its size
    again, and every pooled connection is without uncommitted writes. *)
Theorem concurrent_connections_conserved pid q S fq w ts schedule :
  1 ≤ q → 0 ≤ S →
  PyFloat.of_int q = Some fq →
  faults w = [] →
  (∃ row, products (db w) !! pid = Some row ∧ Products.stock_quantity row = S) →
  row_locks w !! pid = None →
  idle w → NoDup (pool w) → (length ts ≤ length (pool w))%nat →
  Forall (λ t, ∃ pd req u, t = Waiting pd req u ∧
                 PurchaseRequest.product_id pd = pid ∧
                 PurchaseRequest.quantity pd = q) ts →
  let w' := (run_schedule schedule (w, ts)).1 in
  let ts' := (run_schedule schedule (w, ts)).2 in
  NoDup (pool w') ∧
  (length (pool w') + count is_holding ts' = length (pool w))%nat ∧
  (Forall (λ t, is_finished t = true) ts' → length (pool w') = length (pool w)) ∧
  (∀ c, c ∈ pool w' → pending (session w' c) = []).
Proof.
  intros Hq HS Hfq Hf Hrow Hlock Hidle Hnd Hlen Hts w' ts'.
  assert (Hc : consistent pid q S (w', ts')).
  { unfold w', ts'. rewrite <- surjective_pairing.
    eapply run_consistent; [lia|done|]. by apply initially_consistent. }
  destruct (run_balanced pid q S fq schedule (w, ts)) as (Hb & _);
    [lia|done|by apply initially_consistent|].
  cbn [fst snd] in Hb. fold w' ts' in Hb.
  assert (Hh0 : count is_holding ts = 0%nat).
  { apply count_none. intros i t Hi.
    eapply Forall_lookup_1 in Hts as (pd & req & u & -> & _); eauto. }
  rewrite Hh0 in Hb.
  destruct Hc as [_ _ Hid Hnd' _ _ _ _ _]. cbn [fst snd] in *.
  split; [done|]. split; [lia|]. split; [|done].
  intros Hfin. rewrite (count_finished_not_holding _ Hfin) in Hb. lia.
Qed.

Lemma concurrent_connections_conserved_witness :
  let cfg := run_schedule [0; 1]%nat
               (Example.store (PyFloat.literal 10000 2) 1, Example.two_buyers) in
  (length (pool cfg.1) + count is_holding cfg.2 = 2)%nat.
Proof.
  apply (concurrent_connections_conserved 1 1 1 (PyFloat.literal 1 0)
           (Example.store (PyFloat.literal 10000 2) 1) Example.two_buyers [0; 1]%nat).
  - lia.
  - lia.
  - vm_compute. reflexivity.
  - reflexivity.
  - eexists. split; [reflexivity|reflexivity].
  - reflexivity.
  - intros c s. unfold Example.store. cbn. by rewrite lookup_empty.
  - change (NoDup [0%nat; 1%nat]). apply NoDup_cons. split.
    + by intros ?%list_elem_of_singleton.
    + apply NoDup_singleton.
  - cbn. lia.
  - repeat constructor; eexists _, _, _; done.
Defined.

(** ** [create_new_product] *)

(** X12. With an idle connection at the head of the pool,
    [create_new_product] returns exactly when none of its store calls
    raises.  It then returns the row with the id the sequence assigned, and
    that row and one audit entry ["product_created"] naming it are committed;
    orders and payment splits are untouched and the connection is back in
    the pool. *)
Theorem product_creation_returns product_data current_user w c rest :
  pool w = c :: rest → pending (session w c) = [] →
  let calls := [CGetconn; CCursor; CInsertProduct; CCommit; CInsertAuditLog] in
  let r := (create_new_product product_data current_user w).1 in
  let w' := (create_new_product product_data current_user w).2 in
  let row := new_product_row product_data current_user in
  ((∃ v, r = Return v) ↔ Forall (λ call, fails call w = false) calls) ∧
  (Forall (λ call, fails call w = false) calls →
     r = Return ("Product created successfully", (next_product_id w, row)) ∧
     products (db w') = <[next_product_id w := row]> (products (db w)) ∧
     audit_logs (db w') = audit_logs (db w) ++
       [product_created_entry product_data current_user (next_product_id w)] ∧
     orders (db w') = orders (db w) ∧ transactions (db w') = transactions (db w) ∧
     pool w' = pool w).
Proof.
  intros Hp Hpend calls r w' row.
  destruct (create_new_product product_data current_user w) as [r0 w0] eqn:Hcall.
  cbn in r, w'. subst r w'.
  assert (Hback : Forall (λ call, fails call w = false) calls →
            r0 = Return ("Product created successfully", (next_product_id w, row)) ∧
            products (db w0) = <[next_product_id w := row]> (products (db w)) ∧
            audit_logs (db w0) = audit_logs (db w) ++
              [product_created_entry product_data current_user (next_product_id w)] ∧
            orders (db w0) = orders (db w) ∧ transactions (db w0) = transactions (db w) ∧
            pool w0 = pool w).
  { unfold calls. intros Hall. pose proof Hall as Hall'.
    apply Forall_cons in Hall' as [Hg _].
    destruct (create_cases _ _ _ _ _ _ _ Hp Hpend Hg Hcall)
      as (Hpool & _ & _ & Ho & Ht & _ & [(-> & Hprod & Haud & _)|(_ & _ & [(_ & call & Hin & Hc)|(_ & _ & _ & call & Hin & Hc)])]).
    - done.
    - exfalso. each_call Hall. split_calls Hin; congruence.
    - exfalso. each_call Hall. split_calls Hin; congruence. }
  split; [split|done].
  - intros [v ->]. destruct (fails CGetconn w) eqn:Hg.
    { rewrite create_without_connection in Hcall by auto. discriminate. }
    destruct (create_cases _ _ _ _ _ _ _ Hp Hpend Hg Hcall)
      as (_ & _ & _ & _ & _ & _ & [(_ & _ & _ & _ & Hall)|(E & _)]); [done|discriminate].
  - intros Hall. destruct (Hback Hall) as (-> & _). eauto.
Qed.

Lemma product_creation_returns_witness :
  (create_new_product
     {| ProductCreate.product_name := "Vase"; ProductCreate.description := "";
        ProductCreate.price := PyFloat.literal 2500 2;
        ProductCreate.stock_quantity := 3; ProductCreate.category := "Test";
        ProductCreate.image_url := None |}
     Example.artisan (Example.store (PyFloat.literal 10000 2) 1)).1
  = Return ("Product created successfully",
            (2, {| Products.artisan_id := 1; Products.product_name := "Vase";
                   Products.description := ""; Products.price := PyFloat.literal 2500 2;
                   Products.stock_quantity := 3; Products.category := "Test";
                   Products.image_url := None |})).
Proof.
  apply (product_creation_returns
           {| ProductCreate.product_name := "Vase"; ProductCreate.description := "";
              ProductCreate.price := PyFloat.literal 2500 2;
              ProductCreate.stock_quantity := 3; ProductCreate.category := "Test";
              ProductCreate.image_url := None |}
           Example.artisan (Example.store (PyFloat.literal 10000 2) 1) 0%nat [1%nat]).
  - reflexivity.
  - reflexivity.
  - repeat constructor.
Defined.

(** X13. The product and its audit entry are written in two transactions.
    When the insert of the audit entry raises, the endpoint answers 500
    "Failed to create product" although the product row is committed and the
    sequence has moved on; no audit entry exists for it. *)
Theorem product_survives_audit_failure product_data current_user w c rest :
  pool w = c :: rest → pending (session w c) = [] →
  Forall (λ call, fails call w = false) [CGetconn; CCursor; CInsertProduct; CCommit] →
  fails CInsertAuditLog w = true →
  ∃ w',
    create_new_product product_data current_user w =
      (Raise (HTTPException 500 "Failed to create product"), w') ∧
    products (db w') =
      <[next_product_id w := new_product_row product_data current_user]> (products (db w)) ∧
    audit_logs (db w') = audit_logs (db w) ∧
    next_product_id w' = next_product_id w + 1.
Proof.
  intros Hp Hpend Hall Haud.
  destruct (create_new_product product_data current_user w) as [r0 w0] eqn:Hcall.
  pose proof Hall as Hall'. apply Forall_cons in Hall' as [Hg _].
  destruct (create_cases _ _ _ _ _ _ _ Hp Hpend Hg Hcall)
    as (_ & _ & _ & _ & _ & _ & [(_ & _ & _ & _ & Hno)|(-> & Ha & [(_ & call & Hin & Hf)|(Hprod & Hn & _)])]).
  - exfalso. each_call Hno. congruence.
  - exfalso. each_call Hall. split_calls Hin; congruence.
  - by exists w0.
Qed.

Lemma product_survives_audit_failure_witness :
  ∃ w',
    create_new_product
      {| ProductCreate.product_name := "Vase"; ProductCreate.description := "";
         ProductCreate.price := PyFloat.literal 2500 2;
         ProductCreate.stock_quantity := 3; ProductCreate.category := "Test";
         ProductCreate.image_url := None |}
      Example.artisan
      (set_faults [CInsertAuditLog] (Example.store (PyFloat.literal 10000 2) 1))
    = (Raise (HTTPException 500 "Failed to create product"), w') ∧
    is_Some (products (db w') !! 2).
Proof.
  destruct (product_survives_audit_failure
              {| ProductCreate.product_name := "Vase"; ProductCreate.description := "";
                 ProductCreate.price := PyFloat.literal 2500 2;
                 ProductCreate.stock_quantity := 3; ProductCreate.category := "Test";
                 ProductCreate.image_url := None |}
              Example.artisan
              (set_faults [CInsertAuditLog] (Example.store (PyFloat.literal 10000 2) 1))
              0%nat [1%nat]) as (w' & H & Hprod & _).
  - reflexivity.
  - reflexivity.
  - repeat constructor.
  - reflexivity.
  - exists w'. split; [exact H|]. rewrite Hprod.
    change (next_product_id (set_faults [CInsertAuditLog]
              (Example.store (PyFloat.literal 10000 2) 1))) with 2.
    rewrite lookup_insert_eq. eexists. reflexivity.
Defined.

(** X14. Whatever store calls raise, an exception that leaves
    [create_new_product] is the 500 "Failed to create product".  Orders,
    payment splits and audit entries are then as before, and the products are
    either as before or extended by the new row. *)
Theorem product_creation_failure product_data current_user w e w' :
  idle w →
  create_new_product product_data current_user w = (Raise e, w') →
  e = HTTPException 500 "Failed to create product" ∧
  orders (db w') = orders (db w) ∧ transactions (db w') = transactions (db w) ∧
  audit_logs (db w') = audit_logs (db w) ∧
  (products (db w') = products (db w) ∨
   products (db w') =
     <[next_product_id w := new_product_row product_data current_user]> (products (db w))).
Proof.
  intros Hi Hcall.
  destruct (pool w) as [|c rest] eqn:Hp.
  { rewrite create_without_connection in Hcall by auto. injection Hcall as <- <-. auto 10. }
  destruct (fails CGetconn w) eqn:Hg.
  { rewrite create_without_connection in Hcall by auto. injection Hcall as <- <-. auto 10. }
  destruct (create_cases _ _ _ _ _ _ _ Hp (idle_session _ _ Hi) Hg Hcall)
    as (_ & _ & _ & Ho & Ht & _ & [(E & _)|(E & Ha & [(Hprod & _)|(Hprod & _)])]);
    [discriminate|injection E as ->; auto 10..].
Qed.

Lemma product_creation_failure_witness :
  HTTPException 500 "Failed to create product"
  = HTTPException 500 "Failed to create product" ∧
  orders (db (create_new_product
                {| ProductCreate.product_name := "Vase"; ProductCreate.description := "";
                   ProductCreate.price := PyFloat.literal 2500 2;
                   ProductCreate.stock_quantity := 3; ProductCreate.category := "Test";
                   ProductCreate.image_url := None |}
                Example.artisan
                (set_faults [CCommit] (Example.store (PyFloat.literal 10000 2) 1))).2)
  = [].
Proof.
  destruct (product_creation_failure
              {| ProductCreate.product_name := "Vase"; ProductCreate.description := "";
                 ProductCreate.price := PyFloat.literal 2500 2;
                 ProductCreate.stock_quantity := 3; ProductCreate.category := "Test";
                 ProductCreate.image_url := None |}
              Example.artisan
              (set_faults [CCommit] (Example.store (PyFloat.literal 10000 2) 1))
              (HTTPException 500 "Failed to create product")
              (create_new_product
                {| ProductCreate.product_name := "Vase"; ProductCreate.description := "";
                   ProductCreate.price := PyFloat.literal 2500 2;
                   ProductCreate.stock_quantity := 3; ProductCreate.category := "Test";
                   ProductCreate.image_url := None |}
                Example.artisan
                (set_faults [CCommit] (Example.store (PyFloat.literal 10000 2) 1))).2)
    as (He & Ho & _).
  - intros c s. unfold Example.store. cbn. by rewrite lookup_empty.
  - vm_compute. reflexivity.
  - split; [exact He|exact Ho].
Defined.

(** X15. A product created through [create_new_product] can be bought at
    once: on a store without failures, a purchase of the id the creation
    returned, for a quantity within the stock it was created with, returns
    Success and leaves that stock minus the quantity. *)
Theorem created_product_can_be_bought product_data artisan pd req buyer w c rest fq :
  faults w = [] → pool w = c :: rest → pending (session w c) = [] →
  row_locks w !! next_product_id w = None →
  PurchaseRequest.product_id pd = next_product_id w →
  PurchaseRequest.quantity pd ≤ ProductCreate.stock_quantity product_data →
  PyFloat.of_int (PurchaseRequest.quantity pd) = Some fq →
  let row := new_product_row product_data artisan in
  ∃ w1 w2,
    create_new_product product_data artisan w =
      (Return ("Product created successfully", (next_product_id w, row)), w1) ∧
    call_purchase pd req buyer w1 = (Return (purchase_response pd w1 row fq), w2) ∧
    products (db w2) !! next_product_id w =
      Some (Products.with_stock
              (ProductCreate.stock_quantity product_data - PurchaseRequest.quantity pd) row).
Proof.
  intros Hf Hp Hpend Hlock Hpid Hq Hfq row.
  assert (Hg : fails CGetconn w = false) by (unfold fails; by rewrite Hf).
  destruct (create_new_product product_data artisan w) as [r0 w1] eqn:Hcall.
  destruct (create_cases _ _ _ _ _ _ _ Hp Hpend Hg Hcall)
    as (Hp1 & Hf1 & Hl1 & _ & _ & Hs1 & [(-> & Hprod & _)|(_ & _ & [(_ & call & _ & Hc)|(_ & _ & _ & call & _ & Hc)])]).
  2,3: unfold fails in Hc; rewrite Hf in Hc; done.
  assert (Hrow1 : products (db w1) !! PurchaseRequest.product_id pd = Some row)
    by (by rewrite Hprod, Hpid, lookup_insert_eq).
  destruct (purchase_succeeds pd req buyer w1 c rest row fq) as (w2 & Hbuy & Hdb);
    try done; try congruence.
  - unfold session. by rewrite Hs1, lookup_insert_eq.
  - rewrite Hpid. destruct (row_locks w1 !! _) as [h|] eqn:Hh; [|done].
    apply Hl1 in Hh as [Hh _]. congruence.
  - exists w1, w2. split; [done|]. split; [done|].
    rewrite Hdb. unfold purchase_rows. cbn. rewrite <- Hpid, lookup_alter_eq, Hrow1. done.
Qed.

Lemma created_product_can_be_bought_witness :
  ∃ w1 w2,
    create_new_product
      {| ProductCreate.product_name := "Vase"; ProductCreate.description := "";
         ProductCreate.price := PyFloat.literal 2500 2;
         ProductCreate.stock_quantity := 3; ProductCreate.category := "Test";
         ProductCreate.image_url := None |}
      Example.artisan (Example.store (PyFloat.literal 10000 2) 1)
    = (Return ("Product created successfully",
               (2, {| Products.artisan_id := 1; Products.product_name := "Vase";
                      Products.description := "";
                      Products.price := PyFloat.literal 2500 2;
                      Products.stock_quantity := 3; Products.category := "Test";
                      Products.image_url := None |})), w1) ∧
    (∃ body,
       call_purchase
         {| PurchaseRequest.product_id := 2; PurchaseRequest.quantity := 2;
            PurchaseRequest.shipping_address := "" |}
         Example.request Example.buyer w1 = (Return body, w2)) ∧
    Products.stock_quantity <$> products (db w2) !! 2 = Some 1.
Proof.
  destruct (created_product_can_be_bought
              {| ProductCreate.product_name := "Vase"; ProductCreate.description := "";
                 ProductCreate.price := PyFloat.literal 2500 2;
                 ProductCreate.stock_quantity := 3; ProductCreate.category := "Test";
                 ProductCreate.image_url := None |}
              Example.artisan
              {| PurchaseRequest.product_id := 2; PurchaseRequest.quantity := 2;
                 PurchaseRequest.shipping_address := "" |}
              Example.request Example.buyer (Example.store (PyFloat.literal 10000 2) 1)
              0%nat [1%nat] (PyFloat.literal 2 0)) as (w1 & w2 & H1 & H2 & H3).
  - reflexivity.
  - reflexivity.
  - reflexivity.
  - reflexivity.
  - reflexivity.
  - cbn. lia.
  - vm_compute. reflexivity.
  - exists w1, w2. split; [exact H1|]. split; [eexists; exact H2|].
    change (next_product_id (Example.store (PyFloat.literal 10000 2) 1)) with 2 in H3.
    rewrite H3. reflexivity.
Defined.

(** ** [database.py] *)

Lemma cursor_execute_pool {R} (k : nat) (q : Sql R) w :
  pool (cursor_execute k q w).2 = pool w.
Proof.
  destruct w as [t locks sess pl npid noid ntid nw fs lg].
  destruct q; paths; reflexivity.
Qed.

(** X16. [get_cursor] gives back the connection it took, however the body
    ends and whether or not the cursor, the commit or the body fail: for a
    body that leaves the pool alone, the pool after the block is the pool
    before it.  When no connection can be had the body is not run and the
    world is untouched. *)
Theorem get_cursor_returns_connection {A} (commit : bool) (body : nat → M World A) w :
  (∀ k w1, pool (body k w1).2 = pool w1) →
  pool (get_cursor commit body w).2 = pool w ∧
  (pool w = [] ∨ fails CGetconn w = true →
   ∃ e, get_cursor commit body w = (Raise e, w)).
Proof.
  intros Hbody. destruct w as [t locks sess pl npid noid ntid nw fs lg].
  unfold fails. cbn. split.
  - exec. destruct (bool_decide (CGetconn ∈ fs)); [reflexivity|].
    destruct pl as [|c rest]; [reflexivity|]. exec.
    destruct (bool_decide (CCursor ∈ fs)); [reflexivity|]. exec.
    match goal with |- context [body ?k ?w1] =>
      pose proof (Hbody k w1) as Hb; destruct (body k w1) as [[a|e] wb] end.
    all: destruct wb as [tb locksb sessb plb npidb noidb ntidb nwb fsb lgb].
    all: cbn in Hb; subst plb.
    all: destruct commit; exec; try reflexivity.
    destruct (bool_decide (CCommit ∈ fsb)); reflexivity.
  - intros [->|Hg].
    + exec. destruct (bool_decide (CGetconn ∈ fs)); eexists; reflexivity.
    + exec. rewrite Hg. eexists; reflexivity.
Qed.

Lemma get_cursor_returns_connection_witness :
  pool (execute_update (UpdateProductStock 5 1)
          (set_faults [CCommit] (Example.store (PyFloat.literal 10000 2) 1))).2
  = [0%nat; 1%nat].
Proof.
  apply (get_cursor_returns_connection true
           (λ cursor, cursor_execute cursor (UpdateProductStock 5 1))
           (set_faults [CCommit] (Example.store (PyFloat.literal 10000 2) 1))).
  intros k w1. apply cursor_execute_pool.
Defined.

(** X17. [update_product_stock] on a store whose calls succeed: the number
    of rows it reports is 1 when the product exists and 0 when it does not;
    the stock of that product becomes the given quantity, whatever it is
    (the helper does not check its sign), its other columns and every other
    row are unchanged, and the connection is back in the pool. *)
Theorem update_product_stock_sets_stock product_id new_quantity w c rest :
  pool w = c :: rest → pending (session w c) = [] →
  Forall (λ call, fails call w = false) [CGetconn; CCursor; CUpdateStock; CCommit] →
  ∃ w',
    update_product_stock product_id new_quantity w =
      (Return (if products (db w) !! product_id is Some _ then 1 else 0)%nat, w') ∧
    products (db w') !! product_id
      = Products.with_stock new_quantity <$> products (db w) !! product_id ∧
    (∀ p, p ≠ product_id → products (db w') !! p = products (db w) !! p) ∧
    orders (db w') = orders (db w) ∧ transactions (db w') = transactions (db w) ∧
    audit_logs (db w') = audit_logs (db w) ∧ pool w' = pool w.
Proof.
  destruct w as [[prods ords txs auds] locks sess pl npid noid ntid nw fs lg].
  unfold fails, session. cbn. intros -> Hpend Hall. each_call Hall.
  destruct (sess !! c) as [[ac pnd]|] eqn:Hs; cbn in Hpend; subst.
  all: paths_once; try discriminate.
  all: eexists; split; [reflexivity|]; cbn.
  all: rewrite lookup_alter_eq; use_lookups.
  all: repeat split; try reflexivity.
  all: intros p Hne; by rewrite lookup_alter_ne.
Qed.

Lemma update_product_stock_sets_stock_witness :
  ∃ w',
    update_product_stock 1 (-5) (Example.store (PyFloat.literal 10000 2) 1)
      = (Return 1%nat, w') ∧
    products (db w') !! 1 = Some (Example.item (PyFloat.literal 10000 2) (-5)).
Proof.
  destruct (update_product_stock_sets_stock 1 (-5)
              (Example.store (PyFloat.literal 10000 2) 1) 0%nat [1%nat])
    as (w' & H & Hrow & _).
  - reflexivity.
  - reflexivity.
  - repeat constructor.
  - exists w'. split; [exact H|]. rewrite Hrow. reflexivity.
Defined.

(** X18. [create_order] on a store whose calls succeed returns the row it
    inserted: the id is the next value of the sequence, the creation time is
    the time of the store, the other columns are the arguments.  The orders
    gain exactly that row, the other tables are unchanged and the connection
    is back in the pool. *)
Theorem create_order_inserts_one_row buyer_id product_id quantity total_price
    shipping_address w c rest :
  pool w = c :: rest → pending (session w c) = [] →
  Forall (λ call, fails call w = false) [CGetconn; CCursor; CInsertOrder; CCommit] →
  let row := {| Orders.order_id := next_order_id w; Orders.buyer_id := buyer_id;
                Orders.product_id := product_id; Orders.quantity := quantity;
                Orders.total_price := total_price;
                Orders.shipping_address := shipping_address;
                Orders.created_at := now w |} in
  ∃ w',
    create_order buyer_id product_id quantity total_price shipping_address w
      = (Return (Some row), w') ∧
    orders (db w') = orders (db w) ++ [row] ∧
    products (db w') = products (db w) ∧ transactions (db w') = transactions (db w) ∧
    audit_logs (db w') = audit_logs (db w) ∧
    next_order_id w' = next_order_id w + 1 ∧ pool w' = pool w.
Proof.
  destruct w as [[prods ords txs auds] locks sess pl npid noid ntid nw fs lg].
  unfold fails, session. cbn. intros -> Hpend Hall. each_call Hall.
  destruct (sess !! c) as [[ac pnd]|] eqn:Hs; cbn in Hpend; subst.
  all: paths_once; try discriminate.
  all: eexists; repeat split; reflexivity.
Qed.

Lemma create_order_inserts_one_row_witness :
  ∃ w',
    create_order 2 1 1 (PyFloat.literal 10000 2) "Dhaka"
      (Example.store (PyFloat.literal 10000 2) 1)
    = (Return (Some {| Orders.order_id := 1; Orders.buyer_id := 2;
                       Orders.product_id := 1; Orders.quantity := 1;
                       Orders.total_price := PyFloat.literal 10000 2;
                       Orders.shipping_address := "Dhaka";
                       Orders.created_at := Example.noon |}), w') ∧
    length (orders (db w')) = 1%nat.
Proof.
  destruct (create_order_inserts_one_row 2 1 1 (PyFloat.literal 10000 2) "Dhaka"
              (Example.store (PyFloat.literal 10000 2) 1) 0%nat [1%nat])
    as (w' & H & Ho & _).
  - reflexivity.
  - reflexivity.
  - repeat constructor.
  - exists w'. split; [exact H|]. rewrite Ho. reflexivity.
Defined.

(** X19. [create_audit_log] on a store whose calls succeed appends one
    entry and returns it.  A [details] dictionary that is empty is stored as
    NULL, like an absent one; a dictionary with at least one key is stored as
    given. *)
Theorem audit_details_empty_is_null user_id action_type entity_type entity_id
    details ip_address w c rest :
  pool w = c :: rest → pending (session w c) = [] →
  Forall (λ call, fails call w = false) [CGetconn; CCursor; CInsertAuditLog; CCommit] →
  ∃ row w',
    create_audit_log user_id action_type entity_type entity_id details ip_address w
      = (Return (Some row), w') ∧
    audit_logs (db w') = audit_logs (db w) ++ [row] ∧
    AuditLogs.user_id row = user_id ∧ AuditLogs.action_type row = action_type ∧
    AuditLogs.entity_type row = entity_type ∧ AuditLogs.entity_id row = entity_id ∧
    AuditLogs.ip_address row = ip_address ∧
    (details = None ∨ details = Some [] → AuditLogs.details row = None) ∧
    (∀ d, details = Some d → d ≠ [] → AuditLogs.details row = Some d).
Proof.
  destruct w as [[prods ords txs auds] locks sess pl npid noid ntid nw fs lg].
  unfold fails, session. cbn. intros -> Hpend Hall. each_call Hall.
  destruct (sess !! c) as [[ac pnd]|] eqn:Hs; cbn in Hpend; subst.
  all: destruct details as [[|kv d]|].
  all: paths_once; try discriminate.
  all: eexists _, _; repeat split; try reflexivity.
  all: try (intros [?|?]; done).
  all: try (intros ? [= <-] ?; done).
Qed.

Lemma audit_details_empty_is_null_witness :
  ∃ row w',
    create_audit_log 2 "status_update" (Some "order") (Some 1) (Some []) None
      (Example.store (PyFloat.literal 10000 2) 1)
    = (Return (Some row), w') ∧
    AuditLogs.details row = None.
Proof.
  destruct (audit_details_empty_is_null 2 "status_update" (Some "order") (Some 1)
              (Some []) None (Example.store (PyFloat.literal 10000 2) 1) 0%nat [1%nat])
    as (row & w' & H & _ & _ & _ & _ & _ & _ & Hnull & _).
  - reflexivity.
  - reflexivity.
  - repeat constructor.
  - exists row, w'. split; [exact H|]. apply Hnull. right. reflexivity.
Defined.

(** ** [main.py]: validators and roles *)

(** X20. [ProductCreate.validate_price] rejects exactly the prices that
    compare [<= 0]: zero of either sign, the negative numbers and minus
    infinity.  It returns every other float as it is, NaN and plus infinity
    included. *)
Theorem validate_price_accepts (v : float) :
  (ProductCreate.validate_price v = Return v
     ↔ v = S754_nan ∨ v = S754_infinity false ∨ ∃ m e, v = S754_finite false m e) ∧
  (ProductCreate.validate_price v = Raise (ValueError "Price must be positive")
     ↔ (∃ s, v = S754_zero s) ∨ v = S754_infinity true ∨ ∃ m e, v = S754_finite true m e).
Proof.
  unfold ProductCreate.validate_price.
  destruct v as [s|s| |s m e]; try destruct s; cbn; split; split;
    try discriminate; try (intros _; eauto; fail);
    try (intros [H|[H|(? & ? & H)]]; discriminate H);
    try (intros [(? & H)|[H|(? & ? & H)]]; discriminate H); try done.
Qed.

(** X21. [role_checker] lets a payload through, unchanged, exactly when its
    ["role"] is a string of the required list; a payload without a role, or
    with a role that is not a string, is refused with 403 and a detail that
    lists the required roles.  Two guards whose lists share no role let no
    common payload through: what may create products ([artisan]) may not purchase
    ([buyer]). *)
Theorem role_checker_lets_through required_roles current_user :
  (require_role required_roles current_user = Return current_user
     ↔ ∃ role, current_user !! "role" = Some (JStr role) ∧ role ∈ required_roles) ∧
  (require_role required_roles current_user ≠ Return current_user →
     require_role required_roles current_user =
       Raise (HTTPException 403
                ("Access denied. Required role: " +:+ String.concat ", " required_roles))) ∧
  (∀ other_roles,
     (∀ role, role ∈ required_roles → role ∉ other_roles) →
     require_role required_roles current_user = Return current_user →
     require_role other_roles current_user =
       Raise (HTTPException 403
                ("Access denied. Required role: " +:+ String.concat ", " other_roles))).
Proof.
  unfold require_role, role_checker.
  assert (Hiff : ∀ roles,
            (if match current_user !! "role" with
                | Some (JStr role) => bool_decide (role ∈ roles)
                | _ => false
                end
             then Return current_user
             else Raise (HTTPException HTTP_403_FORBIDDEN
                           ("Access denied. Required role: " +:+ String.concat ", " roles)))
            = Return current_user
            ↔ ∃ role, current_user !! "role" = Some (JStr role) ∧ role ∈ roles).
  { intros roles. destruct (current_user !! "role") as [[role|n|x]|].
    - case_bool_decide; split; try discriminate; eauto.
      intros (role' & [= <-] & ?). done.
    - split; [discriminate|]. intros (? & [=] & _).
    - split; [discriminate|]. intros (? & [=] & _).
    - split; [discriminate|]. intros (? & [=] & _). }
  split; [apply Hiff|]. split.
  - destruct (current_user !! "role") as [[role|n|x]|]; try done.
    case_bool_decide; done.
  - intros other Hdisj Hok. apply Hiff in Hok as (role & Hrole & Hin).
    rewrite Hrole. rewrite bool_decide_eq_false_2 by (by apply Hdisj). done.
Qed.

(** ** The commission on whole cents *)

Lemma holds_from_spec check fuel i n :
  holds_from check fuel i = true → i ≤ n < i + Z.of_nat fuel → check n = true.
Proof.
  revert i. induction fuel as [|fuel IH]; intros i H Hn; [lia|].
  cbn [holds_from] in H. destruct (check i) eqn:Hi; [|discriminate].
  destruct (decide (n = i)) as [->|Hne]; [done|].
  apply (IH (i + 1)); [done|lia].
Qed.

(** [round(x, 2)] of a float that is not negative is the float nearest to a
    whole number of cents. *)
Lemma round_is_cents x :
  nonnegative x = true → PyFloat.round x 2 = PyFloat.literal (rounded_cents x) 2.
Proof.
  destruct x as [[]| | |[] m e]; try discriminate; intros _; [reflexivity|].
  unfold PyFloat.round, rounded_cents, PyFloat.literal.
  change (Z.pow 10 (Z.of_nat 2)) with 100.
  destruct (match e with
            | Zneg d => PyFloat.div_half_even (Zpos m * 100) (Z.pow 2 (Zpos d))
            | _ => Zpos m * Z.pow 2 e * 100
            end) as [|k|k] eqn:Hk; try reflexivity.
  (* a negative number of cents does not occur *)
  exfalso. destruct e as [|e|d].
  - lia.
  - pose proof (Z.pow_pos_nonneg 2 (Zpos e)). lia.
  - unfold PyFloat.div_half_even in Hk.
    pose proof (Z.pow_pos_nonneg 2 (Zpos d) ltac:(lia) ltac:(lia)) as Hp.
    pose proof (Z.div_eucl_eq (Zpos m * 100) (2 ^ Zpos d) ltac:(lia)) as Hd.
    pose proof (Z.mod_pos_bound (Zpos m * 100) (2 ^ Zpos d) Hp) as Hm.
    unfold Z.modulo in Hm.
    destruct (Z.div_eucl (Zpos m * 100) (2 ^ Zpos d)) as [q r].
    assert (0 ≤ q) by nia.
    destruct (2 * r ?= 2 ^ Zpos d); [destruct (Z.even q)|..]; lia.
Qed.

Lemma cent_amounts_checked :
  (let rate := PyFloat.literal 5 2 in
   holds_from (λ n, split_in_cents rate (PyFloat.literal n 2) n) (Z.to_nat 20001) 0)
  = true.
Proof. vm_compute. reflexivity. Qed.

Lemma unit_amounts_checked :
  (let rate := PyFloat.literal 5 2 in
   holds_from (split_of_units rate) (Z.to_nat 20001) 0) = true.
Proof. vm_compute. reflexivity. Qed.

(** X22. For an amount of [n] whole cents, up to 200.00, the commission and
    the payout [create_transaction] records are whole numbers of cents that
    add up to [n], and the commission is 5% of the amount to within half a
    cent. *)
Theorem whole_cent_split_adds_up n order_id artisan_id buyer_id product_id w row w' :
  0 ≤ n ≤ 20000 →
  create_transaction order_id artisan_id buyer_id product_id (PyFloat.literal n 2) w
    = (Return (Some row), w') →
  ∃ f p,
    Transactions.commission_fee row = PyFloat.literal f 2 ∧
    Transactions.artisan_payout row = PyFloat.literal p 2 ∧
    f + p = n ∧ Z.abs (100 * f - 5 * n) ≤ 50.
Proof.
  intros Hn Hcall.
  apply create_transaction_split in Hcall as (_ & Hfee & Hpay).
  pose proof (holds_from_spec _ _ _ n cent_amounts_checked ltac:(lia)) as Hcheck.
  cbn beta in Hcheck. unfold split_in_cents in Hcheck.
  apply andb_prop in Hcheck as [Hcheck Hclose].
  apply andb_prop in Hcheck as [Hcheck Hsum].
  apply andb_prop in Hcheck as [Hprod Hdiff].
  rewrite (round_is_cents _ Hprod) in Hfee.
  rewrite Hfee in Hpay. rewrite (round_is_cents _ Hdiff) in Hpay.
  eexists _, _. split; [exact Hfee|]. split; [exact Hpay|].
  split; [by apply Z.eqb_eq|by apply Z.leb_le].
Qed.

Lemma whole_cent_split_adds_up_witness :
  ∃ f p,
    PyFloat.round (PyFloat.mul (PyFloat.literal 1999 2) (PyFloat.literal 5 2)) 2
      = PyFloat.literal f 2 ∧
    f + p = 1999.
Proof.
  destruct (whole_cent_split_adds_up 1999 1 1 2 1
              (Example.store (PyFloat.literal 10000 2) 1)
              {| Transactions.transaction_id := 1; Transactions.order_id := 1;
                 Transactions.artisan_id := 1; Transactions.buyer_id := 2;
                 Transactions.product_id := 1;
                 Transactions.amount := PyFloat.literal 1999 2;
                 Transactions.commission_fee :=
                   PyFloat.round (PyFloat.mul (PyFloat.literal 1999 2)
                                    (PyFloat.literal 5 2)) 2;
                 Transactions.artisan_payout :=
                   PyFloat.round
                     (PyFloat.sub (PyFloat.literal 1999 2)
                        (PyFloat.round (PyFloat.mul (PyFloat.literal 1999 2)
                                          (PyFloat.literal 5 2)) 2)) 2 |}
              (create_transaction 1 1 2 1 (PyFloat.literal 1999 2)
                 (Example.store (PyFloat.literal 10000 2) 1)).2)
    as (f & p & Hf & _ & Hsum & _).
  - lia.
  - vm_compute. reflexivity.
  - exists f, p. split; [exact Hf|exact Hsum].
Defined.

(** X23. For an amount of [k] whole units, up to 20000, the commission
    [create_transaction] records is exactly [5 k] cents and the payout
    exactly [95 k] cents. *)
Theorem whole_unit_split_is_exact k amount order_id artisan_id buyer_id product_id w row w' :
  0 ≤ k ≤ 20000 →
  PyFloat.of_int k = Some amount →
  create_transaction order_id artisan_id buyer_id product_id amount w
    = (Return (Some row), w') →
  Transactions.commission_fee row = PyFloat.literal (5 * k) 2 ∧
  Transactions.artisan_payout row = PyFloat.literal (95 * k) 2.
Proof.
  intros Hk Hamount Hcall.
  apply create_transaction_split in Hcall as (_ & Hfee & Hpay).
  pose proof (holds_from_spec _ _ _ k unit_amounts_checked ltac:(lia)) as Hcheck.
  unfold split_of_units in Hcheck. rewrite Hamount in Hcheck.
  apply andb_prop in Hcheck as [Hcheck Hp].
  apply andb_prop in Hcheck as [Hcheck Hf].
  apply andb_prop in Hcheck as [Hprod Hdiff].
  apply Z.eqb_eq in Hf, Hp.
  rewrite (round_is_cents _ Hprod) in Hfee.
  rewrite Hfee in Hpay. rewrite (round_is_cents _ Hdiff) in Hpay.
  rewrite Hf in Hfee. rewrite Hp in Hpay. done.
Qed.

Lemma whole_unit_split_is_exact_witness :
  PyFloat.round (PyFloat.mul (PyFloat.literal 250000 2) (PyFloat.literal 5 2)) 2
    = PyFloat.literal 12500 2.
Proof.
  apply (whole_unit_split_is_exact 2500 (PyFloat.literal 250000 2) 1 1 2 1
           (Example.store (PyFloat.literal 10000 2) 1)
           {| Transactions.transaction_id := 1; Transactions.order_id := 1;
              Transactions.artisan_id := 1; Transactions.buyer_id := 2;
              Transactions.product_id := 1;
              Transactions.amount := PyFloat.literal 250000 2;
              Transactions.commission_fee :=
                PyFloat.round (PyFloat.mul (PyFloat.literal 250000 2)
                                 (PyFloat.literal 5 2)) 2;
              Transactions.artisan_payout :=
                PyFloat.round
                  (PyFloat.sub (PyFloat.literal 250000 2)
                     (PyFloat.round (PyFloat.mul (PyFloat.literal 250000 2)
                                       (PyFloat.literal 5 2)) 2)) 2 |}
           (create_transaction 1 1 2 1 (PyFloat.literal 250000 2)
              (Example.store (PyFloat.literal 10000 2) 1)).2).
  - lia.
  - vm_compute. reflexivity.
  - vm_compute. reflexivity.
Defined.

(** ** Concurrent purchases of different products *)

Lemma unlock_none c (locks : gmap Z nat) p :
  locks !! p = None → unlock c (unlock c locks) !! p = None.
Proof.
  intros Hn. destruct (unlock c (unlock c locks) !! p) as [h|] eqn:Hh; [|done].
  apply lookup_unlock in Hh as [Hh _]. apply lookup_unlock in Hh as [Hh _]. congruence.
Qed.

Lemma unlock_own c (locks : gmap Z nat) p :
  locks !! p = Some c → unlock c (unlock c locks) !! p = None.
Proof.
  intros Hn. destruct (unlock c (unlock c locks) !! p) as [h|] eqn:Hh; [|done].
  apply lookup_unlock in Hh as [Hh Hne]. apply lookup_unlock in Hh as [Hh _]. congruence.
Qed.

Lemma unlock_other c (locks : gmap Z nat) p h :
  locks !! p = Some h → h ≠ c → unlock c (unlock c locks) !! p = Some h.
Proof. intros Hh Hne. apply lookup_unlock. split; [|done]. by apply lookup_unlock. Qed.

(** A thread is not disturbed when another thread takes the lock of another
    row with a connection of the pool. *)
Lemma apart_ok_after_lock w w' pd S t pid c rest s :
  apart_ok w pd S t → PurchaseRequest.product_id pd ≠ pid →
  pool w = c :: rest → pool w' = rest → db w' = db w →
  row_locks w' = <[pid := c]> (row_locks w) →
  sessions w' = <[c := s]> (sessions w) →
  apart_ok w' pd S t.
Proof.
  intros Hok Hne Hp Hp' Hdb Hl Hs.
  destruct t as [pd' req u|pd' req u conn cur locked|r]; cbn in *.
  - destruct Hok as (-> & Hlock & row & Hrow & Hst).
    rewrite Hl, Hdb, lookup_insert_ne by done. eauto.
  - destruct Hok as (-> & c' & aid & name & price & -> & -> & -> & Hcp & Hcs & Hcl & row & Hrow & Hst).
    assert (c' ≠ c) by (intros ->; apply Hcp; rewrite Hp; left).
    split; [done|]. exists c', aid, name, price.
    rewrite Hp', Hs, Hl, Hdb, !lookup_insert_ne by done.
    repeat split; try done; [|by eauto].
    intros Hin. apply Hcp. rewrite Hp. by right.
  - destruct Hok as (Hlock & row & Hrow & Hst).
    rewrite Hl, Hdb, lookup_insert_ne by done. eauto.
Qed.

(** Nor when another thread ends its transaction on another row. *)
Lemma apart_ok_after_release w w' pd S t pid c s :
  apart_ok w pd S t → PurchaseRequest.product_id pd ≠ pid →
  held_connection t ≠ Some c →
  (∀ p, p ≠ pid → products (db w') !! p = products (db w) !! p) →
  pool w' = c :: pool w →
  row_locks w' = unlock c (unlock c (row_locks w)) →
  sessions w' = <[c := s]> (sessions w) →
  apart_ok w' pd S t.
Proof.
  intros Hok Hne Hconn Hdb Hp' Hl Hs.
  destruct t as [pd' req u|pd' req u conn cur locked|r]; cbn in *.
  - destruct Hok as (-> & Hlock & row & Hrow & Hst).
    rewrite Hl, Hdb by done. split; [done|]. split; [by apply unlock_none|eauto].
  - destruct Hok as (-> & c' & aid & name & price & -> & -> & -> & Hcp & Hcs & Hcl & row & Hrow & Hst).
    assert (c' ≠ c) by congruence.
    split; [done|]. exists c', aid, name, price.
    rewrite Hp', Hs, Hl, Hdb, lookup_insert_ne by done.
    repeat split; try done; [| |by eauto].
    + intros [?|?]%elem_of_cons; done.
    + by apply unlock_other.
  - destruct Hok as (Hlock & row & Hrow & Hst).
    rewrite Hl, Hdb by done. split; [by apply unlock_none|eauto].
Qed.

Lemma held_connection_holding t c : held_connection t = Some c → is_holding t = true.
Proof. by destruct t. Qed.

Lemma step_apart reqs cfg i :
  NoDup (PurchaseRequest.product_id ∘ fst <$> reqs) →
  Forall (λ r, is_Some (PyFloat.of_int (PurchaseRequest.quantity r.1))) reqs →
  apart reqs cfg → apart reqs (schedule_step cfg i).
Proof.
  intros Hpids Hfqs Ha. destruct cfg as [w ts].
  destruct Ha as [Hf Hlen Hth Hidle Hnd Hpl Hco].
  cbn [fst snd] in *. unfold schedule_step. cbn [fst snd].
  destruct (ts !! i) as [t|] eqn:Hi; [|by constructor; eauto].
  pose proof (lookup_lt_Some _ _ _ Hi) as Hlt.
  destruct (reqs !! i) as [[pd S]|] eqn:Hreq;
    [|apply lookup_ge_None in Hreq; lia].
  pose proof (Hth i pd S t Hreq Hi) as Hok.
  assert (Hdistinct : ∀ k pd' S', k ≠ i → reqs !! k = Some (pd', S') →
            PurchaseRequest.product_id pd' ≠ PurchaseRequest.product_id pd).
  { intros k pd' S' Hk Hreq' Heq. apply Hk.
    eapply (NoDup_lookup _ k i); [exact Hpids|..].
    - rewrite list_lookup_fmap, Hreq'. reflexivity.
    - rewrite list_lookup_fmap, Hreq. cbn. by rewrite Heq. }
  destruct t as [pd0 req u | pd0 req u conn cur locked | r].
  - (* the thread takes the lock of its row *)
    destruct Hok as (-> & Hlock & row & Hrow & Hst).
    destruct (pool w) as [|c rest] eqn:Hpool.
    { exfalso. pose proof (count_pos is_waiting ts i _ Hi eq_refl). cbn in Hpl. lia. }
    assert (Hpend : pending (session w c) = []) by (apply Hidle; left).
    apply NoDup_cons in Hnd as [Hc_rest Hnd].
    destruct (waiting_step_free pd req u w c rest row)
      as (w' & Hstep & Hdb & Hp & Hf' & Hl & Hs); try done; try congruence.
    rewrite Hstep. set (t' := Holding _ _ _ _ _ _).
    pose proof (count_insert is_waiting ts i _ t' Hi) as Hwait. cbn in Hwait.
    constructor; cbn [fst snd].
    + done.
    + by rewrite length_insert.
    + intros k pd' S' tk Hreq' Hk. destruct (decide (i = k)) as [<-|Hik].
      * rewrite list_lookup_insert_eq in Hk by done. injection Hk as <-.
        assert (pd' = pd ∧ S' = S) as [-> ->] by (split; congruence).
        cbn. split; [done|].
        exists c, (Products.artisan_id row), (Products.product_name row), (Products.price row).
        rewrite Hp, Hs, Hl, Hdb, !lookup_insert_eq, Hst. repeat split; try done. eauto.
      * rewrite list_lookup_insert_ne in Hk by done.
        eapply apart_ok_after_lock; eauto.
    + intros c' Hc'. rewrite Hp in Hc'.
      eapply pending_after_insert; [done..|]. apply Hidle. by right.
    + by rewrite Hp.
    + rewrite Hp. cbn in *. lia.
    + intros k l tk tl c0 Hk Hl' Hck Hcl.
      destruct (decide (k = l)) as [|Hkl]; [done|]. exfalso.
      assert (Hold : ∀ m tm, m ≠ i → ts !! m = Some tm → held_connection tm = Some c →
                False).
      { intros m tm Hm Htm Hcm.
        destruct (reqs !! m) as [[pdm Sm]|] eqn:Hreqm;
          [|apply lookup_ge_None in Hreqm; apply lookup_lt_Some in Htm; lia].
        pose proof (Hth m pdm Sm tm Hreqm Htm) as Hokm.
        destruct tm as [| pdm' reqm um connm curm lockedm |]; try done.
        destruct Hokm as (_ & cm & _ & _ & _ & -> & _ & _ & Hcp & _).
        cbn in Hcm. injection Hcm as ->. apply Hcp. rewrite ?Hpool. apply elem_of_cons. by left. }
      destruct (decide (i = k)) as [<-|Hik]; destruct (decide (i = l)) as [<-|Hil];
        try done.
      * rewrite list_lookup_insert_eq in Hk by done. injection Hk as <-.
        rewrite list_lookup_insert_ne in Hl' by done.
        cbn in Hck. injection Hck as <-. eauto.
      * rewrite list_lookup_insert_eq in Hl' by done. injection Hl' as <-.
        rewrite list_lookup_insert_ne in Hk by done.
        cbn in Hcl. injection Hcl as <-. eauto.
      * rewrite list_lookup_insert_ne in Hk, Hl' by done. apply Hkl. eauto.
  - (* the thread ends its transaction *)
    destruct Hok as (-> & c & aid & name & price & -> & -> & -> & Hcp & Hcs & Hcl & row & Hrow & Hst).
    assert (Hcpend : pending (session w c) = []) by (unfold session; by rewrite Hcs).
    assert (Hothers : ∀ k tk, i ≠ k → ts !! k = Some tk → held_connection tk ≠ Some c).
    { intros k tk Hik Hk Hck. apply Hik. eapply Hco; eauto. }
    eapply Forall_lookup_1 in Hfqs as [fq Hfq]; [|exact Hreq]. cbn in Hfq.
    assert (Hstep : ∃ r w',
      thread_step (Holding pd req u (Some c) (Some c)
                     (c, c, Some (PurchaseRequest.product_id pd, aid, name, price, S))) w
        = (Finished r, w') ∧
      (if bool_decide (PurchaseRequest.quantity pd ≤ S)
       then (∃ body, r = Return body) ∧
            products (db w') =
              alter (Products.with_stock (S - PurchaseRequest.quantity pd))
                (PurchaseRequest.product_id pd) (products (db w))
       else (∃ detail, r = Raise (HTTPException 400 detail)) ∧ db w' = db w) ∧
      pool w' = c :: pool w ∧ faults w' = [] ∧
      row_locks w' = unlock c (unlock c (row_locks w)) ∧
      sessions w' = <[c := {| autocommit := true; pending := [] |}]> (sessions w)).
    { case_bool_decide as Hge.
      - destruct (holding_step_ok pd req u w c aid name price S fq)
          as (body & w' & Hstep & Hdb & Hp & Hf' & Hl & Hs); try done.
        exists (Return body), w'. eauto 10.
      - destruct (holding_step_short pd req u w c aid name price S)
          as (r & w' & Hstep & Hr & Hdb & Hp & Hf' & Hl & Hs); [lia|].
        exists r, w'. rewrite Hr. split; [by rewrite <- Hr|].
        split; [eauto|]. split; [done|]. split; [congruence|]. done. }
    destruct Hstep as (r & w' & Hstep & Hres & Hp & Hf' & Hl & Hs).
    rewrite Hstep. set (t' := Finished r).
    assert (Hframe : ∀ p, p ≠ PurchaseRequest.product_id pd →
              products (db w') !! p = products (db w) !! p).
    { intros p Hp'. case_bool_decide.
      - destruct Hres as [_ ->]. by rewrite lookup_alter_ne.
      - destruct Hres as [_ ->]. done. }
    pose proof (count_insert is_waiting ts i _ t' Hi) as Hwait. cbn in Hwait.
    constructor; cbn [fst snd].
    + done.
    + by rewrite length_insert.
    + intros k pd' S' tk Hreq' Hk. destruct (decide (i = k)) as [<-|Hik].
      * rewrite list_lookup_insert_eq in Hk by done. injection Hk as <-.
        assert (pd' = pd ∧ S' = S) as [-> ->] by (split; congruence).
        cbn. rewrite Hl. split; [by apply unlock_own|].
        case_bool_decide.
        -- destruct Hres as [Hbody ->]. rewrite lookup_alter_eq, Hrow. cbn.
           eexists. split; [reflexivity|]. cbn. done.
        -- destruct Hres as [Hdetail ->]. exists row. done.
      * rewrite list_lookup_insert_ne in Hk by done.
        eapply apart_ok_after_release; eauto.
    + intros c' Hc'. eapply pending_after_insert; [done..|].
      rewrite Hp in Hc'. apply elem_of_cons in Hc' as [->|Hc']; [done|by apply Hidle].
    + rewrite Hp. by apply NoDup_cons.
    + rewrite Hp. cbn in *. lia.
    + intros k l tk tl c0 Hk Hl' Hck Hcl'.
      destruct (decide (i = k)) as [<-|Hik];
        [rewrite list_lookup_insert_eq in Hk by done; by injection Hk as <-|].
      destruct (decide (i = l)) as [<-|Hil];
        [rewrite list_lookup_insert_eq in Hl' by done; by injection Hl' as <-|].
      rewrite list_lookup_insert_ne in Hk, Hl' by done. eauto.
  - (* a finished thread does nothing *)
    cbn. rewrite list_insert_id by done. by constructor; eauto.
Qed.

Lemma run_apart reqs schedule cfg :
  NoDup (PurchaseRequest.product_id ∘ fst <$> reqs) →
  Forall (λ r, is_Some (PyFloat.of_int (PurchaseRequest.quantity r.1))) reqs →
  apart reqs cfg → apart reqs (run_schedule schedule cfg).
Proof.
  intros Hpids Hfqs. revert cfg.
  induction schedule as [|i schedule IH]; intros cfg Hc; [done|].
  cbn. apply IH. by apply step_apart.
Qed.

Lemma initially_apart reqs w ts :
  faults w = [] → idle w → NoDup (pool w) → (length ts ≤ length (pool w))%nat →
  Forall2 (λ r t, ∃ req u, t = Waiting r.1 req u ∧
             row_locks w !! PurchaseRequest.product_id r.1 = None ∧
             ∃ row, products (db w) !! PurchaseRequest.product_id r.1 = Some row ∧
                    Products.stock_quantity row = r.2) reqs ts →
  apart reqs (w, ts).
Proof.
  intros Hf Hidle Hnd Hlen Hall.
  assert (Hwait : ∀ i t, ts !! i = Some t → is_waiting t = true).
  { intros i t Hi. eapply Forall2_lookup_r in Hall as (r & _ & req & u & -> & _); eauto. }
  assert (Hcount : count is_waiting ts = length ts).
  { clear -Hwait. induction ts as [|a ts IH]; [done|]. cbn.
    rewrite (Hwait 0%nat a eq_refl). rewrite IH; [done|].
    intros i t Hi. exact (Hwait (Datatypes.S i) t Hi). }
  constructor; cbn [fst snd].
  - done.
  - symmetry. by eapply Forall2_length.
  - intros i pd S t Hreq Hi.
    eapply Forall2_lookup_lr in Hall as (req & u & -> & Hl & row & Hrow & Hst); eauto.
    cbn in *. eauto 10.
  - intros c _. unfold session. destruct (sessions w !! c) as [s|] eqn:Hc; [|done].
    cbn. by eapply Hidle.
  - done.
  - lia.
  - intros i j ti tj c Hi _ Hci. pose proof (Hwait i ti Hi). by destruct ti.
Qed.

(** X24. Purchases of different products do not contend.  Under every
    schedule of concurrent attempts, each for a product of its own, on a
    store without failures with a connection for each, an attempt that has
    finished has ended as it would have alone: with Success and the stock of
    its product lowered by its quantity when the stock sufficed, with 400 and
    the stock untouched when it did not; never with 409.  The row is
    unlocked again. *)
Theorem different_products_do_not_contend reqs w ts schedule :
  faults w = [] → idle w → NoDup (pool w) → (length ts ≤ length (pool w))%nat →
  NoDup (PurchaseRequest.product_id ∘ fst <$> reqs) →
  Forall (λ r, is_Some (PyFloat.of_int (PurchaseRequest.quantity r.1))) reqs →
  Forall2 (λ r t, ∃ req u, t = Waiting r.1 req u ∧
             row_locks w !! PurchaseRequest.product_id r.1 = None ∧
             ∃ row, products (db w) !! PurchaseRequest.product_id r.1 = Some row ∧
                    Products.stock_quantity row = r.2) reqs ts →
  let w' := (run_schedule schedule (w, ts)).1 in
  let ts' := (run_schedule schedule (w, ts)).2 in
  ∀ i pd S r, reqs !! i = Some (pd, S) → ts' !! i = Some (Finished r) →
    row_locks w' !! PurchaseRequest.product_id pd = None ∧
    ∃ row, products (db w') !! PurchaseRequest.product_id pd = Some row ∧
      if bool_decide (PurchaseRequest.quantity pd ≤ S)
      then (∃ body, r = Return body) ∧
           Products.stock_quantity row = S - PurchaseRequest.quantity pd
      else (∃ detail, r = Raise (HTTPException 400 detail)) ∧
           Products.stock_quantity row = S.
Proof.
  intros Hf Hidle Hnd Hlen Hpids Hfqs Hall w' ts' i pd S r Hreq Hi.
  assert (Ha : apart reqs (w', ts')).
  { unfold w', ts'. rewrite <- surjective_pairing.
    apply run_apart; [done..|]. by apply initially_apart. }
  exact (a_threads _ _ Ha i pd S _ Hreq Hi).
Qed.

Lemma different_products_do_not_contend_witness :
  ∃ row,
    products (db (run_schedule [0; 1; 1; 0]%nat (two_products, rivals)).1) !! 2 = Some row ∧
    Products.stock_quantity row = 1.
Proof.
  destruct ((run_schedule [0; 1; 1; 0]%nat (two_products, rivals)).2 !! 1%nat)
    as [[| |r]|] eqn:Hfin.
  1, 2, 4: vm_compute in Hfin; discriminate Hfin.
  destruct (different_products_do_not_contend
              [(Example.buy 1, 1); (buy_other 2, 3)] two_products rivals
              [0; 1; 1; 0]%nat) with (i := 1%nat) (pd := buy_other 2) (S := 3) (r := r)
    as (_ & row & Hrow & Hres).
  - reflexivity.
  - intros c s. unfold two_products, Example.store. cbn. by rewrite lookup_empty.
  - change (NoDup [0%nat; 1%nat]). apply NoDup_cons. split.
    + by intros ?%list_elem_of_singleton.
    + apply NoDup_singleton.
  - cbn. lia.
  - change (NoDup [1; 2]). apply NoDup_cons. split.
    + by intros ?%list_elem_of_singleton.
    + apply NoDup_singleton.
  - repeat constructor; vm_compute; eexists; reflexivity.
  - repeat constructor; eexists _, _; (split; [reflexivity|]);
      (split; [reflexivity|]); eexists; split; vm_compute; reflexivity.
  - reflexivity.
  - exact Hfin.
  - exists row. split; [exact Hrow|].
    rewrite bool_decide_eq_true_2 in Hres by (cbn; lia). exact (proj2 Hres).
Defined.
